(** * The gateway client of [hikari.net.gateway]

    A shallow embedding of [GatewayClient] (src/hikari/net/gateway.py) and
    the properties its specification states about it.

    - Python floats are [spec_float] values of the IEEE-754 binary64 format
      ([float("nan")] is [S754_nan]); comparisons are [SFltb]/[SFleb].
    - JSON payloads are the [json] trees below; a Python [dict] is an
      association list in insertion order.
    - A coroutine is a function from the [World] to an [outcome] and a new
      [World]: it returns, raises, or stays suspended on a receive whose
      frame has not arrived.  Calls into aiohttp, the rate limiter and the
      dispatch sink are recorded in the [log] of the world.
    - The three tasks of [connect] are interleaved by a schedule, one pass
      through a task's loop per entry.
    - The helpers of [hikari.internal.conversions]
      (src/hikari/internal/conversions.py) for mappings, image data and
      flags are in [Module conversions]. *)

From Stdlib Require Import ZArith List String Ascii Bool Lia Strings.Byte.
From Stdlib Require Import Floats.SpecFloat DecimalString.
From Stdlib Require Import Permutation.
Import ListNotations.

Local Open Scope string_scope.
Local Open Scope Z_scope.

(** ** Python values *)

Module Py.

(** binary64 *)
Definition prec : Z := 53.
Definition emax : Z := 1024.

Definition nan : spec_float := S754_nan.

(** [math.isnan] *)
Definition isnan (x : spec_float) : bool :=
  match x with S754_nan => true | _ => false end.

(** [a < b] and [a >= b] on floats. *)
Definition lt (a b : spec_float) : bool := SFltb a b.
Definition ge (a b : spec_float) : bool := SFleb b a.

Definition sub (a b : spec_float) : spec_float := SFsub prec emax a b.
Definition div (a b : spec_float) : spec_float := SFdiv prec emax a b.
Definition mul (a b : spec_float) : spec_float := SFmul prec emax a b.

(** [float(n)] for an [int]; [None] is the [OverflowError] of an integer
    beyond the binary64 range. *)
Definition float_of_int (n : Z) : option spec_float :=
  match binary_normalize prec emax n 0 false with
  | S754_infinity _ => None
  | x => Some x
  end.

(** A float literal with an integral value. *)
Definition float_lit (n : Z) : spec_float := binary_normalize prec emax n 0 false.

(** [str(n)] for an [int]. *)
Definition str_of_int (n : Z) : string := NilZero.string_of_int (Z.to_int n).

(** [sep.join(parts)] *)
Fixpoint join (sep : string) (parts : list string) : string :=
  match parts with
  | [] => ""
  | [p] => p
  | p :: ps => p ++ sep ++ join sep ps
  end.

(** [buffer.endswith(suffix)] on bytes. *)
Definition endswith (buffer suffix : list byte) : bool :=
  (List.length suffix <=? List.length buffer)%nat &&
  if list_eq_dec Byte.byte_eq_dec
       (skipn (List.length buffer - List.length suffix) buffer) suffix
  then true else false.

End Py.

(** JSON values as [json.loads] yields them and [json.dumps] takes them. *)
#[local] Unset Elimination Schemes.
Inductive json : Type :=
| JNull
| JBool (b : bool)
| JInt (n : Z)
| JFloat (x : spec_float)
| JStr (s : string)
| JList (items : list json)
| JDict (fields : list (string * json)).
#[local] Set Elimination Schemes.

(** What a WebSocket message carries in [message.data]. *)
Inductive pydata : Type :=
| PyNone
| PyStr (s : string)
| PyBytes (b : list byte)
| PyInt (n : Z).

(** ** Exceptions *)

(** A rendered f-string: its literal text and interpolated values. *)
Inductive fragment : Type :=
| Lit (s : string)
| Val (v : json)
| Repr (s : string).

Inductive exn : Type :=
(* hikari.net.errors *)
| GatewayError (message : list fragment) (cause : option string)
| GatewayZombiedError
| GatewayMustReconnectError
| GatewayInvalidSessionError (resumable : bool)
| GatewayInvalidTokenError
| GatewayNeedsShardingError
| GatewayConnectionClosedError (close_code : option Z)
| GatewayClientClosedError
(* builtins *)
| KeyError (key : string)
| TypeError
| AttributeError
| OverflowError
| TimeoutError
(* raised inside a library or an injected callable *)
| External (origin : string).

(** The class of an exception, as an [except] clause sees it. *)
Inductive exn_class : Type :=
| CGatewayError | CGatewayZombiedError | CGatewayMustReconnectError
| CGatewayInvalidSessionError | CGatewayInvalidTokenError
| CGatewayNeedsShardingError | CGatewayConnectionClosedError
| CGatewayClientClosedError
| CKeyError | CTypeError | CAttributeError | COverflowError | CTimeoutError
| CExternal (origin : string).

Definition class_of (e : exn) : exn_class :=
  match e with
  | GatewayError _ _ => CGatewayError
  | GatewayZombiedError => CGatewayZombiedError
  | GatewayMustReconnectError => CGatewayMustReconnectError
  | GatewayInvalidSessionError _ => CGatewayInvalidSessionError
  | GatewayInvalidTokenError => CGatewayInvalidTokenError
  | GatewayNeedsShardingError => CGatewayNeedsShardingError
  | GatewayConnectionClosedError _ => CGatewayConnectionClosedError
  | GatewayClientClosedError => CGatewayClientClosedError
  | KeyError _ => CKeyError
  | TypeError => CTypeError
  | AttributeError => CAttributeError
  | OverflowError => COverflowError
  | TimeoutError => CTimeoutError
  | External o => CExternal o
  end.

(** ** Operations of Python on JSON values *)

(** [v == n] for an [int] literal [n]. *)
Definition py_eq_int (v : json) (n : Z) : bool :=
  match v with
  | JInt m => m =? n
  | JBool b => (if b then 1 else 0) =? n
  | JFloat x => SFeqb x (Py.float_lit n)
  | _ => false
  end.

(** [bool(v)] *)
Definition py_bool (v : json) : bool :=
  match v with
  | JNull => false
  | JBool b => b
  | JInt n => negb (n =? 0)
  | JFloat x => negb (SFeqb x (S754_zero false))
  | JStr s => negb (String.eqb s "")
  | JList l => match l with [] => false | _ => true end
  | JDict l => match l with [] => false | _ => true end
  end.

Fixpoint assoc (key : string) (fields : list (string * json)) : option json :=
  match fields with
  | [] => None
  | (k, v) :: rest => if String.eqb k key then Some v else assoc key rest
  end.

(** [v[key]] *)
Definition getitem (v : json) (key : string) : exn + json :=
  match v with
  | JDict fields =>
      match assoc key fields with
      | Some x => inr x
      | None => inl (KeyError key)
      end
  | _ => inl TypeError
  end.

(** [fields[key] = v] on a dict. *)
Fixpoint setitem (key : string) (v : json) (fields : list (string * json))
  : list (string * json) :=
  match fields with
  | [] => [(key, v)]
  | (k, x) :: rest =>
      if String.eqb k key then (k, v) :: rest else (k, x) :: setitem key v rest
  end.

(** [v / 1_000.0] *)
Definition truediv_1000 (v : json) : exn + spec_float :=
  let by_1000 (n : Z) :=
    match Py.float_of_int n with
    | Some x => inr (Py.div x (Py.float_lit 1000))
    | None => inl OverflowError
    end in
  match v with
  | JInt n => by_1000 n
  | JBool b => by_1000 (if b then 1 else 0)
  | JFloat x => inr (Py.div x (Py.float_lit 1000))
  | _ => inl TypeError
  end.

(** ** aiohttp *)

Inductive WSMsgType : Type :=
| CONTINUATION | TEXT | BINARY | PING | PONG | CLOSE | CLOSING | CLOSED | ERROR.

Definition WSMsgType_eqb (a b : WSMsgType) : bool :=
  match a, b with
  | CONTINUATION, CONTINUATION | TEXT, TEXT | BINARY, BINARY | PING, PING
  | PONG, PONG | CLOSE, CLOSE | CLOSING, CLOSING | CLOSED, CLOSED
  | ERROR, ERROR => true
  | _, _ => false
  end.

Definition WSMsgType_name (t : WSMsgType) : string :=
  match t with
  | CONTINUATION => "WSMsgType.CONTINUATION"
  | TEXT => "WSMsgType.TEXT"
  | BINARY => "WSMsgType.BINARY"
  | PING => "WSMsgType.PING"
  | PONG => "WSMsgType.PONG"
  | CLOSE => "WSMsgType.CLOSE"
  | CLOSING => "WSMsgType.CLOSING"
  | CLOSED => "WSMsgType.CLOSED"
  | ERROR => "WSMsgType.ERROR"
  end.

Record WSMessage : Type := mkMessage {
  type : WSMsgType;
  data : pydata;
}.

(** What the next [ws.receive()] finds. *)
Inductive inbound : Type :=
| Frame (m : WSMessage)
| ReceiveTimeout.

(** [aiohttp.ClientWebSocketResponse], as far as the client looks at it. *)
Record WebSocket : Type := mkWebSocket {
  ws_closed : bool;
  close_code : option Z;
  ws_exception : option string;
}.

(** [aiohttp.ClientSession] *)
Record ClientSession : Type := mkSession {
  session_closed : bool;
}.

(** ** The runtime the client is built on

    The injected callables, the library functions and the constants of
    [hikari.net.errors] that [gateway.py] refers to. *)
Record GatewayCloseCode : Type := mkCloseCodes {
  AUTHENTICATION_FAILED : Z;
  SESSION_TIMEOUT : Z;
  INVALID_SEQ : Z;
  SHARDING_REQUIRED : Z;
}.

Record Runtime : Type := mkRuntime {
  (** [json.dumps] *)
  json_serialize : json -> string;
  (** [json.loads]; [None] when it raises. *)
  json_deserialize : pydata -> option json;
  (** the state of a [zlib.decompressobj()] and its [decompress];
      [None] when it raises [zlib.error]. *)
  zstate : Type;
  zlib_decompressobj : zstate;
  zlib_decompress : zstate -> list byte -> option (list byte * zstate);
  (** the n-th reading of [time.perf_counter()] *)
  perf_counter_reading : nat -> spec_float;
  (** [platform.system()] and the like *)
  platform_system : string;
  platform_release : string;
  platform_python_implementation : string;
  platform_python_revision : string;
  platform_python_version : string;
  (** the presence model and its [to_dict] *)
  Presence : Type;
  to_dict : Presence -> json;
  (** [errors.GatewayCloseCode] *)
  codes : GatewayCloseCode;
}.

(** ** Coroutines

    What running a coroutine comes to: it returns, it raises, or it is
    left waiting for a frame that has not arrived. *)
Inductive outcome (A : Type) : Type :=
| Return (a : A)
| Raise (e : exn)
| Suspended.

Arguments Return {A} a.
Arguments Raise {A} e.
Arguments Suspended {A}.

(** ** The client and the world around it *)

Section Gateway.

Variable rt : Runtime.

(** The attributes of a [GatewayClient]; [closed_event] is the state of the
    [asyncio.Event], the rate limiter and the logger keep no state here. *)
Record GatewayClient : Type := mkClient {
  closed_event : bool;
  compression : bool;
  connected_at : spec_float;
  guild_subscriptions : bool;
  large_threshold : Z;
  last_heartbeat_sent : spec_float;
  last_heartbeat_ack_received : spec_float;
  last_ping_sent : spec_float;
  last_pong_received : spec_float;
  presence : option (Presence rt);
  receive_timeout : spec_float;
  session : option ClientSession;
  session_id : option string;
  seq : json;
  shard_id : Z;
  shard_count : Z;
  token : string;
  ws : option WebSocket;
  zlib : zstate rt;
  logger_name : string;
  url : string;
}.

(** Attribute assignment, [self.x = v]. *)
Definition set_closed_event (v : bool) (g : GatewayClient) : GatewayClient :=
  mkClient v (compression g) (connected_at g) (guild_subscriptions g)
    (large_threshold g) (last_heartbeat_sent g) (last_heartbeat_ack_received g)
    (last_ping_sent g) (last_pong_received g) (presence g) (receive_timeout g)
    (session g) (session_id g) (seq g) (shard_id g) (shard_count g) (token g)
    (ws g) (zlib g) (logger_name g) (url g).

Definition set_connected_at (v : spec_float) (g : GatewayClient) : GatewayClient :=
  mkClient (closed_event g) (compression g) v (guild_subscriptions g)
    (large_threshold g) (last_heartbeat_sent g) (last_heartbeat_ack_received g)
    (last_ping_sent g) (last_pong_received g) (presence g) (receive_timeout g)
    (session g) (session_id g) (seq g) (shard_id g) (shard_count g) (token g)
    (ws g) (zlib g) (logger_name g) (url g).

Definition set_last_heartbeat_sent (v : spec_float) (g : GatewayClient)
  : GatewayClient :=
  mkClient (closed_event g) (compression g) (connected_at g)
    (guild_subscriptions g) (large_threshold g) v
    (last_heartbeat_ack_received g) (last_ping_sent g) (last_pong_received g)
    (presence g) (receive_timeout g) (session g) (session_id g) (seq g)
    (shard_id g) (shard_count g) (token g) (ws g) (zlib g) (logger_name g)
    (url g).

Definition set_last_heartbeat_ack_received (v : spec_float) (g : GatewayClient)
  : GatewayClient :=
  mkClient (closed_event g) (compression g) (connected_at g)
    (guild_subscriptions g) (large_threshold g) (last_heartbeat_sent g) v
    (last_ping_sent g) (last_pong_received g) (presence g) (receive_timeout g)
    (session g) (session_id g) (seq g) (shard_id g) (shard_count g) (token g)
    (ws g) (zlib g) (logger_name g) (url g).

Definition set_last_ping_sent (v : spec_float) (g : GatewayClient) : GatewayClient :=
  mkClient (closed_event g) (compression g) (connected_at g)
    (guild_subscriptions g) (large_threshold g) (last_heartbeat_sent g)
    (last_heartbeat_ack_received g) v (last_pong_received g) (presence g)
    (receive_timeout g) (session g) (session_id g) (seq g) (shard_id g)
    (shard_count g) (token g) (ws g) (zlib g) (logger_name g) (url g).

Definition set_last_pong_received (v : spec_float) (g : GatewayClient)
  : GatewayClient :=
  mkClient (closed_event g) (compression g) (connected_at g)
    (guild_subscriptions g) (large_threshold g) (last_heartbeat_sent g)
    (last_heartbeat_ack_received g) (last_ping_sent g) v (presence g)
    (receive_timeout g) (session g) (session_id g) (seq g) (shard_id g)
    (shard_count g) (token g) (ws g) (zlib g) (logger_name g) (url g).

Definition set_session (v : option ClientSession) (g : GatewayClient)
  : GatewayClient :=
  mkClient (closed_event g) (compression g) (connected_at g)
    (guild_subscriptions g) (large_threshold g) (last_heartbeat_sent g)
    (last_heartbeat_ack_received g) (last_ping_sent g) (last_pong_received g)
    (presence g) (receive_timeout g) v (session_id g) (seq g) (shard_id g)
    (shard_count g) (token g) (ws g) (zlib g) (logger_name g) (url g).

Definition set_seq (v : json) (g : GatewayClient) : GatewayClient :=
  mkClient (closed_event g) (compression g) (connected_at g)
    (guild_subscriptions g) (large_threshold g) (last_heartbeat_sent g)
    (last_heartbeat_ack_received g) (last_ping_sent g) (last_pong_received g)
    (presence g) (receive_timeout g) (session g) (session_id g) v (shard_id g)
    (shard_count g) (token g) (ws g) (zlib g) (logger_name g) (url g).

Definition set_ws (v : option WebSocket) (g : GatewayClient) : GatewayClient :=
  mkClient (closed_event g) (compression g) (connected_at g)
    (guild_subscriptions g) (large_threshold g) (last_heartbeat_sent g)
    (last_heartbeat_ack_received g) (last_ping_sent g) (last_pong_received g)
    (presence g) (receive_timeout g) (session g) (session_id g) (seq g)
    (shard_id g) (shard_count g) (token g) v (zlib g) (logger_name g) (url g).

Definition set_zlib (v : zstate rt) (g : GatewayClient) : GatewayClient :=
  mkClient (closed_event g) (compression g) (connected_at g)
    (guild_subscriptions g) (large_threshold g) (last_heartbeat_sent g)
    (last_heartbeat_ack_received g) (last_ping_sent g) (last_pong_received g)
    (presence g) (receive_timeout g) (session g) (session_id g) (seq g)
    (shard_id g) (shard_count g) (token g) (ws g) v (logger_name g) (url g).

(** *** [__init__] *)

Record init_args : Type := mkArgs {
  arg_compression : bool;
  arg_guild_subscriptions : bool;
  arg_initial_presence : option (Presence rt);
  arg_large_threshold : Z;
  arg_receive_timeout : spec_float;
  arg_session_id : option string;
  arg_seq : json;
  arg_shard_id : option Z;
  arg_shard_count : option Z;
  arg_token : string;
  arg_url : string;
}.

(** The keyword defaults of [__init__]; [token] and [url] have none. *)
Definition default_args (token url : string) : init_args :=
  {| arg_compression := true;
     arg_guild_subscriptions := true;
     arg_initial_presence := None;
     arg_large_threshold := 1000;
     arg_receive_timeout := Py.float_lit 10;
     arg_session_id := None;
     arg_seq := JNull;
     arg_shard_id := Some 0;
     arg_shard_count := Some 1;
     arg_token := token;
     arg_url := url |}.

Definition both_given (a : init_args) : bool :=
  match arg_shard_id a, arg_shard_count a with
  | Some _, Some _ => true
  | _, _ => false
  end.

(** [GatewayClient(...)]: [shard_count > 1] is a [TypeError] when
    [shard_count] is [None]. *)
Definition init (a : init_args) : exn + GatewayClient :=
  match arg_shard_count a with
  | None => inl TypeError
  | Some count =>
      let name := "hikari.GatewayClient" in
      let name :=
        if 1 <? count then
          name ++ match arg_shard_id a with
                  | Some i => Py.str_of_int i
                  | None => "None"
                  end
        else name in
      let url := arg_url a ++ "?v=7&encoding=json" in
      let url := if arg_compression a then url ++ "&compress=zlib-stream" else url in
      inr {| closed_event := false;
             compression := arg_compression a;
             connected_at := Py.nan;
             guild_subscriptions := arg_guild_subscriptions a;
             large_threshold := arg_large_threshold a;
             last_heartbeat_sent := Py.nan;
             last_heartbeat_ack_received := Py.nan;
             last_ping_sent := Py.nan;
             last_pong_received := Py.nan;
             presence := arg_initial_presence a;
             receive_timeout := arg_receive_timeout a;
             session := None;
             session_id := arg_session_id a;
             seq := arg_seq a;
             shard_id := if both_given a
                         then match arg_shard_id a with Some i => i | None => 0 end
                         else 0;
             shard_count := if both_given a then count else 1;
             token := arg_token a;
             ws := None;
             zlib := zlib_decompressobj rt;
             logger_name := name;
             url := url |}
  end.

(** *** Properties *)

Definition latency (g : GatewayClient) : spec_float :=
  Py.sub (last_pong_received g) (last_ping_sent g).

Definition heartbeat_latency (g : GatewayClient) : spec_float :=
  Py.sub (last_heartbeat_ack_received g) (last_heartbeat_sent g).

Definition is_connected (g : GatewayClient) : bool :=
  negb (Py.isnan (connected_at g)).

(** *** Effects *)

(** What the client does to the outside, in the order it does it. *)
Inductive event : Type :=
| EvClientSession
| EvWsConnect (url : string) (receive_timeout : spec_float)
| EvAcquire
| EvSendStr (payload_str : string)
| EvPing
| EvPong
| EvWsClose
| EvSessionClose
| EvClosedSet
| EvWaitClosed (timeout : spec_float)
| EvDispatch (gw : GatewayClient) (event_name payload : json).

Record World : Type := mkWorld {
  client : GatewayClient;
  (** the frames the server will deliver, in order *)
  inbox : list inbound;
  (** [Some origin] when [ws_connect] will raise *)
  dial_failure : option string;
  (** how often [time.perf_counter()] was read *)
  reads : nat;
  (** the effects so far, latest first *)
  log : list event;
}.

Definition set_client (g : GatewayClient) (w : World) : World :=
  mkWorld g (inbox w) (dial_failure w) (reads w) (log w).

Definition set_inbox (i : list inbound) (w : World) : World :=
  mkWorld (client w) i (dial_failure w) (reads w) (log w).

Definition update (f : GatewayClient -> GatewayClient) (w : World) : World :=
  set_client (f (client w)) w.

Definition emit (e : event) (w : World) : World :=
  mkWorld (client w) (inbox w) (dial_failure w) (reads w) (e :: log w).

Definition tick (w : World) : World :=
  mkWorld (client w) (inbox w) (dial_failure w) (S (reads w)) (log w).

(** *** Coroutines *)

Definition coro (A : Type) : Type := World -> outcome A * World.

Definition ret {A : Type} (a : A) : coro A := fun w => (Return a, w).

Definition raise {A : Type} (e : exn) : coro A := fun w => (Raise e, w).

Definition bind {A B : Type} (m : coro A) (k : A -> coro B) : coro B :=
  fun w =>
    match m w with
    | (Return a, w') => k a w'
    | (Raise e, w') => (Raise e, w')
    | (Suspended, w') => (Suspended, w')
    end.

Notation "x <- m ;; k" := (bind m (fun x => k))
  (at level 61, m at next level, right associativity).
Notation "m ;; k" := (bind m (fun _ => k))
  (at level 61, right associativity).

Definition self : coro GatewayClient := fun w => (Return (client w), w).

Definition assign (f : GatewayClient -> GatewayClient) : coro unit :=
  fun w => (Return tt, update f w).

Definition effect (e : event) : coro unit := fun w => (Return tt, emit e w).

Definition lift {A : Type} (r : exn + A) : coro A :=
  match r with
  | inl e => raise e
  | inr a => ret a
  end.

(** [with contextlib.suppress(AttributeError): ...] *)
Definition suppress_AttributeError (m : coro unit) : coro unit :=
  fun w =>
    match m w with
    | (Raise AttributeError, w') => (Return tt, w')
    | r => r
    end.

(** [time.perf_counter()] *)
Definition perf_counter : coro spec_float :=
  fun w => (Return (perf_counter_reading rt (reads w)), tick w).

(** *** The calls into aiohttp and the rate limiter

    [self.ws] and [self.session] start as [None], which has no attributes.
    A call that is made is logged and returns; [ws.close()] and
    [session.close()] on a closed object change nothing. *)

Definition the_ws : coro WebSocket :=
  g <- self ;;
  match ws g with
  | Some sock => ret sock
  | None => raise AttributeError
  end.

Definition the_session : coro ClientSession :=
  g <- self ;;
  match session g with
  | Some s => ret s
  | None => raise AttributeError
  end.

Definition ws_send_str (payload_str : string) : coro unit :=
  the_ws ;; effect (EvSendStr payload_str).

Definition ws_ping : coro unit := the_ws ;; effect EvPing.

Definition ws_pong : coro unit := the_ws ;; effect EvPong.

Definition ws_close : coro unit :=
  sock <- the_ws ;;
  effect EvWsClose ;;
  assign (set_ws (Some (mkWebSocket true (close_code sock) (ws_exception sock)))).

Definition session_close : coro unit :=
  the_session ;;
  effect EvSessionClose ;;
  assign (set_session (Some (mkSession true))).

Definition ratelimiter_acquire : coro unit := effect EvAcquire.

(** [await self.session.ws_connect(url, receive_timeout=..., compress=0,
    autoping=False, max_msg_size=0)] *)
Definition session_ws_connect (url : string) (receive_timeout : spec_float)
  : coro WebSocket :=
  effect (EvWsConnect url receive_timeout) ;;
  fun w =>
    match dial_failure w with
    | Some origin => (Raise (External origin), w)
    | None => (Return (mkWebSocket false None None), w)
    end.

(** [asyncio.wait_for(self.closed_event.wait(), timeout=...)], with the
    [asyncio.TimeoutError] passed over. *)
Definition wait_closed (timeout : spec_float) : coro unit :=
  effect (EvWaitClosed timeout).

(** What [ws.receive()] does with the frame it reads: a CLOSE frame leaves
    its code in [ws.close_code] and closes the socket, an ERROR frame leaves
    the exception behind. *)
Definition deliver (item : inbound) : coro WSMessage :=
  match item with
  | ReceiveTimeout => raise TimeoutError
  | Frame m =>
      sock <- the_ws ;;
      match type m with
      | CLOSE =>
          let code := match data m with PyInt n => Some n | _ => None end in
          assign (set_ws (Some (mkWebSocket true code (ws_exception sock)))) ;;
          ret m
      | ERROR =>
          let ex := match data m with PyStr s => Some s | _ => None end in
          assign (set_ws (Some (mkWebSocket (ws_closed sock) (close_code sock) ex))) ;;
          ret m
      | _ => ret m
      end
  end.

(** Waiting for a frame that is not there. *)
Definition suspended {A : Type} : coro A := fun w => (Suspended, w).

(** A frame is taken out of the inbox, [rest] stays. *)
Definition leave (rest : list inbound) : coro unit :=
  fun w => (Return tt, set_inbox rest w).

(** [await self.ws.receive()] when [items] is what is left of the inbox;
    a closed socket answers with a CLOSED message. *)
Definition ws_receive (items : list inbound) : coro WSMessage :=
  sock <- the_ws ;;
  if ws_closed sock then ret (mkMessage CLOSED PyNone)
  else
    match items with
    | [] => suspended
    | item :: rest =>
        leave rest ;;
        deliver item
    end.

(** ** The methods of [GatewayClient] *)

(** [send] *)
Definition send (payload : json) : coro unit :=
  let payload_str := json_serialize rt payload in
  if 4096 <? Z.of_nat (String.length payload_str) then
    raise (GatewayError
             [Lit "Tried to send a payload greater than 4096 bytes in size (was actually ";
              Val (JInt (Z.of_nat (String.length payload_str)))]
             None)
  else
    ratelimiter_acquire ;;
    ws_send_str payload_str.

(** The payload [identify] builds. *)
Definition identify_payload (g : GatewayClient) : json :=
  let d :=
    [("token", JStr (token g));
     ("compress", JBool false);
     ("large_threshold", JInt (large_threshold g));
     ("properties",
      JDict [("$os", JStr (Py.join " " [platform_system rt; platform_release rt]));
             ("$browser", JStr "hikari/1.0.0a1");
             ("$device",
              JStr (Py.join " " [platform_python_implementation rt;
                                 platform_python_revision rt;
                                 platform_python_version rt]))]);
     ("guild_subscriptions", JBool (guild_subscriptions g));
     ("shard", JList [JInt (shard_id g); JInt (shard_count g)])] in
  let d :=
    match presence g with
    | Some p => setitem "presence" (to_dict rt p) d
    | None => d
    end in
  JDict [("op", JInt 2); ("d", JDict d)].

Definition identify : coro unit :=
  g <- self ;;
  send (identify_payload g).

(** The payload [resume] builds; [session_id] is [None] or a string. *)
Definition resume_payload (g : GatewayClient) : json :=
  JDict [("op", JInt 6);
         ("d", JDict [("token", JStr (token g));
                      ("seq", seq g);
                      ("session_id",
                       match session_id g with
                       | Some s => JStr s
                       | None => JNull
                       end)])].

Definition resume : coro unit :=
  g <- self ;;
  send (resume_payload g).

(** Whether a [while] loop goes round again. *)
Inductive loop : Type := Again | Over.

(** One pass through the loop of [ping_keep_alive]. *)
Definition ping_keep_alive : coro loop :=
  g <- self ;;
  if closed_event g then ret Over
  else
    ws_ping ;;
    t <- perf_counter ;;
    assign (set_last_ping_sent t) ;;
    wait_closed (Py.mul (Py.div (Py.float_lit 3) (Py.float_lit 4)) (receive_timeout g)) ;;
    ret Again.

Definition heartbeat_payload (seq : json) : json :=
  JDict [("op", JInt 1); ("d", seq)].

(** One pass through the loop of [heartbeat_keep_alive]. *)
Definition heartbeat_keep_alive (heartbeat_interval : spec_float) : coro loop :=
  g <- self ;;
  if closed_event g then ret Over
  else if Py.lt (last_heartbeat_ack_received g) (last_heartbeat_sent g) then
    raise GatewayZombiedError
  else
    send (heartbeat_payload (seq g)) ;;
    t <- perf_counter ;;
    assign (set_last_heartbeat_sent t) ;;
    wait_closed heartbeat_interval ;;
    ret Again.

(** [close] *)
Definition close : coro unit :=
  suppress_AttributeError ws_close ;;
  suppress_AttributeError session_close ;;
  g <- self ;;
  if negb (closed_event g) then
    effect EvClosedSet ;;
    assign (set_closed_event true)
  else ret tt.

(** *** [recv] *)

Definition sentinel : list byte := [x00; x00; xff; xff].

(** [bytearray(data)] *)
Definition bytearray (d : pydata) : exn + list byte :=
  match d with
  | PyBytes b => inr b
  | PyInt n =>
      if n <? 0 then inl (External "ValueError") else inr (repeat x00 (Z.to_nat n))
  | _ => inl TypeError
  end.

(** The bytes [buffer.extend(data)] appends. *)
Definition extension (d : pydata) : exn + list byte :=
  match d with
  | PyBytes b => inr b
  | _ => inl TypeError
  end.

(** The inner loop of the BINARY branch; [items] is what is left of the
    inbox.  A BINARY message is always read from the inbox, so the loop
    is never re-entered on an empty one. *)
Fixpoint recv_binary (items : list inbound) (buffer : list byte)
  : coro (list byte) :=
  if Py.endswith buffer sentinel then ret buffer
  else
    message <- ws_receive items ;;
    if negb (WSMsgType_eqb (type message) BINARY) then
      raise (GatewayError
               [Lit "Expected a binary message but got ";
                Repr (WSMsgType_name (type message))]
               None)
    else
      more <- lift (extension (data message)) ;;
      match items with
      | _ :: rest => recv_binary rest (buffer ++ more)%list
      | [] => suspended
      end.

Definition deserialize (d : pydata) : coro json :=
  match json_deserialize rt d with
  | Some v => ret v
  | None => raise (External "json_deserialize")
  end.

(** [self.zlib.decompress(buffer)] *)
Definition decompress (buffer : list byte) : coro (list byte) :=
  g <- self ;;
  match zlib_decompress rt (zlib g) buffer with
  | Some (pl, z) => assign (set_zlib z) ;; ret pl
  | None => raise (External "zlib.error")
  end.

(** The error the CLOSE branch raises. *)
Definition close_error (close_code : option Z) : exn :=
  let equals (c : Z) :=
    match close_code with Some n => n =? c | None => false end in
  if equals (AUTHENTICATION_FAILED (codes rt)) then GatewayInvalidTokenError
  else if equals (SESSION_TIMEOUT (codes rt)) || equals (INVALID_SEQ (codes rt)) then
    GatewayInvalidSessionError false
  else if equals (SHARDING_REQUIRED (codes rt)) then GatewayNeedsShardingError
  else GatewayConnectionClosedError close_code.

Fixpoint recv_from (items : list inbound) : coro json :=
  message <- ws_receive items ;;
  let again :=
    match items with
    | _ :: rest => recv_from rest
    | [] => suspended
    end in
  match type message with
  | TEXT => deserialize (data message)
  | BINARY =>
      buffer <- lift (bytearray (data message)) ;;
      buffer <- recv_binary (tl items) buffer ;;
      pl <- decompress buffer ;;
      deserialize (PyBytes pl)
  | PING => ws_pong ;; again
  | PONG =>
      t <- perf_counter ;;
      assign (set_last_pong_received t) ;;
      again
  | CLOSE =>
      sock <- the_ws ;;
      raise (close_error (close_code sock))
  | CLOSING | CLOSED => raise GatewayClientClosedError
  | ERROR =>
      sock <- the_ws ;;
      raise (GatewayError [Lit "Unexpected exception occurred"] (ws_exception sock))
  | CONTINUATION => again
  end.

Definition recv : coro json := fun w => recv_from (inbox w) w.

(** *** [poll_events] *)

Definition dispatch (event_name payload : json) : coro unit :=
  g <- self ;;
  effect (EvDispatch g event_name payload).

(** One pass through the loop of [poll_events]. *)
Definition poll_events : coro unit :=
  next <- recv ;;
  op <- lift (getitem next "op") ;;
  d <- lift (getitem next "d") ;;
  if py_eq_int op 0 then
    s <- lift (getitem next "s") ;;
    assign (set_seq s) ;;
    event_name <- lift (getitem next "t") ;;
    dispatch event_name d
  else if py_eq_int op 1 then send (JDict [("op", JInt 11)])
  else if py_eq_int op 7 then raise GatewayMustReconnectError
  else if py_eq_int op 9 then raise (GatewayInvalidSessionError (py_bool d))
  else if py_eq_int op 11 then
    t <- perf_counter ;;
    assign (set_last_heartbeat_ack_received t)
  else ret tt.

(** *** [connect] *)

(** Opening the session and the socket, up to the creation of the ping task. *)
Definition connect_open : coro unit :=
  effect EvClientSession ;;
  assign (set_session (Some (mkSession false))) ;;
  g <- self ;;
  sock <- session_ws_connect (url g) (receive_timeout g) ;;
  assign (set_ws (Some sock)) ;;
  t <- perf_counter ;;
  assign (set_connected_at t).

(** Parsing HELLO; the result is [hb_interval]. *)
Definition connect_hello : coro spec_float :=
  pl <- recv ;;
  op <- lift (getitem pl "op") ;;
  if negb (py_eq_int op 10) then
    raise (GatewayError [Lit "Expected HELLO opcode 10 but received "; Val op] None)
  else
    d <- lift (getitem pl "d") ;;
    interval <- lift (getitem d "heartbeat_interval") ;;
    lift (truediv_1000 interval).

(** The authentication step. *)
Definition connect_authenticate : coro unit :=
  g <- self ;;
  match session_id g with
  | None => identify
  | Some _ => resume
  end.

(** The [finally] block. *)
Definition connect_finally (w : World) : World :=
  update (fun g =>
            set_last_heartbeat_ack_received Py.nan
              (set_last_heartbeat_sent Py.nan
                 (set_last_pong_received Py.nan
                    (set_last_ping_sent Py.nan
                       (set_connected_at Py.nan g))))) w.

(** *** The tasks of one connection

    [connect] is the main task; [asyncio.create_task] adds the ping task
    and the heartbeat task.  A schedule says which task takes its next
    turn (one pass through its loop, or one stage of [connect]); an
    entry can also be a call of [close] from outside. *)

Inductive task_state : Type :=
| NotCreated
| Running
| Returned
| Failed (e : exn).

Inductive stage : Type :=
| Opening
| AwaitingHello
| Listening
| Terminated (e : exn).

Record Connection : Type := mkConnection {
  world : World;
  main : stage;
  ping_task : task_state;
  heartbeat_task : task_state;
  (** [hb_interval], once HELLO is parsed *)
  hb_interval : option spec_float;
}.

Inductive action : Type :=
| RunMain
| RunPing
| RunHeartbeat
| CallClose.

Definition initial (w : World) : Connection :=
  mkConnection w Opening NotCreated NotCreated None.

(** [connect] ends with [e]: the [finally] block runs. *)
Definition terminate (e : exn) (c : Connection) : Connection :=
  mkConnection (connect_finally (world c)) (Terminated e)
    (ping_task c) (heartbeat_task c) (hb_interval c).

(** A turn of a task created with [asyncio.create_task]. *)
Definition turn (m : coro loop) (st : task_state) (w : World)
  : task_state * World :=
  match st with
  | Running =>
      match m w with
      | (Return Again, w') => (Running, w')
      | (Return Over, w') => (Returned, w')
      | (Raise e, w') => (Failed e, w')
      | (Suspended, w') => (Running, w')
      end
  | _ => (st, w)
  end.

(** [asyncio.gather] passes on the first exception of a task it waits for. *)
Definition gather (c : Connection) : Connection :=
  match main c with
  | Listening =>
      match ping_task c, heartbeat_task c with
      | Failed e, _ => terminate e c
      | _, Failed e => terminate e c
      | _, _ => c
      end
  | _ => c
  end.

Definition step_main (c : Connection) : Connection :=
  match main c with
  | Opening =>
      match connect_open (world c) with
      | (Return _, w) =>
          mkConnection w AwaitingHello Running (heartbeat_task c) (hb_interval c)
      | (Raise e, w) =>
          terminate e (mkConnection w Opening (ping_task c) (heartbeat_task c)
                         (hb_interval c))
      | (Suspended, w) =>
          mkConnection w Opening (ping_task c) (heartbeat_task c) (hb_interval c)
      end
  | AwaitingHello =>
      match connect_hello (world c) with
      | (Return interval, w) =>
          match connect_authenticate w with
          | (Return _, w') =>
              mkConnection w' Listening (ping_task c) Running (Some interval)
          | (Raise e, w') =>
              terminate e (mkConnection w' AwaitingHello (ping_task c) Running
                             (Some interval))
          | (Suspended, w') =>
              mkConnection w' AwaitingHello (ping_task c) Running (Some interval)
          end
      | (Raise e, w) =>
          terminate e (mkConnection w AwaitingHello (ping_task c)
                         (heartbeat_task c) (hb_interval c))
      | (Suspended, w) =>
          mkConnection w AwaitingHello (ping_task c) (heartbeat_task c)
            (hb_interval c)
      end
  | Listening =>
      match poll_events (world c) with
      | (Raise e, w) =>
          terminate e (mkConnection w Listening (ping_task c) (heartbeat_task c)
                         (hb_interval c))
      | (_, w) =>
          mkConnection w Listening (ping_task c) (heartbeat_task c) (hb_interval c)
      end
  | Terminated _ => c
  end.

Definition step (a : action) (c : Connection) : Connection :=
  gather
    match a with
    | RunMain => step_main c
    | RunPing =>
        let (st, w) := turn ping_keep_alive (ping_task c) (world c) in
        mkConnection w (main c) st (heartbeat_task c) (hb_interval c)
    | RunHeartbeat =>
        match hb_interval c with
        | Some interval =>
            let (st, w) :=
              turn (heartbeat_keep_alive interval) (heartbeat_task c) (world c) in
            mkConnection w (main c) (ping_task c) st (hb_interval c)
        | None => c
        end
    | CallClose =>
        mkConnection (snd (close (world c))) (main c) (ping_task c)
          (heartbeat_task c) (hb_interval c)
    end.

(** [connect] under a schedule, up to the moment it ends. *)
Fixpoint connect (schedule : list action) (c : Connection) : Connection :=
  match main c with
  | Terminated _ => c
  | _ =>
      match schedule with
      | [] => c
      | a :: rest => connect rest (step a c)
      end
  end.

End Gateway.

Arguments closed_event {rt} g.
Arguments compression {rt} g.
Arguments connected_at {rt} g.
Arguments guild_subscriptions {rt} g.
Arguments large_threshold {rt} g.
Arguments last_heartbeat_sent {rt} g.
Arguments last_heartbeat_ack_received {rt} g.
Arguments last_ping_sent {rt} g.
Arguments last_pong_received {rt} g.
Arguments presence {rt} g.
Arguments receive_timeout {rt} g.
Arguments session {rt} g.
Arguments session_id {rt} g.
Arguments seq {rt} g.
Arguments shard_id {rt} g.
Arguments shard_count {rt} g.
Arguments token {rt} g.
Arguments ws {rt} g.
Arguments zlib {rt} g.
Arguments logger_name {rt} g.
Arguments url {rt} g.
Arguments arg_compression {rt} _.
Arguments arg_guild_subscriptions {rt} _.
Arguments arg_initial_presence {rt} _.
Arguments arg_large_threshold {rt} _.
Arguments arg_receive_timeout {rt} _.
Arguments arg_session_id {rt} _.
Arguments arg_seq {rt} _.
Arguments arg_shard_id {rt} _.
Arguments arg_shard_count {rt} _.
Arguments arg_token {rt} _.
Arguments arg_url {rt} _.
Arguments is_connected {rt} g.
Arguments latency {rt} g.
Arguments heartbeat_latency {rt} g.
Arguments client {rt} w.
Arguments inbox {rt} w.
Arguments dial_failure {rt} w.
Arguments reads {rt} w.
Arguments log {rt} w.
Arguments world {rt} c.
Arguments main {rt} c.
Arguments ping_task {rt} c.
Arguments heartbeat_task {rt} c.
Arguments hb_interval {rt} c.
Arguments mkWorld {rt} client inbox dial_failure reads log.
Arguments mkConnection {rt} world main ping_task heartbeat_task hb_interval.
Arguments EvDispatch {rt} gw event_name payload.
Arguments EvSendStr {rt} payload_str.
Arguments EvAcquire {rt}.
Arguments EvClosedSet {rt}.
Arguments EvWaitClosed {rt} timeout.
Arguments initial {rt} w.
Arguments connect_finally {rt} w.
Arguments emit {rt} e w.
Arguments update {rt} f w.
Arguments set_seq {rt} v g.
Arguments set_last_heartbeat_sent {rt} v g.
Arguments set_last_heartbeat_ack_received {rt} v g.

(** ** A runtime for examples

    A compact JSON writer, a reader that knows the frames of the examples,
    an inflater that takes the sentinel off, a clock that reads 1, 2, 3, ...
    and the close codes of the gateway documentation. *)

Module Example.

Definition quote : string := String "034"%char EmptyString.

Definition float_text (x : spec_float) : string :=
  match x with
  | S754_zero s => if s then "-0.0" else "0.0"
  | S754_infinity s => if s then "-Infinity" else "Infinity"
  | S754_nan => "NaN"
  | S754_finite s m e =>
      (if s then "-" else "") ++ Py.str_of_int (Zpos m) ++ "p" ++ Py.str_of_int e
  end.

Fixpoint dumps (v : json) : string :=
  match v with
  | JNull => "null"
  | JBool b => if b then "true" else "false"
  | JInt n => Py.str_of_int n
  | JFloat x => float_text x
  | JStr s => quote ++ s ++ quote
  | JList items =>
      "[" ++ (fix each (l : list json) : string :=
                match l with
                | [] => ""
                | [x] => dumps x
                | x :: r => dumps x ++ ", " ++ each r
                end) items ++ "]"
  | JDict fields =>
      "{" ++ (fix each (l : list (string * json)) : string :=
                match l with
                | [] => ""
                | [(k, x)] => quote ++ k ++ quote ++ ": " ++ dumps x
                | (k, x) :: r => quote ++ k ++ quote ++ ": " ++ dumps x ++ ", " ++ each r
                end) fields ++ "}"
  end.

Definition hello : json :=
  JDict [("op", JInt 10); ("d", JDict [("heartbeat_interval", JInt 41250)])].

Definition message_create : json :=
  JDict [("op", JInt 0); ("s", JInt 43); ("t", JStr "MESSAGE_CREATE");
         ("d", JDict [("content", JStr "hi")])].

Definition heartbeat_ack : json := JDict [("op", JInt 11); ("d", JNull)].

Definition reconnect : json := JDict [("op", JInt 7); ("d", JNull)].

(** The frames the reader knows, under the names the examples send them by. *)
Definition loads (d : pydata) : option json :=
  let known (s : string) :=
    if String.eqb s "HELLO" then Some hello
    else if String.eqb s "MESSAGE_CREATE" then Some message_create
    else if String.eqb s "HEARTBEAT_ACK" then Some heartbeat_ack
    else if String.eqb s "RECONNECT" then Some reconnect
    else None in
  match d with
  | PyStr s => known s
  | PyBytes b => known (string_of_list_byte b)
  | _ => None
  end.

(** Takes the sentinel off the end; the state counts the bytes fed. *)
Definition inflate (z : nat) (buffer : list byte) : option (list byte * nat) :=
  if Py.endswith buffer sentinel
  then Some (firstn (List.length buffer - 4) buffer, (z + List.length buffer)%nat)
  else None.

Definition rt : Runtime :=
  {| json_serialize := dumps;
     json_deserialize := loads;
     zstate := nat;
     zlib_decompressobj := 0%nat;
     zlib_decompress := inflate;
     perf_counter_reading := fun n => Py.float_lit (Z.of_nat (S n));
     platform_system := "Linux";
     platform_release := "5.4.0";
     platform_python_implementation := "CPython";
     platform_python_revision := "";
     platform_python_version := "3.8.2";
     Presence := json;
     to_dict := fun p => p;
     codes := mkCloseCodes 4004 4009 4007 4011 |}.

(** [GatewayClient(token="T", url="wss://gateway")] *)
Definition fresh : GatewayClient rt :=
  match init rt (default_args rt "T" "wss://gateway") with
  | inr g => g
  | inl _ =>
      mkClient rt false true Py.nan true 1000 Py.nan Py.nan Py.nan Py.nan None
        (Py.float_lit 10) None None JNull 0 1 "T" None 0%nat "" ""
  end.

Definition text (s : string) : inbound := Frame (mkMessage TEXT (PyStr s)).

Definition world_of (g : GatewayClient rt) (frames : list inbound) : World rt :=
  mkWorld g frames None 0 [].

(** The fresh client after the socket was opened, with [frames] to come. *)
Definition connected (frames : list inbound) : World rt :=
  snd (connect_open rt (world_of fresh frames)).

(** A connected client whose last heartbeat went out at 2 and whose last
    acknowledgement came at 1. *)
Definition unanswered : World rt :=
  update (fun g => set_last_heartbeat_sent (Py.float_lit 2)
                     (set_last_heartbeat_ack_received (Py.float_lit 1) g))
    (connected []).

(** A connected client whose heartbeat went out at 2 and was never
    acknowledged. *)
Definition never_acknowledged : World rt :=
  update (set_last_heartbeat_sent (Py.float_lit 2)) (connected []).

(** A connected client that resumes session "S" at sequence number 42,
    with HELLO to come. *)
Definition resuming : World rt :=
  match init rt (mkArgs rt true true None 1000 (Py.float_lit 10) (Some "S")
                   (JInt 42) (Some 0) (Some 1) "T" "wss://gateway") with
  | inr g => snd (connect_open rt (world_of g [text "HELLO"]))
  | inl _ => connected [text "HELLO"]
  end.

Fixpoint replicate (n : nat) (c : ascii) : string :=
  match n with
  | O => EmptyString
  | S m => String c (replicate m c)
  end.

(** A payload of more than 4096 characters. *)
Definition oversized : json := JStr (replicate 4100 "x"%char).

(** HELLO, then RECONNECT. *)
Definition reconnecting : World rt :=
  world_of fresh [text "HELLO"; text "RECONNECT"].

(** HELLO, a dispatch, an acknowledgement, and silence. *)
Definition going_quiet : World rt :=
  world_of fresh [text "HELLO"; text "MESSAGE_CREATE"; text "HEARTBEAT_ACK"].

Definition going_quiet_schedule : list action :=
  [RunMain; RunMain; RunHeartbeat; RunMain; RunMain; RunHeartbeat; RunMain].

(** The bytes of HELLO in two BINARY frames, the second one ending with
    the sentinel. *)
Definition hello_chunks : list (list byte) :=
  [list_byte_of_string "HEL"; (list_byte_of_string "LO" ++ sentinel)%list].

End Example.


(** ** The rest of [GatewayClient] *)

Section Requests.

Variable rt : Runtime.

Definition set_presence (v : option (Presence rt)) (g : GatewayClient rt)
  : GatewayClient rt :=
  mkClient rt (closed_event g) (compression g) (connected_at g)
    (guild_subscriptions g) (large_threshold g) (last_heartbeat_sent g)
    (last_heartbeat_ack_received g) (last_ping_sent g) (last_pong_received g)
    v (receive_timeout g) (session g) (session_id g) (seq g) (shard_id g)
    (shard_count g) (token g) (ws g) (zlib g) (logger_name g) (url g).

(** [uptime]; the result is the [seconds] that [datetime.timedelta] is
    built from, the integer 0 or the float [delta]. *)
Definition uptime : coro rt json :=
  bind rt (perf_counter rt)
    (fun now =>
       bind rt (self rt)
         (fun g =>
            let delta := Py.sub now (connected_at g) in
            ret rt (if Py.isnan delta then JInt 0 else JFloat delta))).

(** [kwargs.get(key, default)] *)
Definition get (kwargs : list (string * json)) (key : string) (default : json)
  : json :=
  match assoc key kwargs with
  | Some v => v
  | None => default
  end.

(** [{**base, **more}] *)
Definition merge (base more : list (string * json)) : list (string * json) :=
  fold_left (fun d kv => setitem (fst kv) (snd kv) d) more base.

(** The payload [request_guild_members] builds. *)
Definition request_guild_members_payload
  (guild_id : json) (guild_ids : list json) (kwargs : list (string * json))
  : json :=
  let guilds := guild_id :: guild_ids in
  let constraints :=
    match assoc "user_ids" kwargs with
    | Some user_ids => [("user_ids", user_ids)]
    | None =>
        setitem "limit" (get kwargs "limit" (JInt 0))
          (setitem "query" (get kwargs "query" (JStr "")) [])
    end in
  JDict (merge [("guild_id", JList guilds)] constraints).

(** [request_guild_members(guild_id, *guild_ids, **kwargs)] *)
Definition request_guild_members
  (guild_id : json) (guild_ids : list json) (kwargs : list (string * json))
  : coro rt unit :=
  send rt (request_guild_members_payload guild_id guild_ids kwargs).

(** The attributes of a presence that [update_status] reads;
    [activity] is [None] or an object with a [to_dict]. *)
Record PresenceModel : Type := mkPresenceModel {
  Activity : Type;
  idle_since : Presence rt -> json;
  status : Presence rt -> json;
  activity : Presence rt -> option Activity;
  activity_to_dict : Activity -> json;
  is_afk : Presence rt -> json;
}.

(** The payload [update_status] builds. *)
Definition update_status_payload (pm : PresenceModel) (p : Presence rt) : json :=
  JDict [("idle", idle_since pm p);
         ("status", status pm p);
         ("game",
          match activity pm p with
          | Some a => activity_to_dict pm a
          | None => JNull
          end);
         ("afk", is_afk pm p)].

(** [update_status(presence)] *)
Definition update_status (pm : PresenceModel) (p : Presence rt) : coro rt unit :=
  bind rt (send rt (update_status_payload pm p))
    (fun _ => assign rt (set_presence (Some p))).

End Requests.

Arguments set_presence {rt} v g.

(** ** [hikari.internal.conversions] *)

Module conversions.

(** What the functions of this module raise. *)
Inductive exception : Type :=
| ValueError (message : string)
| KeyError (key : string)
| TypeError (message : string)
(* raised by a callable that was passed in *)
| Raised (origin : string).

(** A positional argument that may be the [...] placeholder. *)
Inductive argument : Type :=
| Ellipsis
| Given (value : json).

(** [put_if_specified(mapping, key, value, type_after)]; the result is the
    mapping as the call leaves it. *)
Definition put_if_specified
  (mapping : list (string * json)) (key : string) (value : argument)
  (type_after : option (json -> exception + json))
  : exception + list (string * json) :=
  match value with
  | Ellipsis => inr mapping
  | Given v =>
      match type_after with
      | Some cast =>
          match cast v with
          | inr v' => inr (setitem key v' mapping)
          | inl e => inl e
          end
      | None => inr (setitem key v mapping)
      end
  end.

(** [b[i:j]] for [0 <= i <= j]. *)
Definition slice (i j : nat) (b : list byte) : list byte :=
  firstn (j - i) (skipn i b).

Definition bytes_eqb (a b : list byte) : bool :=
  if list_eq_dec Byte.byte_eq_dec a b then true else false.

(** [b"\211PNG\r\n\032\n"] *)
Definition png_signature : list byte :=
  [x89; x50; x4e; x47; x0d; x0a; x1a; x0a].

(** The [img_type] the magic numbers give; [None] where the function
    raises [ValueError]. *)
Definition img_type (img_bytes : list byte) : option string :=
  if bytes_eqb (slice 0 8 img_bytes) png_signature then Some "image/png"
  else if bytes_eqb (slice 6 10 img_bytes) (list_byte_of_string "Exif")
          || bytes_eqb (slice 6 10 img_bytes) (list_byte_of_string "JFIF")
  then Some "image/jpeg"
  else if bytes_eqb (slice 0 6 img_bytes) (list_byte_of_string "GIF87a")
          || bytes_eqb (slice 0 6 img_bytes) (list_byte_of_string "GIF89a")
  then Some "image/gif"
  else if bytes_eqb (firstn 4 img_bytes) (list_byte_of_string "RIFF")
          && bytes_eqb (slice 8 12 img_bytes) (list_byte_of_string "WEBP")
  then Some "image/webp"
  else None.

(** [image_bytes_to_image_data(img_bytes)], over the text that
    [base64.b64encode(img_bytes).decode()] gives. *)
Definition image_bytes_to_image_data
  (b64encode : list byte -> string) (img_bytes : option (list byte))
  : exception + option string :=
  match img_bytes with
  | None => inr None
  | Some b =>
      match img_type b with
      | Some t => inr (Some ("data:" ++ t ++ ";base64," ++ b64encode b))
      | None => inl (ValueError "Unsupported image type passed")
      end
  end.

(** [pluralize(count, name, suffix)] *)
Definition pluralize (count : Z) (name suffix : string) : string :=
  if negb (count - 1 =? 0)
  then Py.str_of_int count ++ " " ++ (name ++ suffix)
  else Py.str_of_int count ++ " " ++ name.

(** An [enum.IntFlag] type: its members by name. *)
Record IntFlagType : Type := mkIntFlag {
  members : list (string * Z);
}.

(** [int_flag_type[name]] *)
Fixpoint member (names : list (string * Z)) (name : string) : exception + Z :=
  match names with
  | [] => inl (KeyError name)
  | (k, v) :: rest => if String.eqb k name then inr v else member rest name
  end.

Definition is_digit (c : ascii) : bool :=
  (48 <=? nat_of_ascii c)%nat && (nat_of_ascii c <=? 57)%nat.


(** [s.isdigit()], on ASCII text. *)
Definition isdigit (s : string) : bool :=
  match list_ascii_of_string s with
  | [] => false
  | cs => forallb is_digit cs
  end.

(** [int(s)] for a text of decimal digits. *)
Definition int_of_digits (s : string) : Z :=
  fold_left (fun acc c => 10 * acc + (Z.of_nat (nat_of_ascii c) - 48))
    (list_ascii_of_string s) 0.

(** [name.upper()], on ASCII text. *)
Definition upper (name : string) : string :=
  string_of_list_ascii
    (map (fun c =>
            if (97 <=? nat_of_ascii c)%nat && (nat_of_ascii c <=? 122)%nat
            then ascii_of_nat (nat_of_ascii c - 32)
            else c)
       (list_ascii_of_string name)).

(** The raw values the function takes: a text, an integer, or a collection
    of member names. *)
Inductive raw_value : Type :=
| RawStr (s : string)
| RawInt (n : Z)
| RawNames (names : list string).

(** [functools.reduce(operator.or_, ...)] once it holds [acc]: the
    generator looks the names up one by one. *)
Fixpoint reduce_or (t : IntFlagType) (acc : Z) (names : list string)
  : exception + Z :=
  match names with
  | [] => inr acc
  | name :: rest =>
      match member (members t) (upper name) with
      | inr v => reduce_or t (Z.lor acc v) rest
      | inl e => inl e
      end
  end.

(** [functools.reduce(operator.or_, (int_flag_type[name.upper()] for name in
    names))]: without an initial value the first item starts it. *)
Definition reduce_names (t : IntFlagType) (names : list string) : exception + Z :=
  match names with
  | [] => inl (TypeError "reduce() of empty sequence with no initial value")
  | name :: rest =>
      match member (members t) (upper name) with
      | inr v => reduce_or t v rest
      | inl e => inl e
      end
  end.

(** The characters of a text, as iterating over it gives them. *)
Definition characters (s : string) : list string :=
  map (fun c => String c EmptyString) (list_ascii_of_string s).

(** [dereference_int_flag(int_flag_type, raw_value)]; the flag is given
    by its integer value. *)
Definition dereference_int_flag (t : IntFlagType) (raw : raw_value)
  : exception + Z :=
  let raw :=
    match raw with
    | RawStr s => if isdigit s then RawInt (int_of_digits s) else raw
    | _ => raw
    end in
  match raw with
  | RawInt n => inr n
  | RawStr s => reduce_names t (characters s)
  | RawNames names => reduce_names t names
  end.

End conversions.

(** ** More examples *)

Module Scenario.

(** A presence is its own dictionary; its status is itself, it has no
    activity. *)
Definition presences : PresenceModel Example.rt :=
  mkPresenceModel Example.rt json
    (fun _ : json => JNull)
    (fun p : json => p)
    (fun _ : json => None)
    (fun a : json => a)
    (fun _ : json => JBool false).

Definition ping : inbound := Frame (mkMessage PING PyNone).

Definition pong : inbound := Frame (mkMessage PONG PyNone).

(** Permission flags. *)
Definition permissions : conversions.IntFlagType :=
  conversions.mkIntFlag [("KICK", 2); ("BAN", 4); ("ADMIN", 8)].

(** The frames of the first examples and a few more: an acknowledgement
    without ["d"], a payload without ["op"], INVALID SESSION, a HEARTBEAT
    request, an opcode the client does not know, and dispatches without
    ["s"] and without ["t"]. *)
Definition loads (d : pydata) : option json :=
  match Example.loads d with
  | Some payload => Some payload
  | None =>
      match d with
      | PyStr s =>
          if String.eqb s "BARE_ACK" then Some (JDict [("op", JInt 11)])
          else if String.eqb s "NO_OP" then Some (JDict [("d", JNull)])
          else if String.eqb s "INVALID_SESSION"
          then Some (JDict [("op", JInt 9); ("d", JBool true)])
          else if String.eqb s "HEARTBEAT"
          then Some (JDict [("op", JInt 1); ("d", JNull)])
          else if String.eqb s "UNKNOWN"
          then Some (JDict [("op", JInt 42); ("d", JStr "?")])
          else if String.eqb s "UNNUMBERED"
          then Some (JDict [("op", JInt 0); ("d", JNull); ("t", JStr "READY")])
          else if String.eqb s "NAMELESS"
          then Some (JDict [("op", JInt 0); ("d", JNull); ("s", JInt 7)])
          else None
      | _ => None
      end
  end.

Definition rt : Runtime :=
  {| json_serialize := Example.dumps;
     json_deserialize := loads;
     zstate := nat;
     zlib_decompressobj := 0%nat;
     zlib_decompress := Example.inflate;
     perf_counter_reading := fun n => Py.float_lit (Z.of_nat (S n));
     platform_system := "Linux";
     platform_release := "5.4.0";
     platform_python_implementation := "CPython";
     platform_python_revision := "";
     platform_python_version := "3.8.2";
     Presence := json;
     to_dict := fun p => p;
     codes := mkCloseCodes 4004 4009 4007 4011 |}.

(** [GatewayClient(token="T", url="wss://gateway")] *)
Definition fresh : GatewayClient rt :=
  match init rt (default_args rt "T" "wss://gateway") with
  | inr g => g
  | inl _ =>
      mkClient rt false true Py.nan true 1000 Py.nan Py.nan Py.nan Py.nan None
        (Py.float_lit 10) None None JNull 0 1 "T" None 0%nat "" ""
  end.

Definition text (s : string) : inbound := Frame (mkMessage TEXT (PyStr s)).

(** The fresh client after the socket was opened, with [frames] to come. *)
Definition connected (frames : list inbound) : World rt :=
  snd (connect_open rt (mkWorld fresh frames None 0 [])).

(** [GatewayClient(shard_id=3, shard_count=None, token="T", url=...)] *)
Definition unsharded : init_args Example.rt :=
  mkArgs Example.rt true true None 1000 (Py.float_lit 10) None JNull
    (Some 3) None "T" "wss://gateway".

(** A connected client whose heartbeat went out at 2, with the
    acknowledgement to come. *)
Definition awaiting_ack : World Example.rt :=
  update (set_last_heartbeat_sent (Py.float_lit 2))
    (Example.connected [Example.text "HEARTBEAT_ACK"]).

(** The fresh client in front of a gateway that refuses the connection. *)
Definition refused : World Example.rt :=
  mkWorld Example.fresh [] (Some "aiohttp.ClientConnectorError") 0 [].

(** A ping, a pong, a continuation and another ping. *)
Definition controls : list WSMessage :=
  [mkMessage PING PyNone; mkMessage PONG PyNone;
   mkMessage CONTINUATION PyNone; mkMessage PING PyNone].

End Scenario.

(** ** More vocabulary *)

Section MoreVocabulary.

Context {rt : Runtime}.

(** The frames [recv] deals with itself and goes on after. *)
Definition is_control (m : WSMessage) : Prop :=
  type m = PING \/ type m = PONG \/ type m = CONTINUATION.

Definition of_type (t : WSMsgType) (ms : list WSMessage) : nat :=
  List.length (filter (fun m => WSMsgType_eqb (type m) t) ms).

(** What [recv] has no business with. *)
Definition recv_view (w : World rt) :=
  (closed_event (client w), connected_at (client w), seq (client w),
   session_id (client w), session (client w), presence (client w),
   last_heartbeat_sent (client w), last_heartbeat_ack_received (client w),
   last_ping_sent (client w)).

(** The opcodes the poll loop knows. *)
Definition known_opcodes : list Z := [0; 1; 7; 9; 11].

(** What neither keep-alive task has any business with. *)
Definition keep_alive_view (w : World rt) :=
  (closed_event (client w), connected_at (client w), seq (client w),
   session_id (client w), session (client w), presence (client w),
   ws (client w), zlib (client w), inbox w,
   last_pong_received (client w), last_heartbeat_ack_received (client w)).

(** What the ping task calls: [ws.ping()] and the wait on the latch. *)
Definition pinging (e : event rt) : Prop :=
  match e with
  | EvPing _ | EvWaitClosed _ => True
  | _ => False
  end.

(** What the heartbeat task calls: the rate limiter, [ws.send_str] and the
    wait on the latch. *)
Definition heartbeating (e : event rt) : Prop :=
  match e with
  | EvAcquire | EvSendStr _ | EvWaitClosed _ => True
  | _ => False
  end.

(** [0.75 * self.receive_timeout] *)
Definition ping_interval (g : GatewayClient rt) : spec_float :=
  Py.mul (Py.div (Py.float_lit 3) (Py.float_lit 4)) (receive_timeout g).

End MoreVocabulary.

(** ** The clock of a connection *)

Section ConnectionClock.

Context {rt : Runtime}.

(** Where a connection can be that started when the clock had been read
    [n] times: not yet open, with the clock still there and no task
    created; or open, with the next reading in [connected_at]; or ended. *)
Definition connection_clock (n : nat) (c : Connection rt) : Prop :=
  match main c with
  | Opening =>
      ping_task c = NotCreated /\ hb_interval c = None /\ reads (world c) = n
  | AwaitingHello | Listening =>
      connected_at (client (world c)) = perf_counter_reading rt n
  | Terminated _ => True
  end.

End ConnectionClock.

(** ** The vocabulary of the properties *)

Section Vocabulary.

Context {rt : Runtime}.

(** The error [send] raises for a text of more than 4096 characters. *)
Definition too_large (payload_str : string) : exn :=
  GatewayError
    [Lit "Tried to send a payload greater than 4096 bytes in size (was actually ";
     Val (JInt (Z.of_nat (String.length payload_str)))]
    None.

(** A BINARY frame with [chunk] as its data. *)
Definition binary (chunk : list byte) : inbound :=
  Frame (mkMessage BINARY (PyBytes chunk)).


(** 41.25 *)
Definition seconds_41_25 : spec_float := Py.div (Py.float_lit 165) (Py.float_lit 4).

(** The world after a pass of the heartbeat loop that sent its heartbeat:
    a permit was taken, opcode 1 went out with [seq] as its payload,
    [last_heartbeat_sent] was stamped, the task waits for the interval. *)
Definition heartbeat_sent (heartbeat_interval : spec_float) (w : World rt)
  : World rt :=
  emit (EvWaitClosed heartbeat_interval)
    (update (set_last_heartbeat_sent (perf_counter_reading rt (reads w)))
       (tick rt
          (emit (EvSendStr (json_serialize rt (heartbeat_payload (seq (client w)))))
             (emit EvAcquire w)))).

(** [frame proj allowed w w']: from [w] to [w'] the view [proj] of the
    world kept its value and the log grew by [allowed] effects only. *)
Definition frame {X : Type} (proj : World rt -> X) (allowed : event rt -> Prop)
  (w w' : World rt) : Prop :=
  proj w' = proj w /\
  exists new, log w' = (new ++ log w)%list /\ Forall allowed new.

(** A coroutine that does so from every world. *)
Definition framed {X : Type} (proj : World rt -> X) (allowed : event rt -> Prop)
  {A : Type} (m : coro rt A) : Prop :=
  forall w, frame proj allowed w (snd (m w)).

(** The log only grows. *)
Definition grows (w w' : World rt) : Prop :=
  frame (fun _ => tt) (fun _ => True) w w'.

(** When [connect] has ended, the samples are reset. *)
Definition reset (c : Connection rt) : Prop :=
  forall e, main c = Terminated e ->
       let g := client (world c) in
       connected_at g = Py.nan /\
       last_ping_sent g = Py.nan /\
       last_pong_received g = Py.nan /\
       last_heartbeat_sent g = Py.nan /\
       last_heartbeat_ack_received g = Py.nan.

(** The effects of [close]. *)
Definition closing (e : event rt) : Prop :=
  match e with
  | EvWsClose _ | EvSessionClose _ | EvClosedSet => True
  | _ => False
  end.

(** [close] called [n] times in a row. *)
Definition close_times (n : nat) (w : World rt) : World rt :=
  Nat.iter n (fun w => snd (close rt w)) w.

(** How often [closed_event.set()] was called. *)
Definition latch_sets (l : list (event rt)) : nat :=
  List.length
    (filter (fun e => match e with EvClosedSet => true | _ => false end) l).

(** A heartbeat went out: [send_str] was called with opcode 1. *)
Definition heartbeat_in (l : list (event rt)) : Prop :=
  exists seq, In (EvSendStr (json_serialize rt (heartbeat_payload seq))) l.

(** From [w] to [w'] the log grew, and [last_heartbeat_sent] kept its
    value, or was reset to NaN, or a heartbeat went out. *)
Definition stamped_by_heartbeat (w w' : World rt) : Prop :=
  exists new,
    log w' = (new ++ log w)%list /\
    (last_heartbeat_sent (client w') = last_heartbeat_sent (client w) \/
     last_heartbeat_sent (client w') = Py.nan \/
     heartbeat_in new).

(** What [recv] does with a complete buffer: one call of
    [self.zlib.decompress], whose new state stays in the client, and one of
    [json_deserialize]. *)
Definition inflate_one (buffer : list byte) (w : World rt)
  : outcome json * World rt :=
  match zlib_decompress rt (zlib (client w)) buffer with
  | Some (pl, z) =>
      match json_deserialize rt (PyBytes pl) with
      | Some payload => (Return payload, update (set_zlib rt z) w)
      | None => (Raise (External "json_deserialize"), update (set_zlib rt z) w)
      end
  | None => (Raise (External "zlib.error"), w)
  end.

(** The texts handed to [ws.send_str], latest first. *)
Definition payloads (l : list (event rt)) : list string :=
  flat_map (fun e => match e with EvSendStr s => [s] | _ => [] end) l.

(** Any effect but [ws.send_str]. *)
Definition silent (e : event rt) : Prop :=
  match e with
  | EvSendStr _ => False
  | _ => True
  end.

(** How a payload comes in: in one TEXT frame, or in BINARY frames, as
    with [compress=zlib-stream]. *)
Inductive delivery : Type :=
| AsText (raw : pydata)
| AsBinary (chunk : list byte) (chunks : list (list byte)).

Definition frames_of (d : delivery) : list inbound :=
  match d with
  | AsText raw => [Frame (mkMessage TEXT raw)]
  | AsBinary chunk chunks => map binary (chunk :: chunks)
  end.

(** [delivers d z payload]: a client whose inflate context is [z] reads
    [payload] from the frames of [d]: the text decodes to it, or the
    chunks end with the sentinel at the last one and not before, and
    inflate to bytes that decode to it. *)
Definition delivers (d : delivery) (z : zstate rt) (payload : json) : Prop :=
  match d with
  | AsText raw => json_deserialize rt raw = Some payload
  | AsBinary chunk chunks =>
      let frames := chunk :: chunks in
      (forall n, (0 < n < List.length frames)%nat ->
            Py.endswith (List.concat (firstn n frames)) sentinel = false) /\
      Py.endswith (List.concat frames) sentinel = true /\
      exists pl z',
        zlib_decompress rt z (List.concat frames) = Some (pl, z') /\
        json_deserialize rt (PyBytes pl) = Some payload
  end.

(** What is to come when a payload is on its way: control frames, the
    frames of the payload, and whatever follows. *)
Definition arriving (controls : list WSMessage) (d : delivery)
  (rest : list inbound) : list inbound :=
  (map Frame controls ++ frames_of d ++ rest)%list.

(** What the handshake reads and never writes. *)
Definition handshake_view (w : World rt)
  : json * option string * list inbound * zstate rt :=
  (identify_payload rt (client w), session_id (client w), inbox w,
   zlib (client w)).

(** What a heartbeat pass needs to go out, and the handshake leaves alone. *)
Definition heartbeat_view (w : World rt) :=
  (closed_event (client w), last_heartbeat_sent (client w),
   last_heartbeat_ack_received (client w), seq (client w)).

(** Up to HELLO: nothing was sent, the heartbeat task does not exist,
    [frames] are still to come and nothing was inflated. *)
Definition handshaking (frames : list inbound) (identify_pl : json)
  (c : Connection rt) : Prop :=
  (main c = Opening \/ main c = AwaitingHello) /\
  heartbeat_task c = NotCreated /\
  hb_interval c = None /\
  handshake_view (world c) =
    (identify_pl, None, frames, zlib_decompressobj rt) /\
  payloads (log (world c)) = [].

(** From IDENTIFY on: it is the first text that was sent, the heartbeat
    interval is 41.25 s. *)
Definition identified (identify_pl : json) (c : Connection rt) : Prop :=
  (main c = Listening \/ exists e, main c = Terminated e) /\
  (exists ps,
      payloads (log (world c)) = (ps ++ [json_serialize rt identify_pl])%list) /\
  hb_interval c = Some seconds_41_25.

(** [connect] ended before it sent anything. *)
Definition gave_up (c : Connection rt) : Prop :=
  (exists e, main c = Terminated e) /\
  heartbeat_task c = NotCreated /\
  payloads (log (world c)) = [].

(** Where a connection that finds HELLO first can be. *)
Definition handshake_invariant (frames : list inbound) (identify_pl : json)
  (c : Connection rt) : Prop :=
  handshaking frames identify_pl c \/ identified identify_pl c \/ gave_up c.

End Vocabulary.

Arguments frame {rt X} proj allowed w w'.
Arguments framed {rt X} proj allowed {A} m.
Arguments heartbeat_sent {rt} heartbeat_interval w.
Arguments close_times {rt} n w.
Arguments inflate_one {rt} buffer w.

(** ** Properties *)

Section Properties.

Variable rt : Runtime.

(** *** Floats *)

Lemma lt_nan_l (x : spec_float) : Py.lt Py.nan x = false.
Proof. reflexivity. Qed.

Lemma lt_nan_r (x : spec_float) : Py.lt x Py.nan = false.
Proof. destruct x; reflexivity. Qed.

Lemma ge_nan_l (x : spec_float) : Py.ge Py.nan x = false.
Proof. destruct x; reflexivity. Qed.

Lemma ge_nan_r (x : spec_float) : Py.ge x Py.nan = false.
Proof. reflexivity. Qed.

Lemma lt_not_nan (a b : spec_float) :
  Py.lt a b = true -> Py.isnan a = false /\ Py.isnan b = false.
Proof.
  destruct a, b; cbn; intros H; try discriminate H; split; reflexivity.
Qed.

(** [a >= b] and [a < b] exclude each other; both fail on a NaN. *)
Lemma ge_not_lt (a b : spec_float) : Py.ge a b = true -> Py.lt a b = false.
Proof.
  unfold Py.ge, Py.lt, SFleb, SFltb.
  destruct a as [sa| sa | |sa ma ea], b as [sb|sb| |sb mb eb]; cbn;
    try reflexivity; try discriminate;
    try (destruct sa; try destruct sb; cbn; congruence).
  rewrite (Z.compare_antisym ea eb).
  change (Pos.compare_cont Eq mb ma) with (Pos.compare mb ma).
  change (Pos.compare_cont Eq ma mb) with (Pos.compare ma mb).
  rewrite (Pos.compare_antisym ma mb).
  destruct sa, sb; cbn; try congruence;
    destruct (ea ?= eb); cbn; try congruence;
    destruct (ma ?= mb)%positive; cbn; congruence.
Qed.

(** *** [send] *)

Lemma send_too_large (payload : json) (w : World rt) :
  4096 < Z.of_nat (String.length (json_serialize rt payload)) ->
  send rt payload w = (Raise (too_large (json_serialize rt payload)), w).
Proof.
  intros H. unfold send.
  destruct (Z.ltb_spec 4096 (Z.of_nat (String.length (json_serialize rt payload))));
    [reflexivity | lia].
Qed.

Lemma send_small (payload : json) (w : World rt) :
  Z.of_nat (String.length (json_serialize rt payload)) <= 4096 ->
  send rt payload w =
  match ws (client w) with
  | Some _ =>
      (Return tt, emit (EvSendStr (json_serialize rt payload)) (emit EvAcquire w))
  | None => (Raise AttributeError, emit EvAcquire w)
  end.
Proof.
  intros H. unfold send.
  destruct (Z.ltb_spec 4096 (Z.of_nat (String.length (json_serialize rt payload))));
    [lia |].
  unfold bind, ratelimiter_acquire, ws_send_str, the_ws, effect, bind, self. cbn.
  destruct (ws (client w)); reflexivity.
Qed.

Lemma send_never_zombied (payload : json) (w : World rt) :
  fst (send rt payload w) <> Raise GatewayZombiedError.
Proof.
  destruct (Z.ltb_spec 4096 (Z.of_nat (String.length (json_serialize rt payload)))).
  - rewrite send_too_large by assumption. discriminate.
  - rewrite send_small by assumption. destruct (ws (client w)); discriminate.
Qed.

(** *** The heartbeat *)

Lemma heartbeat_zombied (heartbeat_interval : spec_float) (w : World rt) :
  closed_event (client w) = false ->
  Py.lt (last_heartbeat_ack_received (client w)) (last_heartbeat_sent (client w)) = true ->
  heartbeat_keep_alive rt heartbeat_interval w = (Raise GatewayZombiedError, w).
Proof.
  intros Hopen Hlt. unfold heartbeat_keep_alive, bind, self. cbn.
  rewrite Hopen, Hlt. reflexivity.
Qed.

Lemma heartbeat_sends (heartbeat_interval : spec_float) (w : World rt) :
  closed_event (client w) = false ->
  Py.lt (last_heartbeat_ack_received (client w)) (last_heartbeat_sent (client w)) = false ->
  heartbeat_keep_alive rt heartbeat_interval w =
  match send rt (heartbeat_payload (seq (client w))) w with
  | (Return _, w') =>
      (Return Again,
       emit (EvWaitClosed heartbeat_interval)
         (update (set_last_heartbeat_sent (perf_counter_reading rt (reads w')))
            (tick rt w')))
  | (Raise e, w') => (Raise e, w')
  | (Suspended, w') => (Suspended, w')
  end.
Proof.
  intros Hopen Hlt. unfold heartbeat_keep_alive, bind at 1, self. cbn.
  rewrite Hopen, Hlt. unfold bind at 1.
  destruct (send rt (heartbeat_payload (seq (client w))) w) as [[[]|e|] w'];
    reflexivity.
Qed.

(** C1, as the code has it: at the start of a pass of the heartbeat loop,
    if [last_heartbeat_ack_received >= last_heartbeat_sent], or if no
    heartbeat has been stamped yet and [last_heartbeat_sent] is NaN, as in
    the first pass of a connection, no Zombied is raised: opcode 1 is sent
    with [seq] as payload and [last_heartbeat_sent] is stamped afterwards.
    If [last_heartbeat_ack_received < last_heartbeat_sent], Zombied is
    raised before anything is sent. *)
Theorem heartbeat_cycle (heartbeat_interval : spec_float) (w : World rt) :
  closed_event (client w) = false ->
  let ack := last_heartbeat_ack_received (client w) in
  let sent := last_heartbeat_sent (client w) in
  (Py.ge ack sent = true \/ Py.isnan sent = true ->
   fst (heartbeat_keep_alive rt heartbeat_interval w) <> Raise GatewayZombiedError /\
   (ws (client w) <> None ->
    Z.of_nat (String.length (json_serialize rt (heartbeat_payload (seq (client w)))))
      <= 4096 ->
    heartbeat_keep_alive rt heartbeat_interval w =
      (Return Again, heartbeat_sent heartbeat_interval w))) /\
  (Py.lt ack sent = true ->
   heartbeat_keep_alive rt heartbeat_interval w = (Raise GatewayZombiedError, w)).
Proof.
  intros Hopen ack sent. split.
  - intros Hok.
    assert (Hlt : Py.lt ack sent = false).
    { destruct Hok as [H | H].
      - now apply ge_not_lt.
      - subst ack sent.
        destruct (last_heartbeat_sent (client w)); try discriminate H.
        apply lt_nan_r. }
    rewrite heartbeat_sends by assumption. split.
    + pose proof (send_never_zombied (heartbeat_payload (seq (client w))) w) as Hs.
      destruct (send rt (heartbeat_payload (seq (client w))) w) as [[[]|e|] w'];
        cbn in *; congruence.
    + intros Hws Hlen. rewrite send_small by assumption.
      destruct (ws (client w)); [reflexivity | congruence].
  - intros Hlt. now apply heartbeat_zombied.
Qed.

(** C5, as the code has it: a payload whose serialized text is longer than
    4096 characters makes [send] raise [GatewayError], the general error
    class of the gateway, with the size in its message, and nothing is
    attempted: no permit is taken, nothing is written, the world is as it
    was.  Any other payload is written to the socket after the rate limiter
    granted a permit. *)
Theorem send_checks_size (payload : json) (w : World rt) :
  let payload_str := json_serialize rt payload in
  (4096 < Z.of_nat (String.length payload_str) ->
   send rt payload w = (Raise (too_large payload_str), w) /\
   class_of (too_large payload_str) = CGatewayError) /\
  (Z.of_nat (String.length payload_str) <= 4096 ->
   ws (client w) <> None ->
   send rt payload w =
     (Return tt, emit (EvSendStr payload_str) (emit EvAcquire w))).
Proof.
  cbn. split.
  - intros H. split; [now apply send_too_large | reflexivity].
  - intros H Hws. rewrite send_small by assumption.
    destruct (ws (client w)); [reflexivity | congruence].
Qed.

(** *** What a coroutine leaves alone

    Each coroutine is [framed] for every view that the assignments it makes
    keep and every set of effects that holds the ones it has. *)

Section Frame.

Variable X : Type.
Variable proj : World rt -> X.
Variable allowed : event rt -> Prop.

Lemma frame_refl (w : World rt) : frame proj allowed w w.
Proof. split; [reflexivity | exists []; split; [reflexivity | constructor]]. Qed.

Lemma frame_trans (a b c : World rt) :
  frame proj allowed a b -> frame proj allowed b c -> frame proj allowed a c.
Proof.
  intros [Hp (n1 & Hl1 & Hf1)] [Hq (n2 & Hl2 & Hf2)]. split.
  - congruence.
  - exists (n2 ++ n1)%list. split.
    + rewrite Hl2, Hl1. apply app_assoc.
    + apply Forall_app. split; assumption.
Qed.

Lemma framed_ret {A : Type} (a : A) : framed proj allowed (ret rt a).
Proof. intros w. apply frame_refl. Qed.

Lemma framed_raise {A : Type} (e : exn) : framed proj allowed (@raise rt A e).
Proof. intros w. apply frame_refl. Qed.

Lemma framed_suspended {A : Type} : framed proj allowed (@suspended rt A).
Proof. intros w. apply frame_refl. Qed.

Lemma framed_self : framed proj allowed (self rt).
Proof. intros w. apply frame_refl. Qed.

Lemma framed_lift {A : Type} (r : exn + A) : framed proj allowed (lift rt r).
Proof. destruct r; intros w; apply frame_refl. Qed.

Lemma framed_bind {A B : Type} (m : coro rt A) (k : A -> coro rt B) :
  framed proj allowed m ->
  (forall a, framed proj allowed (k a)) ->
  framed proj allowed (bind rt m k).
Proof.
  intros Hm Hk w. unfold bind. specialize (Hm w).
  destruct (m w) as [[a|e|] w']; cbn in *; try assumption.
  eapply frame_trans; [exact Hm | apply Hk].
Qed.

Lemma framed_effect (e : event rt) :
  (forall w, proj (emit e w) = proj w) -> allowed e -> framed proj allowed (effect rt e).
Proof.
  intros Hp He w. split; [apply Hp |].
  exists [e]. split; [reflexivity | repeat constructor; assumption].
Qed.

Lemma framed_assign (f : GatewayClient rt -> GatewayClient rt) :
  (forall w, proj (update f w) = proj w) -> framed proj allowed (assign rt f).
Proof.
  intros Hf w. split; [apply Hf |].
  exists []. split; [reflexivity | constructor].
Qed.

Lemma framed_perf_counter :
  (forall w, proj (tick rt w) = proj w) ->
  framed proj allowed (perf_counter rt).
Proof.
  intros Hp w. split; [apply Hp |].
  exists []. split; [reflexivity | constructor].
Qed.

Lemma framed_leave (rest : list inbound) :
  (forall w, proj (set_inbox rt rest w) = proj w) ->
  framed proj allowed (leave rt rest).
Proof.
  intros Hp w. split; [apply Hp |].
  exists []. split; [reflexivity | constructor].
Qed.

Lemma framed_suppress (m : coro rt unit) :
  framed proj allowed m -> framed proj allowed (suppress_AttributeError rt m).
Proof.
  intros Hm w. unfold suppress_AttributeError. specialize (Hm w).
  destruct (m w) as [[a|e|] w']; try destruct e; exact Hm.
Qed.

(** One step of a proof that a coroutine is [framed proj allowed]. *)
Ltac framed_step :=
  first
    [ solve [auto]
    | apply framed_ret | apply framed_raise | apply framed_suspended
    | apply framed_self | apply framed_lift
    | apply framed_perf_counter; solve [auto]
    | apply framed_leave; solve [auto]
    | apply framed_bind; [| intro]
    | apply framed_effect; solve [auto]
    | apply framed_assign; solve [auto]
    | apply framed_suppress
    | match goal with
      | |- framed _ _ (if ?b then _ else _) => destruct b
      | |- framed _ _ (match ?x with _ => _ end) => destruct x
      end ].

Ltac framed_auto := repeat framed_step.

(** The attribute assignments and effects a lemma relies on. *)
Hypothesis keep_emit : forall e w, proj (emit e w) = proj w.
Hypothesis keep_tick : forall w, proj (tick rt w) = proj w.
Hypothesis keep_inbox : forall i w, proj (set_inbox rt i w) = proj w.
Hypothesis keep_ws :
  forall v w, proj (update (set_ws rt v) w) = proj w.
Hypothesis keep_session :
  forall v w, proj (update (set_session rt v) w) = proj w.
Hypothesis keep_zlib :
  forall v w, proj (update (set_zlib rt v) w) = proj w.
Hypothesis keep_seq :
  forall v w, proj (update (set_seq v) w) = proj w.
Hypothesis keep_connected_at :
  forall v w, proj (update (set_connected_at rt v) w) = proj w.
Hypothesis keep_last_ping_sent :
  forall v w, proj (update (set_last_ping_sent rt v) w) = proj w.
Hypothesis keep_last_pong_received :
  forall v w, proj (update (set_last_pong_received rt v) w) = proj w.
Hypothesis keep_last_heartbeat_sent :
  forall v w, proj (update (set_last_heartbeat_sent v) w) = proj w.
Hypothesis keep_last_heartbeat_ack_received :
  forall v w, proj (update (set_last_heartbeat_ack_received v) w) = proj w.
Hypothesis keep_closed_event :
  forall v w, proj (update (set_closed_event rt v) w) = proj w.

Hypothesis may_open_session : allowed (EvClientSession rt).
Hypothesis may_ws_connect : forall u t, allowed (EvWsConnect rt u t).
Hypothesis may_acquire : allowed EvAcquire.
Hypothesis may_send_str : forall s, allowed (EvSendStr s).
Hypothesis may_ping : allowed (EvPing rt).
Hypothesis may_pong : allowed (EvPong rt).
Hypothesis may_ws_close : allowed (EvWsClose rt).
Hypothesis may_session_close : allowed (EvSessionClose rt).
Hypothesis may_set_closed : allowed EvClosedSet.
Hypothesis may_wait : forall t, allowed (EvWaitClosed t).
Hypothesis may_dispatch : forall g e p, allowed (EvDispatch g e p).

Lemma framed_the_ws : framed proj allowed (the_ws rt).
Proof. unfold the_ws. framed_auto. Qed.

Lemma framed_deliver (item : inbound) : framed proj allowed (deliver rt item).
Proof.
  pose proof framed_the_ws.
  unfold deliver. destruct item as [m|]; [destruct (type m) |]; framed_auto.
Qed.

Lemma framed_ws_receive (items : list inbound) :
  framed proj allowed (ws_receive rt items).
Proof.
  pose proof framed_the_ws. pose proof framed_deliver.
  unfold ws_receive. framed_auto.
Qed.

Lemma framed_recv_binary (items : list inbound) (buffer : list byte) :
  framed proj allowed (recv_binary rt items buffer).
Proof.
  pose proof framed_ws_receive.
  revert buffer. induction items as [|item rest IH]; intros buffer;
    cbn [recv_binary]; framed_auto.
Qed.

Lemma framed_recv_from (items : list inbound) : framed proj allowed (recv_from rt items).
Proof.
  pose proof framed_ws_receive. pose proof framed_recv_binary.
  pose proof framed_the_ws.
  induction items as [|item rest IH]; cbn [recv_from tl];
    unfold deserialize, decompress, ws_pong; framed_auto.
Qed.

Lemma framed_recv : framed proj allowed (recv rt).
Proof. intros w. apply framed_recv_from. Qed.

Lemma framed_send (payload : json) : framed proj allowed (send rt payload).
Proof.
  pose proof framed_the_ws.
  unfold send, ratelimiter_acquire, ws_send_str. framed_auto.
Qed.

Lemma framed_connect_open : framed proj allowed (connect_open rt).
Proof.
  unfold connect_open, session_ws_connect. framed_auto.
  intros w. destruct (dial_failure w); apply frame_refl.
Qed.

Lemma framed_connect_hello : framed proj allowed (connect_hello rt).
Proof. pose proof framed_recv. unfold connect_hello. framed_auto. Qed.

Lemma framed_connect_authenticate : framed proj allowed (connect_authenticate rt).
Proof.
  pose proof framed_send.
  unfold connect_authenticate, identify, resume. framed_auto.
Qed.

Lemma framed_poll_events : framed proj allowed (poll_events rt).
Proof.
  pose proof framed_recv. pose proof framed_send.
  unfold poll_events, dispatch. framed_auto.
Qed.

Lemma framed_ping_keep_alive : framed proj allowed (ping_keep_alive rt).
Proof.
  pose proof framed_the_ws.
  unfold ping_keep_alive, ws_ping, wait_closed. framed_auto.
Qed.

Lemma framed_heartbeat_keep_alive (heartbeat_interval : spec_float) :
  framed proj allowed (heartbeat_keep_alive rt heartbeat_interval).
Proof.
  pose proof framed_send.
  unfold heartbeat_keep_alive, wait_closed. framed_auto.
Qed.

Lemma framed_close : framed proj allowed (close rt).
Proof.
  pose proof framed_the_ws.
  unfold close, ws_close, session_close, the_session. framed_auto.
Qed.

End Frame.

(** *** Relating the world before and after a schedule

    A reflexive and transitive relation that every piece of [connect],
    every task and the [finally] block respect is respected by a whole
    schedule; [close] needs to respect it only if the schedule calls it. *)

Section Schedule.

Variable R : World rt -> World rt -> Prop.
Variable permitted : action -> Prop.

Hypothesis R_refl : forall w, R w w.
Hypothesis R_trans : forall a b c, R a b -> R b c -> R a c.
Hypothesis R_open : forall w, R w (snd (connect_open rt w)).
Hypothesis R_hello : forall w, R w (snd (connect_hello rt w)).
Hypothesis R_authenticate : forall w, R w (snd (connect_authenticate rt w)).
Hypothesis R_poll : forall w, R w (snd (poll_events rt w)).
Hypothesis R_ping : forall w, R w (snd (ping_keep_alive rt w)).
Hypothesis R_heartbeat :
  forall interval w, R w (snd (heartbeat_keep_alive rt interval w)).
Hypothesis R_close : permitted CallClose -> forall w, R w (snd (close rt w)).
Hypothesis R_finally : forall w, R w (connect_finally w).

Lemma terminate_related (e : exn) (c : Connection rt) :
  R (world c) (world (terminate rt e c)).
Proof. apply R_finally. Qed.

Lemma gather_related (c : Connection rt) : R (world c) (world (gather rt c)).
Proof.
  unfold gather.
  destruct (main c); try apply R_refl.
  destruct (ping_task c); try apply terminate_related;
    destruct (heartbeat_task c);
    first [apply terminate_related | apply R_refl].
Qed.

Lemma turn_related (m : coro rt loop) (st : task_state) (w : World rt) :
  (forall w, R w (snd (m w))) -> R w (snd (turn rt m st w)).
Proof.
  intros Hm. unfold turn. destruct st; try apply R_refl.
  specialize (Hm w). destruct (m w) as [[[]|e|] w']; exact Hm.
Qed.

Lemma step_main_related (c : Connection rt) :
  R (world c) (world (step_main rt c)).
Proof.
  unfold step_main. destruct (main c).
  - pose proof (R_open (world c)) as H.
    destruct (connect_open rt (world c)) as [[a|e|] w]; cbn [snd world] in *;
      try assumption.
    eapply R_trans; [exact H | apply R_finally].
  - pose proof (R_hello (world c)) as H.
    destruct (connect_hello rt (world c)) as [[interval|e|] w];
      cbn [snd world] in *; try assumption.
    + pose proof (R_authenticate w) as H'.
      destruct (connect_authenticate rt w) as [[a|e|] w']; cbn [snd world] in *.
      * eapply R_trans; [exact H | exact H'].
      * eapply R_trans; [exact H |]. eapply R_trans; [exact H' | apply R_finally].
      * eapply R_trans; [exact H | exact H'].
    + eapply R_trans; [exact H | apply R_finally].
  - pose proof (R_poll (world c)) as H.
    destruct (poll_events rt (world c)) as [[a|e|] w]; cbn [snd world] in *;
      try assumption.
    eapply R_trans; [exact H | apply R_finally].
  - apply R_refl.
Qed.

Lemma step_related (a : action) (c : Connection rt) :
  permitted a -> R (world c) (world (step rt a c)).
Proof.
  intros Ha. unfold step.
  eapply R_trans; [| apply gather_related].
  destruct a.
  - apply step_main_related.
  - pose proof (turn_related (ping_keep_alive rt) (ping_task c) (world c) R_ping).
    destruct (turn rt (ping_keep_alive rt) (ping_task c) (world c)).
    assumption.
  - destruct (hb_interval c) as [interval|]; [| apply R_refl].
    pose proof (turn_related (heartbeat_keep_alive rt interval)
                  (heartbeat_task c) (world c) (R_heartbeat interval)).
    destruct (turn rt (heartbeat_keep_alive rt interval) (heartbeat_task c)
                (world c)).
    assumption.
  - cbn [world]. now apply R_close.
Qed.

Lemma connect_related (schedule : list action) (c : Connection rt) :
  Forall permitted schedule -> R (world c) (world (connect rt schedule c)).
Proof.
  revert c. induction schedule as [|a rest IH]; intros c Hall; cbn.
  - destruct (main c); apply R_refl.
  - inversion Hall as [|? ? Ha Hrest]; subst.
    destruct (main c); try apply R_refl;
      (apply (R_trans _ (world (step rt a c)));
       [apply step_related; assumption | apply IH; assumption]).
Qed.

End Schedule.

Lemma terminate_reset (e : exn) (c : Connection rt) : reset (terminate rt e c).
Proof. intros e' _. cbn. repeat split. Qed.

Lemma gather_reset (c : Connection rt) : reset c -> reset (gather rt c).
Proof.
  intros Hc. unfold gather.
  destruct (main c) eqn:Hm; try assumption.
  destruct (ping_task c); try apply terminate_reset;
    destruct (heartbeat_task c); first [apply terminate_reset | assumption].
Qed.

Lemma running_reset (c : Connection rt) :
  (forall e, main c <> Terminated e) -> reset c.
Proof. intros H e He. destruct (H e He). Qed.

Lemma step_reset (a : action) (c : Connection rt) :
  (forall e, main c <> Terminated e) -> reset (step rt a c).
Proof.
  intros Hc. unfold step. apply gather_reset. destruct a.
  - unfold step_main. destruct (main c) eqn:Hm.
    + destruct (connect_open rt (world c)) as [[x|e|] w];
        first [apply terminate_reset | apply running_reset; discriminate].
    + destruct (connect_hello rt (world c)) as [[interval|e|] w];
        [destruct (connect_authenticate rt w) as [[x|e|] w'] | |];
        first [apply terminate_reset | apply running_reset; discriminate].
    + destruct (poll_events rt (world c)) as [[x|e|] w];
        first [apply terminate_reset | apply running_reset; discriminate].
    + destruct (Hc e eq_refl).
  - destruct (turn rt (ping_keep_alive rt) (ping_task c) (world c)).
    apply running_reset. exact Hc.
  - destruct (hb_interval c) as [interval|].
    + destruct (turn rt (heartbeat_keep_alive rt interval) (heartbeat_task c)
                  (world c)).
      apply running_reset. exact Hc.
    + apply running_reset. exact Hc.
  - apply running_reset. exact Hc.
Qed.

Lemma connect_reset (schedule : list action) (c : Connection rt) :
  reset c -> reset (connect rt schedule c).
Proof.
  revert c. induction schedule as [|a rest IH]; intros c Hc; cbn [connect].
  - destruct (main c); exact Hc.
  - destruct (main c) eqn:Hm; try exact Hc;
      apply IH; apply step_reset; rewrite Hm; discriminate.
Qed.

(** *** The end of [connect] and [close] *)

Lemma connect_alone_never_closes (schedule : list action) (c : Connection rt) :
  Forall (fun a => a <> CallClose) schedule ->
  frame (fun w => closed_event (client w)) (fun e => ~ closing e) (world c)
    (world (connect rt schedule c)).
Proof.
  apply connect_related.
  - apply frame_refl.
  - apply frame_trans.
  - apply framed_connect_open; intros; first [reflexivity | exact (fun H => H)].
  - apply framed_connect_hello; intros; first [reflexivity | exact (fun H => H)].
  - apply framed_connect_authenticate; intros;
      first [reflexivity | exact (fun H => H)].
  - apply framed_poll_events; intros; first [reflexivity | exact (fun H => H)].
  - apply framed_ping_keep_alive; intros; first [reflexivity | exact (fun H => H)].
  - intros interval. apply framed_heartbeat_keep_alive; intros;
      first [reflexivity | exact (fun H => H)].
  - intros H. destruct (H eq_refl).
  - intros w. split; [reflexivity | exists []; split; [reflexivity | constructor]].
Qed.

(** C8, as the code has it: whenever [connect] ends, its [finally] block
    has reset the four timing samples and [connected_at] to NaN, so the
    client reports disconnected.  [connect] itself closes nothing: unless
    [close] is called, the close latch is as it was and neither
    [ws.close()] nor [session.close()] nor [closed_event.set()] has been
    called. *)
Theorem connect_teardown (schedule : list action) (w : World rt) (e : exn) :
  main (connect rt schedule (initial w)) = Terminated e ->
  let g := client (world (connect rt schedule (initial w))) in
  (last_ping_sent g = Py.nan /\
   last_pong_received g = Py.nan /\
   last_heartbeat_sent g = Py.nan /\
   last_heartbeat_ack_received g = Py.nan /\
   connected_at g = Py.nan /\
   is_connected g = false) /\
  (Forall (fun a => a <> CallClose) schedule ->
   closed_event g = closed_event (client w) /\
   exists new,
     log (world (connect rt schedule (initial w))) = (new ++ log w)%list /\
     Forall (fun e => ~ closing e) new).
Proof.
  intros Hend g. split.
  - assert (Hr : reset (connect rt schedule (initial w))).
    { apply connect_reset. apply running_reset. discriminate. }
    destruct (Hr e Hend) as (H1 & H2 & H3 & H4 & H5).
    subst g. unfold is_connected. rewrite H1, H2, H3, H4, H5.
    repeat split.
  - intros Hno.
    exact (connect_alone_never_closes schedule (initial w) Hno).
Qed.

Lemma close_returns (w : World rt) : fst (close rt w) = Return tt.
Proof.
  destruct w as [g i d r l]. destruct g.
  destruct ws0, session0, closed_event0; reflexivity.
Qed.

Lemma close_sets_latch (w : World rt) :
  closed_event (client (snd (close rt w))) = true /\
  latch_sets (log (snd (close rt w))) =
    (latch_sets (log w) + if closed_event (client w) then 0 else 1)%nat.
Proof.
  destruct w as [g i d r l]. destruct g.
  destruct ws0, session0, closed_event0; split; try reflexivity;
    unfold latch_sets; simpl; lia.
Qed.

Lemma close_twice (w : World rt) :
  client (snd (close rt (snd (close rt w)))) = client (snd (close rt w)).
Proof.
  destruct w as [g i d r l]. destruct g.
  destruct ws0, session0, closed_event0; reflexivity.
Qed.

Lemma close_times_S (n : nat) (w : World rt) :
  close_times (S n) w = snd (close rt (close_times n w)).
Proof. reflexivity. Qed.

(** C9: [close] never raises, on a socket and a session that were never
    opened or are closed already as on open ones; calling it again changes
    nothing in the client, and however often it is called, in whatever
    state, the close latch ends up set and [closed_event.set()] has been
    called once if the latch was not set before and not at all if it
    was. *)
Theorem close_idempotent (n : nat) (w : World rt) :
  fst (close rt (close_times n w)) = Return tt /\
  closed_event (client (close_times (S n) w)) = true /\
  client (close_times (S n) w) = client (close_times 1 w) /\
  latch_sets (log (close_times (S n) w)) =
    (latch_sets (log w) + if closed_event (client w) then 0 else 1)%nat.
Proof.
  split; [apply close_returns |].
  induction n as [|n (IH1 & IH2 & IH3)].
  - cbn [close_times Nat.iter].
    destruct (close_sets_latch w) as [H1 H2]. repeat split; assumption.
  - rewrite (close_times_S (S n)).
    destruct (close_sets_latch (close_times (S n) w)) as [H1 H2].
    split; [exact H1 | split].
    + rewrite <- IH2. rewrite (close_times_S n). apply close_twice.
    + rewrite H2, IH3, IH1. lia.
Qed.

(** *** Zombied needs a heartbeat *)

Lemma stamped_refl (w : World rt) : stamped_by_heartbeat w w.
Proof. exists []. split; [reflexivity | left; reflexivity]. Qed.

Lemma stamped_trans (a b c : World rt) :
  stamped_by_heartbeat a b -> stamped_by_heartbeat b c ->
  stamped_by_heartbeat a c.
Proof.
  intros (n1 & Hl1 & H1) (n2 & Hl2 & H2).
  exists (n2 ++ n1)%list. split.
  - rewrite Hl2, Hl1. apply app_assoc.
  - destruct H2 as [H2 | [H2 | (q & H2)]].
    + rewrite H2. destruct H1 as [H1 | [H1 | (q & H1)]]; auto.
      right; right. exists q. apply in_or_app. now right.
    + auto.
    + right; right. exists q. apply in_or_app. now left.
Qed.

Lemma frame_stamped (w w' : World rt) :
  frame (fun w => last_heartbeat_sent (client w)) (fun _ => True) w w' ->
  stamped_by_heartbeat w w'.
Proof. intros [Hp (new & Hl & _)]. exists new. auto. Qed.

Lemma heartbeat_stamped (interval : spec_float) (w : World rt) :
  stamped_by_heartbeat w (snd (heartbeat_keep_alive rt interval w)).
Proof.
  destruct (closed_event (client w)) eqn:Hopen.
  - unfold heartbeat_keep_alive, bind, self. cbn. rewrite Hopen.
    apply stamped_refl.
  - destruct (Py.lt (last_heartbeat_ack_received (client w))
                (last_heartbeat_sent (client w))) eqn:Hlt.
    + rewrite heartbeat_zombied by assumption. apply stamped_refl.
    + rewrite heartbeat_sends by assumption.
      destruct (Z.ltb_spec 4096
                  (Z.of_nat (String.length
                               (json_serialize rt (heartbeat_payload (seq (client w))))))).
      * rewrite send_too_large by assumption. apply stamped_refl.
      * rewrite send_small by assumption.
        destruct (ws (client w)).
        -- eexists [_; _; _]. split; [reflexivity |].
           right; right. exists (seq (client w)). cbn. auto.
        -- exists [EvAcquire]. split; [reflexivity | left; reflexivity].
Qed.

Lemma connect_stamped (schedule : list action) (c : Connection rt) :
  stamped_by_heartbeat (world c) (world (connect rt schedule c)).
Proof.
  apply connect_related with (permitted := fun _ => True).
  - apply stamped_refl.
  - apply stamped_trans.
  - intros w. apply frame_stamped.
    apply framed_connect_open; intros; first [reflexivity | exact I].
  - intros w. apply frame_stamped.
    apply framed_connect_hello; intros; first [reflexivity | exact I].
  - intros w. apply frame_stamped.
    apply framed_connect_authenticate; intros; first [reflexivity | exact I].
  - intros w. apply frame_stamped.
    apply framed_poll_events; intros; first [reflexivity | exact I].
  - intros w. apply frame_stamped.
    apply framed_ping_keep_alive; intros; first [reflexivity | exact I].
  - apply heartbeat_stamped.
  - intros _ w. apply frame_stamped.
    apply framed_close; intros; first [reflexivity | exact I].
  - intros w. exists []. split; [reflexivity | right; left; reflexivity].
  - apply Forall_forall. intros; exact I.
Qed.

Lemma init_samples (a : init_args rt) (g : GatewayClient rt) :
  init rt a = inr g ->
  last_heartbeat_sent g = Py.nan /\ last_heartbeat_ack_received g = Py.nan.
Proof.
  unfold init. destruct (arg_shard_count a); [| discriminate].
  intros H. injection H as <-. split; reflexivity.
Qed.

Lemma zombied_only_if_lt (interval : spec_float) (w : World rt) :
  fst (heartbeat_keep_alive rt interval w) = Raise GatewayZombiedError ->
  Py.lt (last_heartbeat_ack_received (client w)) (last_heartbeat_sent (client w))
  = true.
Proof.
  intros H.
  destruct (closed_event (client w)) eqn:Hopen.
  - unfold heartbeat_keep_alive, bind, self in H. cbn in H.
    rewrite Hopen in H. discriminate H.
  - destruct (Py.lt (last_heartbeat_ack_received (client w))
                (last_heartbeat_sent (client w))) eqn:Hlt; [reflexivity |].
    rewrite heartbeat_sends in H by assumption.
    pose proof (send_never_zombied (heartbeat_payload (seq (client w))) w) as Hs.
    destruct (send rt (heartbeat_payload (seq (client w))) w) as [[[]|e|] w'];
      cbn in *; congruence.
Qed.

(** C10: a freshly constructed client has NaN in [last_heartbeat_sent] and
    [last_heartbeat_ack_received], and so has the client when [connect]
    has ended; with NaN in either the zombied check does not fire; and in a
    connection that starts from there the check fires only when a heartbeat
    has gone out in this connection and the latest acknowledgement is older
    than the latest heartbeat. *)
Theorem zombied_needs_heartbeat
  (a : init_args rt) (schedule : list action) (w : World rt) :
  (forall g, init rt a = inr g ->
        last_heartbeat_sent g = Py.nan /\
        last_heartbeat_ack_received g = Py.nan) /\
  (forall e, main (connect rt schedule (initial w)) = Terminated e ->
        let g := client (world (connect rt schedule (initial w))) in
        last_heartbeat_sent g = Py.nan /\
        last_heartbeat_ack_received g = Py.nan) /\
  (forall interval w',
      Py.isnan (last_heartbeat_sent (client w')) = true \/
      Py.isnan (last_heartbeat_ack_received (client w')) = true ->
      fst (heartbeat_keep_alive rt interval w') <> Raise GatewayZombiedError) /\
  (last_heartbeat_sent (client w) = Py.nan ->
   let now := world (connect rt schedule (initial w)) in
   forall interval,
     fst (heartbeat_keep_alive rt interval now) = Raise GatewayZombiedError ->
     Py.lt (last_heartbeat_ack_received (client now))
       (last_heartbeat_sent (client now)) = true /\
     exists new, log now = (new ++ log w)%list /\ heartbeat_in new).
Proof.
  repeat split.
  - now apply (init_samples a).
  - now apply (init_samples a).
  - assert (Hr : reset (connect rt schedule (initial w))).
    { apply connect_reset. apply running_reset. discriminate. }
    now destruct (Hr e H) as (_ & _ & _ & H4 & _).
  - assert (Hr : reset (connect rt schedule (initial w))).
    { apply connect_reset. apply running_reset. discriminate. }
    now destruct (Hr e H) as (_ & _ & _ & _ & H5).
  - intros interval w' Hnan Hz. apply zombied_only_if_lt in Hz.
    apply lt_not_nan in Hz. destruct Hz, Hnan; congruence.
  - now apply zombied_only_if_lt with interval.
  - apply zombied_only_if_lt in H0. apply lt_not_nan in H0.
    destruct H0 as [_ Hsent].
    destruct (connect_stamped schedule (initial w)) as (new & Hl & Hc).
    exists new. split; [exact Hl |].
    cbn [world initial] in Hc.
    destruct Hc as [Hc | [Hc | Hc]]; [| | exact Hc].
    + rewrite Hc, H in Hsent. discriminate Hsent.
    + rewrite Hc in Hsent. discriminate Hsent.
Qed.

(** *** [recv] *)

Lemma recv_binary_eq (items : list inbound) (buffer : list byte) :
  recv_binary rt items buffer =
  if Py.endswith buffer sentinel then ret rt buffer
  else
    bind rt (ws_receive rt items)
      (fun message =>
         if negb (WSMsgType_eqb (type message) BINARY) then
           raise rt (GatewayError
                       [Lit "Expected a binary message but got ";
                        Repr (WSMsgType_name (type message))]
                       None)
         else
           bind rt (lift rt (extension (data message)))
             (fun more =>
                match items with
                | _ :: rest => recv_binary rt rest (buffer ++ more)%list
                | [] => suspended rt
                end)).
Proof. destruct items; reflexivity. Qed.

Lemma ws_receive_binary (w : World rt) (sock : WebSocket) (d : pydata)
      (rest : list inbound) :
  ws (client w) = Some sock ->
  ws_closed sock = false ->
  ws_receive rt (Frame (mkMessage BINARY d) :: rest) w =
  (Return (mkMessage BINARY d), set_inbox rt rest w).
Proof.
  intros Hws Hopen.
  unfold ws_receive, bind, the_ws, self, leave, deliver, ret. cbn.
  rewrite Hws. cbn. rewrite Hopen. cbn.
  unfold bind, the_ws, self, ret. cbn. rewrite Hws. reflexivity.
Qed.

Lemma ws_receive_nothing (w : World rt) (sock : WebSocket) :
  ws (client w) = Some sock ->
  ws_closed sock = false ->
  ws_receive rt [] w = (Suspended, w).
Proof.
  intros Hws Hopen. unfold ws_receive, bind, the_ws, self, ret. cbn.
  rewrite Hws. cbn. rewrite Hopen. reflexivity.
Qed.

Lemma set_inbox_same (w : World rt) (i : list inbound) :
  inbox w = i -> set_inbox rt i w = w.
Proof. destruct w. cbn. now intros <-. Qed.

Lemma recv_binary_closes (chunks : list (list byte)) :
  forall (buffer : list byte) (rest : list inbound) (w : World rt)
         (sock : WebSocket),
    ws (client w) = Some sock ->
    ws_closed sock = false ->
    inbox w = (map binary chunks ++ rest)%list ->
    (forall n, (n < List.length chunks)%nat ->
          Py.endswith (buffer ++ List.concat (firstn n chunks))%list sentinel = false) ->
    Py.endswith (buffer ++ List.concat chunks)%list sentinel = true ->
    recv_binary rt (map binary chunks ++ rest)%list buffer w =
    (Return (buffer ++ List.concat chunks)%list, set_inbox rt rest w).
Proof.
  induction chunks as [|chunk chunks IH];
    intros buffer rest w sock Hws Hopen Hin Hpre Hend;
    rewrite recv_binary_eq.
  - cbn [List.concat] in Hend. rewrite app_nil_r in Hend. rewrite Hend.
    cbn [List.concat]. rewrite app_nil_r.
    cbn [map app] in Hin. now rewrite (set_inbox_same w rest Hin).
  - assert (H0 : Py.endswith buffer sentinel = false).
    { specialize (Hpre 0%nat). cbn [firstn List.concat] in Hpre.
      rewrite app_nil_r in Hpre. apply Hpre. cbn. lia. }
    rewrite H0. cbn [map app].
    unfold bind at 1. unfold binary at 1.
    rewrite (ws_receive_binary w sock _ _ Hws Hopen).
    cbn [type data negb WSMsgType_eqb extension lift]. unfold bind at 1, ret at 1.
    rewrite (IH (buffer ++ chunk)%list rest
               (set_inbox rt (map binary chunks ++ rest) w) sock);
      try assumption; try reflexivity.
    + cbn [List.concat]. now rewrite app_assoc.
    + intros n Hn. specialize (Hpre (S n)). cbn [firstn List.concat] in Hpre.
      rewrite app_assoc in Hpre. apply Hpre. cbn. lia.
    + cbn [List.concat] in Hend. now rewrite app_assoc in Hend.
Qed.

Lemma recv_binary_waits (chunks : list (list byte)) :
  forall (buffer : list byte) (w : World rt) (sock : WebSocket),
    ws (client w) = Some sock ->
    ws_closed sock = false ->
    inbox w = map binary chunks ->
    (forall n, (n <= List.length chunks)%nat ->
          Py.endswith (buffer ++ List.concat (firstn n chunks))%list sentinel = false) ->
    recv_binary rt (map binary chunks) buffer w = (Suspended, set_inbox rt [] w).
Proof.
  induction chunks as [|chunk chunks IH];
    intros buffer w sock Hws Hopen Hin Hpre;
    rewrite recv_binary_eq;
    (assert (H0 : Py.endswith buffer sentinel = false);
     [ specialize (Hpre 0%nat); cbn [firstn List.concat] in Hpre;
       rewrite app_nil_r in Hpre; apply Hpre; cbn; lia |]);
    rewrite H0.
  - cbn [map]. unfold bind.
    rewrite (ws_receive_nothing w sock Hws Hopen).
    cbn [map] in Hin. now rewrite (set_inbox_same w [] Hin).
  - cbn [map]. unfold bind at 1. unfold binary at 1.
    rewrite (ws_receive_binary w sock _ _ Hws Hopen).
    cbn [type data negb WSMsgType_eqb extension lift]. unfold bind at 1, ret at 1.
    rewrite (IH (buffer ++ chunk)%list (set_inbox rt (map binary chunks) w) sock);
      try assumption; try reflexivity.
    intros n Hn. specialize (Hpre (S n)). cbn [firstn List.concat] in Hpre.
    rewrite app_assoc in Hpre. apply Hpre. cbn. lia.
Qed.

(** C4: BINARY frames are accumulated until the buffer ends with
    [00 00 FF FF]; then the accumulated bytes, all of them and nothing
    else, are inflated once with the inflate context of the client and
    [recv] returns the one payload decoded from the result, leaving the
    frames behind them in the inbox.  As long as the accumulated bytes do
    not end with the sentinel nothing is inflated or returned: [recv] goes
    on receiving. *)
Theorem recv_binary_stream
  (w : World rt) (sock : WebSocket) (chunk : list byte)
  (chunks : list (list byte)) (rest : list inbound) :
  ws (client w) = Some sock ->
  ws_closed sock = false ->
  let frames := chunk :: chunks in
  inbox w = (map binary frames ++ rest)%list ->
  (forall n, (0 < n < List.length frames)%nat ->
        Py.endswith (List.concat (firstn n frames)) sentinel = false) ->
  (Py.endswith (List.concat frames) sentinel = true ->
   recv rt w = inflate_one (List.concat frames) (set_inbox rt rest w)) /\
  (Py.endswith (List.concat frames) sentinel = false ->
   rest = [] ->
   recv rt w = (Suspended, set_inbox rt [] w)).
Proof.
  intros Hws Hopen frames Hin Hpre.
  assert (Hws' : forall i, ws (client (set_inbox rt i w)) = Some sock)
    by (intros i; exact Hws).
  split.
  - intros Hend. unfold recv. rewrite Hin. subst frames.
    cbn [map app recv_from tl]. unfold bind at 1. unfold binary at 1.
    rewrite (ws_receive_binary w sock _ _ Hws Hopen).
    cbn [type data bytearray lift]. unfold bind at 1, ret at 1.
    unfold bind at 1.
    rewrite (recv_binary_closes chunks chunk rest
               (set_inbox rt (map binary chunks ++ rest) w) sock);
      try assumption; try reflexivity.
    + unfold inflate_one, decompress, deserialize, bind, self, assign, ret, raise.
      cbn [List.concat client set_inbox update fst snd].
      destruct (zlib_decompress rt (zlib (client w)) (chunk ++ List.concat chunks))
        as [[pl z]|]; [| reflexivity].
      cbn. destruct (json_deserialize rt (PyBytes pl)); reflexivity.
    + intros n Hn. apply (Hpre (S n)). cbn. lia.
  - intros Hend ->. unfold recv. rewrite Hin. subst frames.
    rewrite app_nil_r in *.
    cbn [map recv_from tl]. unfold bind at 1. unfold binary at 1.
    rewrite (ws_receive_binary w sock _ _ Hws Hopen).
    cbn [type data bytearray lift]. unfold bind at 1, ret at 1.
    unfold bind at 1.
    rewrite (recv_binary_waits chunks chunk
               (set_inbox rt (map binary chunks) w) sock);
      try assumption; try reflexivity.
    intros n Hn.
    destruct (Nat.eq_dec n (List.length chunks)) as [-> | Hne].
    + rewrite firstn_all. exact Hend.
    + apply (Hpre (S n)). cbn. lia.
Qed.



(** *** [poll_events] *)

(** C6: a frame with [op == 0] makes the pass of the poll loop set [seq]
    to the frame's [s] and then, in the same pass, call the dispatch sink
    with the client, the frame's [t] and the frame's [d]. *)
Theorem poll_dispatch
  (w w1 : World rt) (next op s t d : json) :
  recv rt w = (Return next, w1) ->
  getitem next "op" = inr op ->
  py_eq_int op 0 = true ->
  getitem next "d" = inr d ->
  getitem next "s" = inr s ->
  getitem next "t" = inr t ->
  poll_events rt w =
    (Return tt, emit (EvDispatch (set_seq s (client w1)) t d) (update (set_seq s) w1)) /\
  seq (client (snd (poll_events rt w))) = s.
Proof.
  intros Hrecv Hop H0 Hd Hs Ht.
  assert (H : poll_events rt w =
              (Return tt,
               emit (EvDispatch (set_seq s (client w1)) t d)
                 (update (set_seq s) w1))).
  { unfold poll_events, bind at 1. rewrite Hrecv.
    rewrite Hop, Hd, Hs, Ht. cbn [lift].
    unfold bind at 1, ret at 1. unfold bind at 1, ret at 1.
    rewrite H0. reflexivity. }
  split; [exact H | now rewrite H].
Qed.

(** *** The handshake *)

Lemma authenticate_eq (w : World rt) :
  connect_authenticate rt w =
  send rt
    match session_id (client w) with
    | None => identify_payload rt (client w)
    | Some sid =>
        JDict [("op", JInt 6);
               ("d", JDict [("token", JStr (token (client w)));
                            ("seq", seq (client w));
                            ("session_id", JStr sid)])]
    end
    w.
Proof.
  unfold connect_authenticate, identify, resume, resume_payload, bind, self.
  cbn. destruct (session_id (client w)) eqn:E; rewrite ?E; reflexivity.
Qed.

Lemma gather_log (c : Connection rt) :
  log (world (gather rt c)) = log (world c).
Proof.
  unfold gather. destruct (main c); try reflexivity.
  destruct (ping_task c); try reflexivity; destruct (heartbeat_task c);
    reflexivity.
Qed.

(** C2: once HELLO is parsed, the authentication step of [connect] sends
    IDENTIFY, opcode 2, when [session_id] is [None]; when it is set it
    sends RESUME, opcode 6 with [d] made of the token, the current [seq]
    and the session id. *)
Theorem authenticate_identify_or_resume
  (c : Connection rt) (interval : spec_float) (w : World rt) :
  main c = AwaitingHello ->
  connect_hello rt (world c) = (Return interval, w) ->
  ws (client w) <> None ->
  let payload :=
    match session_id (client w) with
    | None => identify_payload rt (client w)
    | Some sid =>
        JDict [("op", JInt 6);
               ("d", JDict [("token", JStr (token (client w)));
                            ("seq", seq (client w));
                            ("session_id", JStr sid)])]
    end in
  Z.of_nat (String.length (json_serialize rt payload)) <= 4096 ->
  connect_authenticate rt w = send rt payload w /\
  log (world (step rt RunMain c)) =
    EvSendStr (json_serialize rt payload) :: EvAcquire :: log w /\
  (session_id (client w) = None -> getitem payload "op" = inr (JInt 2)).
Proof.
  intros Hm Hhello Hws payload Hfits.
  assert (Ha : connect_authenticate rt w = send rt payload w)
    by apply authenticate_eq.
  split; [exact Ha | split].
  - unfold step. rewrite gather_log.
    unfold step_main. rewrite Hm, Hhello, Ha, send_small by exact Hfits.
    destruct (ws (client w)); [reflexivity | congruence].
  - intros Hnone. subst payload. rewrite Hnone. reflexivity.
Qed.

Lemma payloads_app (a b : list (event rt)) :
  payloads (a ++ b)%list = (payloads a ++ payloads b)%list.
Proof. apply flat_map_app. Qed.

Lemma payloads_silent (l : list (event rt)) : Forall silent l -> payloads l = [].
Proof.
  induction 1 as [|e l He _ IH]; [reflexivity |].
  destruct e; try exact IH. destruct He.
Qed.

Lemma connect_open_ok (w : World rt) :
  dial_failure w = None ->
  fst (connect_open rt w) = Return tt /\
  ws (client (snd (connect_open rt w))) = Some (mkWebSocket false None None).
Proof.
  destruct w as [g i d r l]. cbn. intros ->. split; reflexivity.
Qed.

Lemma recv_no_socket (w : World rt) :
  ws (client w) = None -> recv rt w = (Raise AttributeError, w).
Proof.
  intros Hws. unfold recv.
  destruct (inbox w); cbn [recv_from]; unfold ws_receive;
    repeat (unfold bind, the_ws, self, ret, raise; cbn; rewrite ?Hws);
    reflexivity.
Qed.

Lemma recv_closed_socket (w : World rt) (sock : WebSocket) :
  ws (client w) = Some sock ->
  ws_closed sock = true ->
  recv rt w = (Raise GatewayClientClosedError, w).
Proof.
  intros Hws Hclosed. unfold recv.
  destruct (inbox w); cbn [recv_from]; unfold ws_receive;
    repeat (unfold bind, the_ws, self, ret, raise; cbn;
            rewrite ?Hws, ?Hclosed);
    reflexivity.
Qed.

Lemma recv_text (w : World rt) (sock : WebSocket) (raw : pydata)
      (rest : list inbound) :
  ws (client w) = Some sock ->
  ws_closed sock = false ->
  inbox w = Frame (mkMessage TEXT raw) :: rest ->
  recv rt w = deserialize rt raw (set_inbox rt rest w).
Proof.
  intros Hws Hopen Hin. unfold recv. rewrite Hin. cbn [recv_from].
  unfold ws_receive, leave, deliver.
  repeat (unfold bind, the_ws, self, ret, raise; cbn; rewrite ?Hws, ?Hopen).
  reflexivity.
Qed.

(** The first frame is HELLO with an interval of 41250 ms: [connect_hello]
    raises without a socket or on a closed one, and returns 41.25
    otherwise. *)
Lemma connect_hello_cases (w : World rt) (raw : pydata) (rest : list inbound) :
  inbox w = Frame (mkMessage TEXT raw) :: rest ->
  json_deserialize rt raw = Some Example.hello ->
  (exists e, connect_hello rt w = (Raise e, w)) \/
  (connect_hello rt w = (Return seconds_41_25, set_inbox rt rest w) /\
   ws (client w) <> None).
Proof.
  intros Hin Hraw.
  destruct (ws (client w)) as [sock|] eqn:Hws.
  - destruct (ws_closed sock) eqn:Hopen.
    + left. eexists. unfold connect_hello, bind at 1.
      rewrite (recv_closed_socket w sock Hws Hopen). reflexivity.
    + right. split; [| discriminate].
      unfold connect_hello, bind at 1.
      rewrite (recv_text w sock raw rest Hws Hopen Hin).
      unfold deserialize. rewrite Hraw. reflexivity.
  - left. eexists. unfold connect_hello, bind at 1.
    rewrite (recv_no_socket w Hws). reflexivity.
Qed.

Lemma step_grows (a : action) (c : Connection rt) :
  grows (world c) (world (step rt a c)).
Proof.
  apply step_related with (permitted := fun _ => True); try exact I.
  - apply frame_refl.
  - apply frame_trans.
  - apply framed_connect_open; intros; first [reflexivity | exact I].
  - apply framed_connect_hello; intros; first [reflexivity | exact I].
  - apply framed_connect_authenticate; intros; first [reflexivity | exact I].
  - apply framed_poll_events; intros; first [reflexivity | exact I].
  - apply framed_ping_keep_alive; intros; first [reflexivity | exact I].
  - intros interval. apply framed_heartbeat_keep_alive; intros;
      first [reflexivity | exact I].
  - intros _. apply framed_close; intros; first [reflexivity | exact I].
  - intros w. split; [reflexivity | exists []; split; [reflexivity | constructor]].
Qed.

(** While [connect] is listening, [hb_interval] stays and [connect] goes on
    listening or ends. *)
Lemma gather_listening (c : Connection rt) :
  main c = Listening ->
  (main (gather rt c) = Listening \/ exists e, main (gather rt c) = Terminated e) /\
  hb_interval (gather rt c) = hb_interval c.
Proof.
  intros Hm. unfold gather. rewrite Hm.
  destruct (ping_task c); [| | | split; [right; eexists |]; reflexivity];
    destruct (heartbeat_task c);
    first [ split; [left; exact Hm | reflexivity]
          | split; [right; eexists |]; reflexivity ].
Qed.

Lemma step_listening (a : action) (c : Connection rt) :
  main c = Listening ->
  (main (step rt a c) = Listening \/ exists e, main (step rt a c) = Terminated e) /\
  hb_interval (step rt a c) = hb_interval c.
Proof.
  destruct c as [w0 m p h i]. cbn [main hb_interval]. intros ->.
  assert (Hg : forall w p h,
             let c' := mkConnection w Listening p h i in
             (main (gather rt c') = Listening \/
              exists e, main (gather rt c') = Terminated e) /\
             hb_interval (gather rt c') = i).
  { intros w p' h' c'. exact (gather_listening c' eq_refl). }
  unfold step. cbn [world main ping_task heartbeat_task hb_interval].
  destruct a.
  - unfold step_main. cbn [world main ping_task heartbeat_task hb_interval].
    destruct (poll_events rt w0) as [[x|e|] w].
    + apply Hg.
    + split; [right; eexists |]; reflexivity.
    + apply Hg.
  - destruct (turn rt (ping_keep_alive rt) p w0). apply Hg.
  - destruct i as [interval|].
    + destruct (turn rt (heartbeat_keep_alive rt interval) h w0). apply Hg.
    + apply Hg.
  - apply Hg.
Qed.

Lemma connect_nil (c : Connection rt) : connect rt [] c = c.
Proof. cbn. destruct (main c); reflexivity. Qed.

Lemma connect_cons (a : action) (schedule : list action) (c : Connection rt) :
  (forall e, main c <> Terminated e) ->
  connect rt (a :: schedule) c = connect rt schedule (step rt a c).
Proof.
  intros H. cbn [connect]. destruct (main c) eqn:E; try reflexivity.
  destruct (H e eq_refl).
Qed.

Lemma step_opened (c : Connection rt) (w1 : World rt) :
  main c = Opening ->
  connect_open rt (world c) = (Return tt, w1) ->
  step rt RunMain c =
  mkConnection w1 AwaitingHello Running (heartbeat_task c) (hb_interval c).
Proof.
  intros Hm He. unfold step, step_main. rewrite Hm, He. reflexivity.
Qed.

Lemma step_authenticated (c : Connection rt) (interval : spec_float)
      (w1 w2 : World rt) :
  main c = AwaitingHello ->
  ping_task c = Running ->
  connect_hello rt (world c) = (Return interval, w1) ->
  connect_authenticate rt w1 = (Return tt, w2) ->
  step rt RunMain c = mkConnection w2 Listening Running Running (Some interval).
Proof.
  intros Hm Hp He Ha. unfold step, step_main. rewrite Hm, He, Ha, Hp.
  reflexivity.
Qed.

End Properties.

(** ** The handshake *)

Section HandshakeProperties.

Variable rt : Runtime.

Lemma ws_receive_plain (w : World rt) (sock : WebSocket) (m : WSMessage)
      (items : list inbound) :
  ws (client w) = Some sock ->
  ws_closed sock = false ->
  type m <> CLOSE ->
  type m <> ERROR ->
  ws_receive rt (Frame m :: items) w = (Return m, set_inbox rt items w).
Proof.
  intros Hws Hopen Hc He. destruct m as [t d]. cbn [type] in Hc, He.
  unfold ws_receive, leave, deliver.
  destruct t; try congruence;
    repeat (unfold bind, the_ws, self, ret; cbn; rewrite ?Hws, ?Hopen);
    reflexivity.
Qed.

(** [recv] on the frames of a payload, past the control frames in front. *)
Lemma recv_from_delivered (hello : delivery) (payload : json)
      (rest : list inbound) (sock : WebSocket) (controls : list WSMessage) :
  forall w : World rt,
    ws (client w) = Some sock ->
    ws_closed sock = false ->
    Forall is_control controls ->
    delivers hello (zlib (client w)) payload ->
    exists w',
      recv_from rt (arriving controls hello rest) w = (Return payload, w') /\
      ws (client w') = Some sock.
Proof.
  unfold arriving.
  induction controls as [|m controls IH]; intros w Hws Hopen Hall Hd.
  - cbn [map app]. destruct hello as [raw | chunk chunks].
    + cbn [frames_of app recv_from delivers] in *. unfold bind at 1.
      rewrite (ws_receive_plain w sock _ _ Hws Hopen)
        by (cbn; discriminate).
      cbn [type data]. unfold deserialize. rewrite Hd.
      eexists. split; [reflexivity | exact Hws].
    + destruct Hd as (Hpre & Hend & pl & z' & Hz & Hj).
      cbn [frames_of map app recv_from tl]. unfold binary at 1.
      unfold bind at 1.
      rewrite (ws_receive_binary rt w sock _ _ Hws Hopen).
      cbn [type data bytearray lift]. unfold bind at 1, ret at 1.
      unfold bind at 1.
      rewrite (recv_binary_closes rt chunks chunk rest
                 (set_inbox rt (map binary chunks ++ rest) w) sock);
        try assumption; try reflexivity.
      * unfold decompress, deserialize, bind, self, assign, ret, raise.
        cbn [List.concat client set_inbox update fst snd] in *.
        rewrite Hz. cbn. rewrite Hj. eexists. split; [reflexivity | exact Hws].
      * intros n Hn. apply (Hpre (S n)). cbn. lia.
  - inversion Hall as [|? ? Hm Hrest]; subst.
    cbn [map app recv_from]. unfold bind at 1.
    assert (Hr : ws_receive rt
                   (Frame m :: map Frame controls ++ frames_of hello ++ rest)%list
                   w =
                 (Return m,
                  set_inbox rt (map Frame controls ++ frames_of hello ++ rest)%list
                    w)).
    { apply (ws_receive_plain w sock); try assumption;
        destruct Hm as [E | [E | E]]; rewrite E; discriminate. }
    rewrite Hr.
    destruct m as [t d]. unfold is_control in Hm. cbn [type] in *.
    destruct Hm as [-> | [-> | ->]].
    + (* PING *)
      assert (Hp : ws_pong rt
                     (set_inbox rt
                        (map Frame controls ++ frames_of hello ++ rest)%list w) =
                   (Return tt,
                    emit (EvPong rt)
                      (set_inbox rt
                         (map Frame controls ++ frames_of hello ++ rest)%list w))).
      { unfold ws_pong.
        repeat (unfold bind at 1, the_ws, self, ret, effect; cbn [fst snd]).
        change (ws (client (set_inbox rt
                              (map Frame controls ++ frames_of hello ++ rest)%list
                              w)))
          with (ws (client w)).
        rewrite Hws. reflexivity. }
      unfold bind at 1. rewrite Hp.
      exact (IH (emit (EvPong rt)
                   (set_inbox rt
                      (map Frame controls ++ frames_of hello ++ rest)%list w))
               Hws Hopen Hrest Hd).
    + (* PONG *)
      exact (IH (update (set_last_pong_received rt
                           (perf_counter_reading rt (reads w)))
                   (tick rt
                      (set_inbox rt
                         (map Frame controls ++ frames_of hello ++ rest)%list
                         w)))
               Hws Hopen Hrest Hd).
    + (* CONTINUATION *)
      exact (IH (set_inbox rt
                   (map Frame controls ++ frames_of hello ++ rest)%list w)
               Hws Hopen Hrest Hd).
Qed.

(** A pass of the heartbeat task that finds the latch unset, the last
    heartbeat answered and a socket sends its heartbeat and then waits for
    the interval the task was created with. *)
Lemma heartbeat_pass (c : Connection rt) (interval : spec_float) :
  hb_interval c = Some interval ->
  heartbeat_task c = Running ->
  closed_event (client (world c)) = false ->
  Py.lt (last_heartbeat_ack_received (client (world c)))
    (last_heartbeat_sent (client (world c))) = false ->
  ws (client (world c)) <> None ->
  Z.of_nat (String.length
              (json_serialize rt (heartbeat_payload (seq (client (world c))))))
    <= 4096 ->
  heartbeat_task (step rt RunHeartbeat c) = Running /\
  log (world (step rt RunHeartbeat c)) =
    EvWaitClosed interval
      :: EvSendStr (json_serialize rt (heartbeat_payload (seq (client (world c)))))
      :: EvAcquire :: log (world c).
Proof.
  intros Hi Hh Hc Hlt Hws Hfits.
  unfold step. rewrite Hi. unfold turn. rewrite Hh.
  rewrite (heartbeat_sends rt interval (world c) Hc Hlt).
  rewrite (send_small rt _ (world c) Hfits).
  destruct (ws (client (world c))); [| congruence].
  unfold gather. cbn [main ping_task heartbeat_task].
  destruct (main c); try (split; reflexivity).
  destruct (ping_task c); split; reflexivity.
Qed.

Section Handshake.

Variable controls : list WSMessage.
Variable hello : delivery.
Variable rest : list inbound.
Variable identify_pl : json.

Hypothesis controls_first : Forall is_control controls.
Hypothesis hello_next : delivers hello (zlib_decompressobj rt) Example.hello.
Hypothesis fits :
  Z.of_nat (String.length (json_serialize rt identify_pl)) <= 4096.

Lemma quiet_keeps (w w' : World rt)
      (v : json * option string * list inbound * zstate rt) :
  frame handshake_view silent w w' ->
  handshake_view w = v ->
  payloads (log w) = [] ->
  handshake_view w' = v /\ payloads (log w') = [].
Proof.
  intros [Hv (new & Hl & Hs)] Hw Hp. split; [congruence |].
  rewrite Hl, payloads_app, Hp, (payloads_silent rt new Hs). reflexivity.
Qed.

Lemma quiet_open (w : World rt) :
  frame handshake_view silent w (snd (connect_open rt w)).
Proof. apply framed_connect_open; intros; first [reflexivity | exact I]. Qed.

Lemma quiet_ping (w : World rt) :
  frame handshake_view silent w (snd (ping_keep_alive rt w)).
Proof. apply framed_ping_keep_alive; intros; first [reflexivity | exact I]. Qed.

Lemma quiet_close (w : World rt) :
  frame handshake_view silent w (snd (close rt w)).
Proof. apply framed_close; intros; first [reflexivity | exact I]. Qed.

(** Reading HELLO sends nothing and leaves alone what IDENTIFY and the
    first heartbeat are built from. *)
Lemma quiet_hello (w : World rt) :
  frame (fun w => (identify_payload rt (client w), session_id (client w),
                   heartbeat_view w))
    silent w (snd (connect_hello rt w)).
Proof. apply framed_connect_hello; intros; first [reflexivity | exact I]. Qed.

(** HELLO with an interval of 41250 ms is what comes next: [connect_hello]
    returns 41.25 on an open socket. *)
Lemma connect_hello_returns (w : World rt) (sock : WebSocket) :
  ws (client w) = Some sock ->
  ws_closed sock = false ->
  inbox w = arriving controls hello rest ->
  zlib (client w) = zlib_decompressobj rt ->
  fst (connect_hello rt w) = Return seconds_41_25 /\
  ws (client (snd (connect_hello rt w))) = Some sock.
Proof.
  intros Hws Hopen Hin Hz.
  assert (Hd : delivers hello (zlib (client w)) Example.hello)
    by (rewrite Hz; exact hello_next).
  destruct (recv_from_delivered hello Example.hello rest sock controls w
              Hws Hopen controls_first Hd) as (w' & Hr & Hs).
  rewrite <- Hin in Hr. change (recv_from rt (inbox w) w) with (recv rt w) in Hr.
  assert (He : connect_hello rt w = (Return seconds_41_25, w')).
  { unfold connect_hello, bind at 1. rewrite Hr. reflexivity. }
  rewrite He. split; [reflexivity | exact Hs].
Qed.

(** Without a socket, or on a closed one, it raises and changes nothing. *)
Lemma connect_hello_outcomes (w : World rt) :
  inbox w = arriving controls hello rest ->
  zlib (client w) = zlib_decompressobj rt ->
  (exists e, connect_hello rt w = (Raise e, w)) \/
  (fst (connect_hello rt w) = Return seconds_41_25 /\
   ws (client (snd (connect_hello rt w))) <> None).
Proof.
  intros Hin Hz.
  destruct (ws (client w)) as [sock|] eqn:Hws.
  - destruct (ws_closed sock) eqn:Hopen.
    + left. eexists. unfold connect_hello, bind at 1.
      rewrite (recv_closed_socket rt w sock Hws Hopen). reflexivity.
    + right.
      destruct (connect_hello_returns w sock Hws Hopen Hin Hz) as [Hf Hs].
      split; [exact Hf | rewrite Hs; discriminate].
  - left. eexists. unfold connect_hello, bind at 1.
    rewrite (recv_no_socket rt w Hws). reflexivity.
Qed.

(** After HELLO the client that has no session sends IDENTIFY. *)
Lemma authenticate_identifies (w w' : World rt) :
  frame (fun w => (identify_payload rt (client w), session_id (client w),
                   heartbeat_view w))
    silent w w' ->
  identify_payload rt (client w) = identify_pl ->
  session_id (client w) = None ->
  ws (client w') <> None ->
  connect_authenticate rt w' =
    (Return tt,
     emit (EvSendStr (json_serialize rt identify_pl)) (emit EvAcquire w')).
Proof.
  intros [Hv _] Hpl Hsid Hws.
  pose proof (f_equal (fun v => fst (fst v)) Hv) as Hpl'.
  pose proof (f_equal (fun v => snd (fst v)) Hv) as Hsid'.
  cbn [fst snd] in Hpl', Hsid'.
  unfold connect_authenticate, identify, bind, self.
  rewrite Hsid', Hsid, Hpl', Hpl, send_small by exact fits.
  destruct (ws (client w')); [reflexivity | congruence].
Qed.

Lemma gather_idle (c : Connection rt) : main c <> Listening -> gather rt c = c.
Proof. intros H. unfold gather. destruct (main c); congruence. Qed.

Lemma gather_invariant (c : Connection rt) :
  handshake_invariant (arriving controls hello rest) identify_pl c ->
  handshake_invariant (arriving controls hello rest) identify_pl (gather rt c).
Proof.
  intros [H | [H | H]].
  - rewrite gather_idle; [now left |].
    destruct H as ([-> | ->] & _); discriminate.
  - right; left. destruct H as ([Hm | (e & Hm)] & Hp & Hi).
    + destruct (gather_listening rt c Hm) as [H1 H2].
      split; [exact H1 | split; [| congruence]].
      unfold gather. rewrite Hm.
      destruct (ping_task c); try exact Hp; destruct (heartbeat_task c);
        exact Hp.
    + rewrite gather_idle by congruence.
      split; [right; now exists e | split; assumption].
  - rewrite gather_idle; [now right; right |].
    destruct H as ((e & ->) & _); discriminate.
Qed.

Lemma handshaking_main (c : Connection rt) :
  handshaking (arriving controls hello rest) identify_pl c ->
  handshake_invariant (arriving controls hello rest) identify_pl (step_main rt c).
Proof.
  intros (Hm & Hh & Hi & Hv & Hp). unfold step_main.
  destruct Hm as [Hm | Hm]; rewrite Hm.
  - pose proof (quiet_open (world c)) as F.
    destruct (connect_open rt (world c)) as [[x|e|] w]; cbn [snd] in F;
      destruct (quiet_keeps _ _ _ F Hv Hp) as [Hv' Hp'].
    + left. repeat split; cbn; auto.
    + right; right. repeat split; cbn; eauto.
    + left. repeat split; cbn; auto.
  - pose proof (f_equal (fun v => fst (fst (fst v))) Hv) as Hpl.
    pose proof (f_equal (fun v => snd (fst (fst v))) Hv) as Hsid.
    pose proof (f_equal (fun v => snd (fst v)) Hv) as Hin.
    pose proof (f_equal snd Hv) as Hz.
    cbn [fst snd handshake_view] in Hpl, Hsid, Hin, Hz.
    pose proof (quiet_hello (world c)) as F.
    destruct (connect_hello_outcomes (world c) Hin Hz) as [(e & He) | (He & Hws)].
    + rewrite He. right; right. repeat split; cbn; eauto.
    + destruct (connect_hello rt (world c)) as [o w1].
      cbn [fst snd] in He, Hws, F. subst o.
      rewrite (authenticate_identifies (world c) w1 F Hpl Hsid Hws).
      right; left. repeat split; cbn [main world hb_interval]; auto.
      exists [].
      destruct F as [_ (new & Hl & Hs)].
      change (json_serialize rt identify_pl :: payloads (log w1) =
              [json_serialize rt identify_pl]).
      now rewrite Hl, payloads_app, Hp, (payloads_silent rt new Hs).
Qed.

Lemma handshaking_turn (c : Connection rt) (m : coro rt loop) (st : task_state) :
  (forall w, frame handshake_view silent w (snd (m w))) ->
  handshaking (arriving controls hello rest) identify_pl c ->
  let (st', w) := turn rt m st (world c) in
  handshaking (arriving controls hello rest) identify_pl
    (mkConnection w (main c) st' (heartbeat_task c) (hb_interval c)).
Proof.
  intros Hq (Hm & Hh & Hi & Hv & Hp).
  pose proof (turn_related rt (frame handshake_view silent)
                (frame_refl rt _ handshake_view silent) m st (world c) Hq) as F.
  destruct (turn rt m st (world c)) as [st' w]. cbn [snd] in F.
  destruct (quiet_keeps _ _ _ F Hv Hp) as [Hv' Hp'].
  repeat split; cbn; auto.
Qed.

Lemma step_invariant (a : action) (c : Connection rt) :
  handshake_invariant (arriving controls hello rest) identify_pl c ->
  (forall e, main c <> Terminated e) ->
  handshake_invariant (arriving controls hello rest) identify_pl (step rt a c).
Proof.
  intros [H | [H | H]] Hrun.
  - unfold step. apply gather_invariant. destruct a.
    + now apply handshaking_main.
    + pose proof (handshaking_turn c (ping_keep_alive rt) (ping_task c)
                    quiet_ping H) as Ht.
      destruct (turn rt (ping_keep_alive rt) (ping_task c) (world c)).
      now left.
    + destruct H as (Hm & Hh & Hi & Hv & Hp). rewrite Hi.
      left. repeat split; auto.
    + destruct H as (Hm & Hh & Hi & Hv & Hp).
      pose proof (quiet_close (world c)) as F.
      destruct (quiet_keeps _ _ _ F Hv Hp) as [Hv' Hp'].
      left. repeat split; cbn; auto.
  - right; left. destruct H as ([Hm | (e & Hm)] & (ps & Hps) & Hi).
    + destruct (step_listening rt a c Hm) as [H1 H2].
      split; [exact H1 | split; [| congruence]].
      destruct (step_grows rt a c) as [_ (new & Hl & _)].
      exists (payloads new ++ ps)%list.
      rewrite Hl, payloads_app, Hps. apply app_assoc.
    + destruct (Hrun e Hm).
  - destruct H as ((e & Hm) & _). destruct (Hrun e Hm).
Qed.

Lemma connect_invariant (schedule : list action) (c : Connection rt) :
  handshake_invariant (arriving controls hello rest) identify_pl c ->
  handshake_invariant (arriving controls hello rest) identify_pl
    (connect rt schedule c).
Proof.
  revert c. induction schedule as [|a rest' IH]; intros c Hc; cbn [connect].
  - destruct (main c); exact Hc.
  - destruct (main c) eqn:Hm; try exact Hc;
      apply IH; apply step_invariant; try exact Hc; rewrite Hm; discriminate.
Qed.

End Handshake.

Lemma app_last_eq {A : Type} (xs ys : list A) (x y : A) :
  (xs ++ [x])%list = (ys ++ [y])%list -> x = y.
Proof. intros H. apply app_inj_tail in H. apply H. Qed.

(** C7: a client constructed with token "T" and the defaults
    ([session_id=None], shard 0 of 1, [large_threshold=1000]) for which
    HELLO with [heartbeat_interval] 41250 is the next payload to come, in
    a TEXT frame or in BINARY frames, behind control frames or not.
    Whatever the schedule, the first text it sends is IDENTIFY, opcode 2
    with [d.token = "T"], [d.shard = [0, 1]], [d.large_threshold = 1000]
    and [d.compress = false], and the heartbeat task runs with a period of
    41250 / 1000.0 = 41.25 seconds: it is created with that interval, and
    every pass of it that finds the latch unset, the last heartbeat
    answered and a socket sends its heartbeat and then waits for 41.25
    seconds on the latch.  When the socket opens, the two stages of
    [connect] get there, and the first pass of the heartbeat task sends
    the first heartbeat and waits for 41.25 seconds. *)
Theorem handshake_identify
  (schedule : list action) (url : string) (controls : list WSMessage)
  (hello : delivery) (rest : list inbound) (dial : option string) (n : nat)
  (g : GatewayClient rt) :
  init rt (default_args rt "T" url) = inr g ->
  Forall is_control controls ->
  delivers hello (zlib_decompressobj rt) Example.hello ->
  Z.of_nat (String.length (json_serialize rt (identify_payload rt g))) <= 4096 ->
  let w := mkWorld g (map Frame controls ++ frames_of hello ++ rest)%list
             dial n [] in
  let c := connect rt schedule (initial w) in
  (getitem (identify_payload rt g) "op" = inr (JInt 2) /\
   exists d, getitem (identify_payload rt g) "d" = inr d /\
        getitem d "token" = inr (JStr "T") /\
        getitem d "shard" = inr (JList [JInt 0; JInt 1]) /\
        getitem d "large_threshold" = inr (JInt 1000) /\
        getitem d "compress" = inr (JBool false)) /\
  (forall ps s, payloads (log (world c)) = (ps ++ [s])%list ->
           s = json_serialize rt (identify_payload rt g)) /\
  (heartbeat_task c <> NotCreated ->
   hb_interval c = Some seconds_41_25 /\
   truediv_1000 (JInt 41250) = inr seconds_41_25) /\
  (heartbeat_task c = Running ->
   closed_event (client (world c)) = false ->
   Py.lt (last_heartbeat_ack_received (client (world c)))
     (last_heartbeat_sent (client (world c))) = false ->
   ws (client (world c)) <> None ->
   Z.of_nat (String.length
               (json_serialize rt (heartbeat_payload (seq (client (world c))))))
     <= 4096 ->
   heartbeat_task (step rt RunHeartbeat c) = Running /\
   log (world (step rt RunHeartbeat c)) =
     EvWaitClosed seconds_41_25
       :: EvSendStr (json_serialize rt
                       (heartbeat_payload (seq (client (world c)))))
       :: EvAcquire :: log (world c)) /\
  (dial = None ->
   let c2 := connect rt [RunMain; RunMain] (initial w) in
   main c2 = Listening /\
   payloads (log (world c2)) = [json_serialize rt (identify_payload rt g)] /\
   heartbeat_task c2 = Running /\
   hb_interval c2 = Some seconds_41_25 /\
   (Z.of_nat (String.length (json_serialize rt (heartbeat_payload JNull)))
      <= 4096 ->
    let c3 := connect rt [RunMain; RunMain; RunHeartbeat] (initial w) in
    heartbeat_task c3 = Running /\
    log (world c3) =
      EvWaitClosed seconds_41_25
        :: EvSendStr (json_serialize rt (heartbeat_payload JNull))
        :: EvAcquire :: log (world c2))).
Proof.
  intros Hg Hcontrols Hhello Hfits w c.
  assert (Hinit : handshaking (arriving controls hello rest)
                    (identify_payload rt g) (initial w)).
  { injection Hg as <-. repeat split; cbn; auto. }
  assert (Hinv : handshake_invariant (arriving controls hello rest)
                   (identify_payload rt g) c).
  { apply connect_invariant; try assumption. now left. }
  split; [| split; [| split; [| split]]].
  - injection Hg as <-. split; [reflexivity |].
    eexists. repeat split; reflexivity.
  - intros ps s Hps.
    destruct Hinv as [H | [H | H]].
    + destruct H as (_ & _ & _ & _ & Hp). rewrite Hp in Hps.
      destruct ps; discriminate Hps.
    + destruct H as (_ & (ps' & Hp) & _). rewrite Hp in Hps.
      symmetry. eapply app_last_eq. exact Hps.
    + destruct H as (_ & _ & Hp). rewrite Hp in Hps.
      destruct ps; discriminate Hps.
  - intros Hhb. split; [| reflexivity].
    destruct Hinv as [H | [H | H]].
    + destruct H as (_ & Hh & _). contradiction.
    + destruct H as (_ & _ & Hi). exact Hi.
    + destruct H as (_ & Hh & _). contradiction.
  - intros Hhb Hc Hlt Hws Hsmall.
    apply heartbeat_pass; try assumption.
    destruct Hinv as [H | [H | H]].
    + destruct H as (_ & Hh & _). congruence.
    + destruct H as (_ & _ & Hi). exact Hi.
    + destruct H as (_ & Hh & _). congruence.
  - intros ->. cbn zeta.
    destruct Hinit as (_ & _ & _ & Hv & Hp).
    change (world (initial w)) with w in Hv, Hp.
    pose proof (quiet_open w) as F.
    assert (Fh : frame heartbeat_view (fun _ => True) w
                   (snd (connect_open rt w)))
      by (apply framed_connect_open; intros; first [reflexivity | exact I]).
    destruct (connect_open_ok rt w eq_refl) as [Hret Hws].
    destruct (connect_open rt w) as [o w1] eqn:Hopen.
    cbn [fst snd] in Hret, Hws, F, Fh. subst o.
    destruct (quiet_keeps _ _ _ F Hv Hp) as [Hv1 Hp1].
    pose proof (f_equal (fun v => fst (fst (fst v))) Hv1) as Hpl.
    pose proof (f_equal (fun v => snd (fst (fst v))) Hv1) as Hsid.
    pose proof (f_equal (fun v => snd (fst v)) Hv1) as Hin.
    pose proof (f_equal snd Hv1) as Hz.
    cbn [fst snd handshake_view] in Hpl, Hsid, Hin, Hz.
    destruct (connect_hello_returns controls hello rest Hcontrols Hhello
                w1 _ Hws eq_refl Hin Hz) as [Hf Hws2].
    pose proof (quiet_hello w1) as F2.
    destruct (connect_hello rt w1) as [o w2] eqn:Hhello2.
    cbn [fst snd] in Hf, Hws2, F2. subst o.
    assert (Hauth : connect_authenticate rt w2 =
                    (Return tt,
                     emit (EvSendStr (json_serialize rt (identify_payload rt g)))
                       (emit EvAcquire w2))).
    { apply (authenticate_identifies (identify_payload rt g) Hfits w1 w2 F2 Hpl Hsid).
      rewrite Hws2. discriminate. }
    assert (H2 : connect rt [RunMain; RunMain] (initial w) =
                 mkConnection
                   (emit (EvSendStr (json_serialize rt (identify_payload rt g)))
                      (emit EvAcquire w2))
                   Listening Running Running (Some seconds_41_25)).
    { rewrite connect_cons by (intros e; discriminate).
      rewrite (step_opened rt (initial w) w1 eq_refl Hopen).
      change (heartbeat_task (initial w)) with NotCreated.
      change (hb_interval (initial w)) with (@None spec_float).
      rewrite connect_cons by (intros e; discriminate).
      rewrite (step_authenticated rt
                 (mkConnection w1 AwaitingHello Running NotCreated None)
                 _ _ _ eq_refl eq_refl Hhello2 Hauth).
      apply connect_nil. }
    assert (Hp2 : payloads (log w2) = []).
    { destruct F2 as [_ (new & Hl & Hs)].
      now rewrite Hl, payloads_app, Hp1, (payloads_silent rt new Hs). }
    rewrite H2. cbn [main world heartbeat_task hb_interval].
    split; [reflexivity | split; [| split; [reflexivity | split; [reflexivity |]]]].
    + change (json_serialize rt (identify_payload rt g) :: payloads (log w2) =
              [json_serialize rt (identify_payload rt g)]).
      now rewrite Hp2.
    + intros Hsmall.
      assert (H3 : connect rt [RunMain; RunMain; RunHeartbeat] (initial w) =
                   step rt RunHeartbeat
                     (connect rt [RunMain; RunMain] (initial w))).
      { rewrite H2.
        rewrite connect_cons by (intros e; discriminate).
        rewrite (step_opened rt (initial w) w1 eq_refl Hopen).
        change (heartbeat_task (initial w)) with NotCreated.
        change (hb_interval (initial w)) with (@None spec_float).
        rewrite connect_cons by (intros e; discriminate).
        rewrite (step_authenticated rt
                   (mkConnection w1 AwaitingHello Running NotCreated None)
                   _ _ _ eq_refl eq_refl Hhello2 Hauth).
        rewrite connect_cons by (intros e; discriminate).
        apply connect_nil. }
      rewrite H3, H2.
      destruct Fh as [Fh _]. destruct F2 as [F2 _].
      pose proof (f_equal snd F2) as Fh2. cbn [snd] in Fh2.
      assert (Hview : heartbeat_view w2 = (false, Py.nan, Py.nan, JNull)).
      { rewrite Fh2, Fh. injection Hg as <-. reflexivity. }
      set (c2 := mkConnection _ Listening Running Running (Some seconds_41_25)).
      assert (Hseq : seq (client (world c2)) = JNull)
        by exact (f_equal snd Hview).
      destruct (heartbeat_pass c2 seconds_41_25 eq_refl eq_refl) as [Ht Hl].
      * exact (f_equal (fun v => fst (fst (fst v))) Hview).
      * change (Py.lt (last_heartbeat_ack_received (client w2))
                  (last_heartbeat_sent (client w2)) = false).
        rewrite (f_equal (fun v => snd (fst v)) Hview : last_heartbeat_ack_received (client w2) = Py.nan).
        reflexivity.
      * change (ws (client w2) <> None). rewrite Hws2. discriminate.
      * rewrite Hseq. exact Hsmall.
      * rewrite Hseq in Hl. split; [exact Ht | exact Hl].
Qed.

End HandshakeProperties.

(** ** The properties on the example runtime *)

(** The first pass of the heartbeat loop on a fresh connection, where both
    samples are NaN, sends the heartbeat; with an acknowledgement older
    than the heartbeat the pass raises Zombied. *)
Lemma heartbeat_cycle_witness :
  heartbeat_keep_alive Example.rt seconds_41_25 (Example.connected []) =
    (Return Again, heartbeat_sent seconds_41_25 (Example.connected [])) /\
  heartbeat_keep_alive Example.rt seconds_41_25 Example.unanswered =
    (Raise GatewayZombiedError, Example.unanswered).
Proof.
  split.
  - destruct (heartbeat_cycle Example.rt seconds_41_25 (Example.connected [])
                eq_refl) as [H _].
    destruct (H (or_intror eq_refl)) as [_ H'].
    apply H'; [discriminate | vm_compute; discriminate].
  - destruct (heartbeat_cycle Example.rt seconds_41_25 Example.unanswered
                eq_refl) as [_ H].
    apply H. reflexivity.
Defined.

(** C1 as stated fails on the first pass of every connection: the
    samples are NaN, so [last_heartbeat_ack_received >= last_heartbeat_sent]
    is false, and yet no Zombied is raised and the heartbeat is sent. *)
Lemma heartbeat_first_cycle_not_zombied :
  let w := Example.connected [] in
  Py.ge (last_heartbeat_ack_received (client w)) (last_heartbeat_sent (client w))
    = false /\
  fst (heartbeat_keep_alive Example.rt seconds_41_25 w) = Return Again /\
  payloads (log (snd (heartbeat_keep_alive Example.rt seconds_41_25 w))) =
    [json_serialize Example.rt (heartbeat_payload JNull)].
Proof. repeat split. Qed.

(** The same after a heartbeat that was never acknowledged. *)
Lemma heartbeat_unacknowledged_not_zombied :
  let w := Example.never_acknowledged in
  Py.ge (last_heartbeat_ack_received (client w)) (last_heartbeat_sent (client w))
    = false /\
  fst (heartbeat_keep_alive Example.rt seconds_41_25 w) = Return Again.
Proof. repeat split. Qed.

(** A small payload is sent after the permit; an oversized one is not. *)
Lemma send_checks_size_witness :
  send Example.rt (heartbeat_payload JNull) (Example.connected []) =
    (Return tt,
     emit (EvSendStr (json_serialize Example.rt (heartbeat_payload JNull)))
       (emit EvAcquire (Example.connected []))) /\
  send Example.rt Example.oversized (Example.connected []) =
    (Raise (too_large (json_serialize Example.rt Example.oversized)),
     Example.connected []).
Proof.
  split.
  - apply (send_checks_size Example.rt (heartbeat_payload JNull)
             (Example.connected []));
      [vm_compute; discriminate | discriminate].
  - apply (send_checks_size Example.rt Example.oversized (Example.connected [])).
    vm_compute. reflexivity.
Defined.

(** C5 as stated fails: the error of an oversized payload is of the class
    that [connect] raises for a first frame that is not HELLO. *)
Lemma send_error_not_dedicated :
  exists e e',
    fst (send Example.rt Example.oversized (Example.connected [])) = Raise e /\
    fst (connect_hello Example.rt
           (Example.connected [Example.text "HEARTBEAT_ACK"])) = Raise e' /\
    e' = GatewayError [Lit "Expected HELLO opcode 10 but received "; Val (JInt 11)]
           None /\
    class_of e = class_of e'.
Proof.
  eexists. eexists. repeat split; vm_compute; reflexivity.
Qed.


(** HELLO in two BINARY frames. *)
Lemma recv_binary_stream_witness :
  recv Example.rt
    (Example.connected (map binary Example.hello_chunks ++ [Example.text "HELLO"])) =
  inflate_one (List.concat Example.hello_chunks)
    (set_inbox Example.rt [Example.text "HELLO"]
       (Example.connected
          (map binary Example.hello_chunks ++ [Example.text "HELLO"]))) /\
  fst (recv Example.rt
         (Example.connected
            (map binary Example.hello_chunks ++ [Example.text "HELLO"]))) =
  Return Example.hello.
Proof.
  assert (H : recv Example.rt
                (Example.connected
                   (map binary Example.hello_chunks ++ [Example.text "HELLO"])) =
              inflate_one (List.concat Example.hello_chunks)
                (set_inbox Example.rt [Example.text "HELLO"]
                   (Example.connected
                      (map binary Example.hello_chunks ++ [Example.text "HELLO"])))).
  { apply (recv_binary_stream Example.rt
             (Example.connected
                (map binary Example.hello_chunks ++ [Example.text "HELLO"]))
             (mkWebSocket false None None)
             (list_byte_of_string "HEL")
             [(list_byte_of_string "LO" ++ sentinel)%list]
             [Example.text "HELLO"]);
      try reflexivity.
    intros n Hn. cbn in Hn. assert (n = 1%nat) as -> by lia. reflexivity. }
  split; [exact H | rewrite H; reflexivity].
Defined.

(** MESSAGE_CREATE with sequence number 43. *)
Lemma poll_dispatch_witness :
  let w := Example.connected [Example.text "MESSAGE_CREATE"] in
  seq (client (snd (poll_events Example.rt w))) = JInt 43 /\
  log (snd (poll_events Example.rt w)) =
    EvDispatch (set_seq (JInt 43) (client w)) (JStr "MESSAGE_CREATE")
      (JDict [("content", JStr "hi")]) :: log w.
Proof.
  cbn zeta.
  destruct (poll_dispatch Example.rt
              (Example.connected [Example.text "MESSAGE_CREATE"])
              (snd (recv Example.rt
                      (Example.connected [Example.text "MESSAGE_CREATE"])))
              Example.message_create (JInt 0) (JInt 43) (JStr "MESSAGE_CREATE")
              (JDict [("content", JStr "hi")])
              eq_refl eq_refl eq_refl eq_refl eq_refl eq_refl) as [H1 H2].
  split; [exact H2 | rewrite H1; reflexivity].
Defined.

(** The handshake of the fresh client, with HELLO in two BINARY frames
    behind two pings, a pong and a continuation. *)
Lemma handshake_identify_witness :
  let w := mkWorld Example.fresh
             (map Frame Scenario.controls ++
              frames_of (AsBinary (list_byte_of_string "HEL")
                           [(list_byte_of_string "LO" ++ sentinel)%list]) ++
              [])%list
             None 0 [] in
  let c2 := connect Example.rt [RunMain; RunMain] (initial w) in
  let c3 := connect Example.rt [RunMain; RunMain; RunHeartbeat] (initial w) in
  main c2 = Listening /\
  payloads (log (world c2)) =
    [json_serialize Example.rt (identify_payload Example.rt Example.fresh)] /\
  heartbeat_task c2 = Running /\
  hb_interval c2 = Some seconds_41_25 /\
  heartbeat_task c3 = Running /\
  log (world c3) =
    EvWaitClosed seconds_41_25
      :: EvSendStr (json_serialize Example.rt (heartbeat_payload JNull))
      :: EvAcquire :: log (world c2).
Proof.
  assert (Hc : Forall is_control Scenario.controls).
  { repeat (apply Forall_cons || apply Forall_nil); unfold is_control; cbn;
      auto. }
  assert (Hd : delivers
                 (AsBinary (list_byte_of_string "HEL")
                    [(list_byte_of_string "LO" ++ sentinel)%list])
                 (zlib_decompressobj Example.rt) Example.hello).
  { split; [| split; [reflexivity |]].
    - intros n Hn. cbn in Hn. assert (n = 1%nat) as -> by lia. reflexivity.
    - eexists. eexists. split; reflexivity. }
  assert (Hfits : Z.of_nat
                    (String.length
                       (json_serialize Example.rt
                          (identify_payload Example.rt Example.fresh))) <= 4096)
    by (vm_compute; discriminate).
  assert (Hsmall : Z.of_nat
                     (String.length
                        (json_serialize Example.rt (heartbeat_payload JNull)))
                   <= 4096)
    by (vm_compute; discriminate).
  destruct (handshake_identify Example.rt [] "wss://gateway" Scenario.controls
              (AsBinary (list_byte_of_string "HEL")
                 [(list_byte_of_string "LO" ++ sentinel)%list])
              [] None 0 Example.fresh eq_refl Hc Hd Hfits)
    as (_ & _ & _ & _ & H).
  destruct (H eq_refl) as (H1 & H2 & H3 & H4 & H5).
  destruct (H5 Hsmall) as [H6 H7].
  exact (conj H1 (conj H2 (conj H3 (conj H4 (conj H6 H7))))).
Defined.

(** RECONNECT ends [connect]. *)
Lemma connect_teardown_witness :
  let c := connect Example.rt [RunMain; RunMain; RunMain]
             (initial Example.reconnecting) in
  last_heartbeat_sent (client (world c)) = Py.nan /\
  is_connected (client (world c)) = false /\
  closed_event (client (world c)) = false.
Proof.
  cbn zeta.
  destruct (connect_teardown Example.rt [RunMain; RunMain; RunMain]
              Example.reconnecting GatewayMustReconnectError eq_refl)
    as [(_ & _ & H3 & _ & _ & H6) H].
  destruct H as [H7 _].
  - repeat constructor; discriminate.
  - repeat split; assumption.
Defined.

(** C8 as stated fails: [connect] ended by RECONNECT leaves the latch
    unset, the socket and the session open and both sibling tasks running,
    and has called nothing that closes. *)
Lemma connect_end_leaves_open :
  let c := connect Example.rt [RunMain; RunMain; RunMain]
             (initial Example.reconnecting) in
  main c = Terminated GatewayMustReconnectError /\
  closed_event (client (world c)) = false /\
  ws (client (world c)) = Some (mkWebSocket false None None) /\
  session (client (world c)) = Some (mkSession false) /\
  ping_task c = Running /\
  heartbeat_task c = Running /\
  Forall (fun e : event Example.rt => ~ closing e) (log (world c)).
Proof.
  cbn zeta. repeat split.
  vm_compute. repeat constructor; exact (fun H => H).
Qed.

(** Zombied after an acknowledged heartbeat and an unacknowledged one. *)
Lemma zombied_needs_heartbeat_witness :
  let now := world (connect Example.rt Example.going_quiet_schedule
                      (initial Example.going_quiet)) in
  fst (heartbeat_keep_alive Example.rt seconds_41_25 now) =
    Raise GatewayZombiedError /\
  exists new,
    log now = (new ++ log Example.going_quiet)%list /\
    heartbeat_in new.
Proof.
  cbn zeta. split; [reflexivity |].
  destruct (zombied_needs_heartbeat Example.rt
              (default_args Example.rt "T" "wss://gateway")
              Example.going_quiet_schedule Example.going_quiet)
    as (_ & _ & _ & H).
  destruct (H eq_refl seconds_41_25 eq_refl) as [_ H'].
  exact H'.
Defined.

(** The handshakes of a fresh client and of one that resumes session "S"
    at sequence number 42. *)
Lemma authenticate_identify_or_resume_witness :
  payloads
    (log (world (step Example.rt RunMain
                   (mkConnection (Example.connected [Example.text "HELLO"])
                      AwaitingHello Running NotCreated None)))) =
    [json_serialize Example.rt (identify_payload Example.rt Example.fresh)] /\
  payloads
    (log (world (step Example.rt RunMain
                   (mkConnection Example.resuming AwaitingHello Running
                      NotCreated None)))) =
    [json_serialize Example.rt
       (JDict [("op", JInt 6);
               ("d", JDict [("token", JStr "T"); ("seq", JInt 42);
                            ("session_id", JStr "S")])])].
Proof.
  split.
  - destruct (authenticate_identify_or_resume Example.rt
                (mkConnection (Example.connected [Example.text "HELLO"])
                   AwaitingHello Running NotCreated None)
                seconds_41_25
                (set_inbox Example.rt [] (Example.connected [Example.text "HELLO"]))
                eq_refl eq_refl) as (_ & H & _).
    + discriminate.
    + vm_compute. discriminate.
    + rewrite H. reflexivity.
  - destruct (authenticate_identify_or_resume Example.rt
                (mkConnection Example.resuming AwaitingHello Running NotCreated
                   None)
                seconds_41_25
                (set_inbox Example.rt [] Example.resuming)
                eq_refl eq_refl) as (_ & H & _).
    + discriminate.
    + vm_compute. discriminate.
    + rewrite H. reflexivity.
Defined.

(** ** More properties of the client *)

Section MoreProperties.

Variable rt : Runtime.

(** *** [__init__] *)

(** X1: the constructor raises TypeError when [shard_count] is [None],
    whatever [shard_id] is; otherwise it returns a client that is
    disconnected, with the latch unset and neither socket nor session, and
    whose shard is the given pair, or 0 of 1 when [shard_id] is [None]. *)
Theorem init_shards (a : init_args rt) :
  (arg_shard_count a = None -> init rt a = inl TypeError) /\
  (forall count,
      arg_shard_count a = Some count ->
      exists g,
        init rt a = inr g /\
        (shard_id g, shard_count g) =
          match arg_shard_id a with
          | Some i => (i, count)
          | None => (0, 1)
          end /\
        is_connected g = false /\
        closed_event g = false /\
        ws g = None /\
        session g = None).
Proof.
  split.
  - intros H. unfold init. now rewrite H.
  - intros count H. unfold init, both_given. rewrite H.
    eexists. split; [reflexivity |].
    cbn. destruct (arg_shard_id a); repeat split.
Qed.

(** *** Shutting down *)

Lemma close_latch (w : World rt) :
  closed_event (client (snd (close rt w))) = true.
Proof. apply close_sets_latch. Qed.

(** X2: once [close] has run, the next pass of either keep-alive loop ends
    the loop: nothing is pinged, sent or stamped. *)
Theorem close_ends_keep_alive (w : World rt) (heartbeat_interval : spec_float) :
  ping_keep_alive rt (snd (close rt w)) = (Return Over, snd (close rt w)) /\
  heartbeat_keep_alive rt heartbeat_interval (snd (close rt w)) =
    (Return Over, snd (close rt w)).
Proof.
  pose proof (close_latch w) as H.
  unfold ping_keep_alive, heartbeat_keep_alive, bind, self. cbn.
  rewrite H. split; reflexivity.
Qed.

Lemma close_socket (w : World rt) (sock : WebSocket) :
  ws (client w) = Some sock ->
  ws (client (snd (close rt w))) =
    Some (mkWebSocket true (close_code sock) (ws_exception sock)).
Proof.
  destruct w as [g i d r l]. destruct g. cbn. intros ->.
  destruct session0, closed_event0; reflexivity.
Qed.

Lemma close_no_socket (w : World rt) :
  ws (client w) = None -> ws (client (snd (close rt w))) = None.
Proof.
  destruct w as [g i d r l]. destruct g. cbn. intros ->.
  destruct session0, closed_event0; reflexivity.
Qed.

(** X3: after [close], [recv] and the poll loop raise ClientClosed on a
    client that had a socket, whatever the inbox holds, and leave the
    frames where they are. *)
Theorem close_then_recv (w : World rt) :
  ws (client w) <> None ->
  recv rt (snd (close rt w)) =
    (Raise GatewayClientClosedError, snd (close rt w)) /\
  poll_events rt (snd (close rt w)) =
    (Raise GatewayClientClosedError, snd (close rt w)).
Proof.
  intros Hws. destruct (ws (client w)) as [sock|] eqn:E; [| congruence].
  assert (H : recv rt (snd (close rt w)) =
              (Raise GatewayClientClosedError, snd (close rt w))).
  { apply recv_closed_socket with
      (sock := mkWebSocket true (close_code sock) (ws_exception sock));
      [now apply close_socket | reflexivity]. }
  split; [exact H |].
  unfold poll_events, bind at 1. now rewrite H.
Qed.

(** *** The poll loop *)

(** X4: a payload without ["op"], or with ["op"] and without ["d"], makes
    the pass of the poll loop raise KeyError, whatever the opcode: an
    acknowledgement [{"op": 11}] is not stamped. *)
Theorem poll_missing_key
  (w w1 : World rt) (fields : list (string * json)) :
  recv rt w = (Return (JDict fields), w1) ->
  (assoc "op" fields = None ->
   poll_events rt w = (Raise (KeyError "op"), w1)) /\
  (forall op, assoc "op" fields = Some op ->
         assoc "d" fields = None ->
         poll_events rt w = (Raise (KeyError "d"), w1) /\
         last_heartbeat_ack_received (client w1) =
           last_heartbeat_ack_received (client (snd (poll_events rt w)))).
Proof.
  intros Hrecv. split.
  - intros Hop. unfold poll_events, bind at 1. rewrite Hrecv.
    cbn [getitem]. rewrite Hop. reflexivity.
  - intros op Hop Hd.
    assert (H : poll_events rt w = (Raise (KeyError "d"), w1)).
    { unfold poll_events, bind at 1. rewrite Hrecv.
      cbn [getitem]. rewrite Hop, Hd. reflexivity. }
    split; [exact H | now rewrite H].
Qed.

(** X5: RECONNECT (7) and INVALID SESSION (9) make the pass raise
    MustReconnect and InvalidSession([bool(d)]), with nothing sent or
    dispatched; a HEARTBEAT request (1) is answered with [{"op": 11}]. *)
Theorem poll_server_requests
  (w w1 : World rt) (next d : json) (n : Z) :
  recv rt w = (Return next, w1) ->
  getitem next "op" = inr (JInt n) ->
  getitem next "d" = inr d ->
  (n = 7 -> poll_events rt w = (Raise GatewayMustReconnectError, w1)) /\
  (n = 9 ->
   poll_events rt w = (Raise (GatewayInvalidSessionError (py_bool d)), w1)) /\
  (n = 1 -> poll_events rt w = send rt (JDict [("op", JInt 11)]) w1).
Proof.
  intros Hrecv Hop Hd.
  repeat split; intros ->; unfold poll_events, bind at 1; rewrite Hrecv;
    rewrite Hop, Hd; reflexivity.
Qed.

(** X6: a payload whose opcode is none of 0, 1, 7, 9 and 11, a number or
    not, is ignored: the pass returns and leaves the world as [recv] left
    it. *)
Theorem poll_ignores_unknown (w w1 : World rt) (next op d : json) :
  recv rt w = (Return next, w1) ->
  getitem next "op" = inr op ->
  getitem next "d" = inr d ->
  Forall (fun k => py_eq_int op k = false) known_opcodes ->
  poll_events rt w = (Return tt, w1).
Proof.
  intros Hrecv Hop Hd Hk.
  unfold known_opcodes in Hk.
  inversion Hk as [|? ? H0 Hk1]; subst.
  inversion Hk1 as [|? ? H1 Hk2]; subst.
  inversion Hk2 as [|? ? H7 Hk3]; subst.
  inversion Hk3 as [|? ? H9 Hk4]; subst.
  inversion Hk4 as [|? ? H11 _]; subst.
  unfold poll_events, bind at 1. rewrite Hrecv.
  rewrite Hop, Hd. cbn [lift]. unfold bind at 1, ret at 1.
  unfold bind at 1, ret at 1.
  rewrite H0, H1, H7, H9, H11. reflexivity.
Qed.

(** *** [recv] *)

(** X7: whatever the inbox holds, [recv] sends no payload, takes no
    permit, dispatches nothing and closes nothing: the only effect it logs
    is the pong that answers a ping; and it leaves the latch, the sequence
    number, the session and the heartbeat samples alone. *)
Theorem recv_only_pongs (w : World rt) :
  recv_view (snd (recv rt w)) = recv_view w /\
  exists new,
    log (snd (recv rt w)) = (new ++ log w)%list /\
    Forall (fun e => e = EvPong rt) new.
Proof.
  apply (framed_recv rt _ recv_view (fun e => e = EvPong rt));
    intros; reflexivity.
Qed.


Lemma ws_receive_control (w : World rt) (sock : WebSocket) (m : WSMessage)
      (rest : list inbound) :
  ws (client w) = Some sock ->
  ws_closed sock = false ->
  is_control m ->
  ws_receive rt (Frame m :: rest) w = (Return m, set_inbox rt rest w).
Proof.
  intros Hws Hopen Hm. destruct m as [t d]. unfold is_control in Hm.
  cbn [type] in Hm.
  unfold ws_receive, leave, deliver.
  destruct Hm as [-> | [-> | ->]];
    repeat (unfold bind, the_ws, self, ret; cbn; rewrite ?Hws, ?Hopen);
    reflexivity.
Qed.

Lemma of_type_cons (t : WSMsgType) (m : WSMessage) (ms : list WSMessage) :
  of_type t (m :: ms) =
  ((if WSMsgType_eqb (type m) t then 1 else 0) + of_type t ms)%nat.
Proof.
  unfold of_type. cbn [filter]. destruct (WSMsgType_eqb (type m) t); reflexivity.
Qed.

Lemma recv_from_controls (raw : pydata) (rest : list inbound)
      (controls : list WSMessage) :
  forall (w : World rt) (sock : WebSocket),
    ws (client w) = Some sock ->
    ws_closed sock = false ->
    Forall is_control controls ->
    exists w',
      recv_from rt (map Frame controls ++ Frame (mkMessage TEXT raw) :: rest)%list w
      = deserialize rt raw w' /\
      inbox w' = rest /\
      log w' = (repeat (EvPong rt) (of_type PING controls) ++ log w)%list /\
      reads w' = (reads w + of_type PONG controls)%nat.
Proof.
  induction controls as [|m controls IH]; intros w sock Hws Hopen Hall.
  - exists (set_inbox rt rest w). split; [| repeat split; cbn; lia].
    cbn [map app recv_from]. unfold ws_receive, leave, deliver.
    repeat (unfold bind, the_ws, self, ret; cbn; rewrite ?Hws, ?Hopen).
    reflexivity.
  - inversion Hall as [|? ? Hm Hrest]; subst.
    cbn [map app recv_from]. unfold bind at 1.
    rewrite (ws_receive_control w sock m _ Hws Hopen Hm).
    rewrite !of_type_cons.
    destruct m as [t d]. unfold is_control in Hm. cbn [type] in *.
    destruct Hm as [-> | [-> | ->]]; cbn [WSMsgType_eqb].
    + (* PING *)
      destruct (IH (emit (EvPong rt)
                      (set_inbox rt
                         (map Frame controls ++
                          Frame (mkMessage TEXT raw) :: rest)%list w))
                  sock Hws Hopen Hrest) as (w' & Hr & Hi & Hl & Hn).
      exists w'. split; [| split; [exact Hi | split]].
      * rewrite <- Hr. unfold ws_pong.
        repeat (unfold bind at 1, the_ws, self, ret, effect; cbn [fst snd];
                rewrite ?Hws).
        change (ws (client (set_inbox rt
                              (map Frame controls ++
                               Frame (mkMessage TEXT raw) :: rest)%list w)))
          with (ws (client w)).
        rewrite Hws. reflexivity.
      * rewrite Hl. cbn [emit log set_inbox Nat.add repeat].
        change (S (of_type PING controls)) with (1 + of_type PING controls)%nat.
        cbn [Nat.add repeat].
        rewrite (repeat_cons (of_type PING controls) (EvPong rt)).
        rewrite <- app_assoc. reflexivity.
      * rewrite Hn. cbn. lia.
    + (* PONG *)
      destruct (IH (update (set_last_pong_received rt
                              (perf_counter_reading rt (reads w)))
                      (tick rt
                         (set_inbox rt
                            (map Frame controls ++
                             Frame (mkMessage TEXT raw) :: rest)%list w)))
                  sock Hws Hopen Hrest) as (w' & Hr & Hi & Hl & Hn).
      exists w'. split; [| split; [exact Hi | split]].
      * rewrite <- Hr. reflexivity.
      * rewrite Hl. reflexivity.
      * rewrite Hn. cbn. lia.
    + (* CONTINUATION *)
      destruct (IH (set_inbox rt
                      (map Frame controls ++
                       Frame (mkMessage TEXT raw) :: rest)%list w)
                  sock Hws Hopen Hrest) as (w' & Hr & Hi & Hl & Hn).
      exists w'. split; [| split; [exact Hi | split]].
      * rewrite <- Hr. reflexivity.
      * rewrite Hl. reflexivity.
      * rewrite Hn. cbn. lia.
Qed.

(** X8: in front of a TEXT frame, [recv] answers every PING with a pong,
    reads the clock once for every PONG, passes over CONTINUATION frames
    and then returns what the text decodes to; the frames behind the text
    stay in the inbox. *)
Theorem recv_skips_control
  (w : World rt) (sock : WebSocket) (controls : list WSMessage)
  (raw : pydata) (rest : list inbound) :
  ws (client w) = Some sock ->
  ws_closed sock = false ->
  Forall is_control controls ->
  inbox w = (map Frame controls ++ Frame (mkMessage TEXT raw) :: rest)%list ->
  fst (recv rt w) =
    match json_deserialize rt raw with
    | Some payload => Return payload
    | None => Raise (External "json_deserialize")
    end /\
  inbox (snd (recv rt w)) = rest /\
  log (snd (recv rt w)) =
    (repeat (EvPong rt) (of_type PING controls) ++ log w)%list /\
  reads (snd (recv rt w)) = (reads w + of_type PONG controls)%nat.
Proof.
  intros Hws Hopen Hall Hin. unfold recv. rewrite Hin.
  destruct (recv_from_controls raw rest controls w sock Hws Hopen Hall)
    as (w' & Hr & Hi & Hl & Hn).
  rewrite Hr. unfold deserialize.
  destruct (json_deserialize rt raw); cbn [fst snd ret raise]; auto.
Qed.

Lemma ws_receive_any (w : World rt) (sock : WebSocket) (m : WSMessage)
      (rest : list inbound) :
  ws (client w) = Some sock ->
  ws_closed sock = false ->
  exists w',
    ws_receive rt (Frame m :: rest) w = (Return m, w') /\
    zlib (client w') = zlib (client w) /\
    log w' = log w.
Proof.
  intros Hws Hopen. destruct m as [t d].
  unfold ws_receive, leave, deliver.
  destruct t; eexists;
    repeat (unfold bind, the_ws, self, ret, assign; cbn; rewrite ?Hws, ?Hopen);
    repeat split.
Qed.

Lemma recv_binary_stops (m : WSMessage) (rest : list inbound)
      (chunks : list (list byte)) :
  forall (buffer : list byte) (w : World rt) (sock : WebSocket),
    ws (client w) = Some sock ->
    ws_closed sock = false ->
    type m <> BINARY ->
    (forall n, (n <= List.length chunks)%nat ->
          Py.endswith (buffer ++ List.concat (firstn n chunks))%list sentinel
          = false) ->
    exists w',
      recv_binary rt (map binary chunks ++ Frame m :: rest)%list buffer w =
        (Raise (GatewayError
                  [Lit "Expected a binary message but got ";
                   Repr (WSMsgType_name (type m))]
                  None), w') /\
      zlib (client w') = zlib (client w) /\
      log w' = log w.
Proof.
  induction chunks as [|chunk chunks IH]; intros buffer w sock Hws Hopen Hm Hpre;
    rewrite recv_binary_eq;
    (assert (H0 : Py.endswith buffer sentinel = false);
     [ specialize (Hpre 0%nat); cbn [firstn List.concat] in Hpre;
       rewrite app_nil_r in Hpre; apply Hpre; cbn; lia |]);
    rewrite H0.
  - cbn [map app]. unfold bind at 1.
    destruct (ws_receive_any w sock m rest Hws Hopen) as (w' & Hr & Hz & Hl).
    rewrite Hr. exists w'.
    destruct (type m) eqn:E; try congruence;
      cbn [negb WSMsgType_eqb]; repeat split; assumption.
  - cbn [map app]. unfold bind at 1. unfold binary at 1.
    rewrite (ws_receive_binary rt w sock _ _ Hws Hopen).
    cbn [type data negb WSMsgType_eqb extension lift]. unfold bind at 1, ret at 1.
    destruct (IH (buffer ++ chunk)%list
                (set_inbox rt (map binary chunks ++ Frame m :: rest)%list w)
                sock Hws Hopen Hm) as (w' & Hr & Hz & Hl).
    + intros n Hn. specialize (Hpre (S n)). cbn [firstn List.concat] in Hpre.
      rewrite app_assoc in Hpre. apply Hpre. cbn. lia.
    + exists w'. repeat split; assumption.
Qed.

(** X9: BINARY frames that do not yet end with the sentinel and are
    followed by a frame of another type, a CLOSE frame included, make
    [recv] raise GatewayError; nothing is inflated, the inflate context is
    as it was, and nothing is logged. *)
Theorem recv_binary_interrupted
  (w : World rt) (sock : WebSocket) (chunk : list byte)
  (chunks : list (list byte)) (m : WSMessage) (rest : list inbound) :
  ws (client w) = Some sock ->
  ws_closed sock = false ->
  type m <> BINARY ->
  inbox w = (map binary (chunk :: chunks) ++ Frame m :: rest)%list ->
  (forall n, (0 < n <= List.length (chunk :: chunks))%nat ->
        Py.endswith (List.concat (firstn n (chunk :: chunks))) sentinel = false) ->
  fst (recv rt w) =
    Raise (GatewayError
             [Lit "Expected a binary message but got ";
              Repr (WSMsgType_name (type m))]
             None) /\
  zlib (client (snd (recv rt w))) = zlib (client w) /\
  log (snd (recv rt w)) = log w.
Proof.
  intros Hws Hopen Hm Hin Hpre.
  destruct (recv_binary_stops m rest chunks chunk
              (set_inbox rt (map binary chunks ++ Frame m :: rest)%list w)
              sock Hws Hopen Hm) as (w' & Hr & Hz & Hl).
  { intros n Hn. apply (Hpre (S n)). cbn. lia. }
  assert (H : recv rt w =
              (Raise (GatewayError
                        [Lit "Expected a binary message but got ";
                         Repr (WSMsgType_name (type m))]
                        None), w')).
  { unfold recv. rewrite Hin.
    cbn [map app recv_from tl]. unfold bind at 1. unfold binary at 1.
    rewrite (ws_receive_binary rt w sock _ _ Hws Hopen).
    cbn [type data bytearray lift]. unfold bind at 1, ret at 1.
    unfold bind at 1. rewrite Hr. reflexivity. }
  rewrite H. cbn [fst snd]. repeat split; assumption.
Qed.

(** *** The poll loop and the heartbeat *)

Lemma poll_ack (w w1 : World rt) (next d : json) :
  recv rt w = (Return next, w1) ->
  getitem next "op" = inr (JInt 11) ->
  getitem next "d" = inr d ->
  poll_events rt w =
    (Return tt,
     update (set_last_heartbeat_ack_received (perf_counter_reading rt (reads w1)))
       (tick rt w1)).
Proof.
  intros Hrecv Hop Hd. unfold poll_events, bind at 1. rewrite Hrecv.
  rewrite Hop, Hd. reflexivity.
Qed.

Lemma heartbeat_not_zombied (heartbeat_interval : spec_float) (w : World rt) :
  Py.lt (last_heartbeat_ack_received (client w)) (last_heartbeat_sent (client w))
  = false ->
  fst (heartbeat_keep_alive rt heartbeat_interval w) <> Raise GatewayZombiedError.
Proof.
  intros Hlt H. apply zombied_only_if_lt in H. congruence.
Qed.

(** X10: a HEARTBEAT ACK (11) stamps [last_heartbeat_ack_received] with the
    clock; when that reading is not before [last_heartbeat_sent], the next
    pass of the heartbeat loop does not raise Zombied. *)
Theorem ack_clears_zombied
  (w w1 : World rt) (next d : json) (heartbeat_interval : spec_float) :
  recv rt w = (Return next, w1) ->
  getitem next "op" = inr (JInt 11) ->
  getitem next "d" = inr d ->
  Py.ge (perf_counter_reading rt (reads w1)) (last_heartbeat_sent (client w1))
  = true ->
  last_heartbeat_ack_received (client (snd (poll_events rt w))) =
    perf_counter_reading rt (reads w1) /\
  fst (heartbeat_keep_alive rt heartbeat_interval (snd (poll_events rt w))) <>
    Raise GatewayZombiedError.
Proof.
  intros Hrecv Hop Hd Hge.
  rewrite (poll_ack w w1 next d Hrecv Hop Hd). cbn [snd].
  split; [reflexivity |].
  apply heartbeat_not_zombied. apply ge_not_lt. exact Hge.
Qed.

(** X11: after a dispatch with sequence number [s], the heartbeat that goes
    out next carries [s]. *)
Theorem heartbeat_carries_seq
  (w w1 : World rt) (next op s t d : json) (heartbeat_interval : spec_float) :
  recv rt w = (Return next, w1) ->
  getitem next "op" = inr op ->
  py_eq_int op 0 = true ->
  getitem next "d" = inr d ->
  getitem next "s" = inr s ->
  getitem next "t" = inr t ->
  closed_event (client w1) = false ->
  Py.lt (last_heartbeat_ack_received (client w1)) (last_heartbeat_sent (client w1))
  = false ->
  ws (client w1) <> None ->
  Z.of_nat (String.length (json_serialize rt (heartbeat_payload s))) <= 4096 ->
  payloads
    (log (snd (heartbeat_keep_alive rt heartbeat_interval
                 (snd (poll_events rt w))))) =
  json_serialize rt (heartbeat_payload s) :: payloads (log w1).
Proof.
  intros Hrecv Hop H0 Hd Hs Ht Hopen Hlt Hws Hfits.
  assert (H : poll_events rt w =
              (Return tt,
               emit (EvDispatch (set_seq s (client w1)) t d)
                 (update (set_seq s) w1))).
  { unfold poll_events, bind at 1. rewrite Hrecv.
    rewrite Hop, Hd, Hs, Ht. cbn [lift].
    unfold bind at 1, ret at 1. unfold bind at 1, ret at 1.
    rewrite H0. reflexivity. }
  rewrite H. cbn [snd].
  rewrite heartbeat_sends by assumption.
  rewrite send_small by assumption.
  change (ws (client (emit (EvDispatch (set_seq s (client w1)) t d)
                        (update (set_seq s) w1))))
    with (ws (client w1)).
  destruct (ws (client w1)); [reflexivity | congruence].
Qed.

(** *** The stages of [connect] *)

(** X12: when the first payload is not HELLO, [connect] ends with
    GatewayError from that stage: nothing has been sent, the heartbeat
    task has not been created, the socket is not closed, and the client
    reports disconnected. *)
Theorem connect_expects_hello
  (c : Connection rt) (pl op : json) (w1 : World rt) :
  main c = AwaitingHello ->
  recv rt (world c) = (Return pl, w1) ->
  getitem pl "op" = inr op ->
  py_eq_int op 10 = false ->
  main (step rt RunMain c) =
    Terminated
      (GatewayError [Lit "Expected HELLO opcode 10 but received "; Val op] None) /\
  payloads (log (world (step rt RunMain c))) = payloads (log (world c)) /\
  heartbeat_task (step rt RunMain c) = heartbeat_task c /\
  ws (client (world (step rt RunMain c))) = ws (client w1) /\
  is_connected (client (world (step rt RunMain c))) = false.
Proof.
  intros Hm Hrecv Hop H10.
  assert (He : connect_hello rt (world c) =
               (Raise (GatewayError
                         [Lit "Expected HELLO opcode 10 but received "; Val op]
                         None), w1)).
  { unfold connect_hello, bind at 1. rewrite Hrecv, Hop. cbn [lift].
    unfold bind at 1, ret at 1. rewrite H10. reflexivity. }
  unfold step, step_main. rewrite Hm, He.
  destruct (framed_recv rt _ (fun _ => tt) silent
              ltac:(reflexivity) ltac:(reflexivity) ltac:(reflexivity)
              ltac:(reflexivity) ltac:(reflexivity) ltac:(reflexivity) I
              (world c)) as [_ (new & Hl & Hs)].
  rewrite Hrecv in Hl. cbn [snd] in Hl.
  repeat split.
  change (payloads (log w1) = payloads (log (world c))).
  rewrite Hl, payloads_app, (payloads_silent rt new Hs). reflexivity.
Qed.

(** X13: when the socket cannot be opened, [connect] ends with the error
    of [ws_connect]: the client has no socket, reports disconnected, has
    sent nothing, and the session it created is left open. *)
Theorem connect_dial_failure (c : Connection rt) (origin : string) :
  main c = Opening ->
  dial_failure (world c) = Some origin ->
  main (step rt RunMain c) = Terminated (External origin) /\
  ws (client (world (step rt RunMain c))) = ws (client (world c)) /\
  session (client (world (step rt RunMain c))) = Some (mkSession false) /\
  is_connected (client (world (step rt RunMain c))) = false /\
  payloads (log (world (step rt RunMain c))) = payloads (log (world c)).
Proof.
  intros Hm Hd.
  assert (He : connect_open rt (world c) =
               (Raise (External origin),
                emit (EvWsConnect rt (url (client (world c)))
                        (receive_timeout (client (world c))))
                  (update (set_session rt (Some (mkSession false)))
                     (emit (EvClientSession rt) (world c))))).
  { destruct (world c) as [g i d r l]. cbn in Hd. subst d. reflexivity. }
  unfold step, step_main. rewrite Hm, He.
  repeat split.
Qed.

(** *** [is_connected] during a connection *)

Lemma connect_open_cases (w : World rt) :
  (exists w', connect_open rt w = (Return tt, w') /\
         connected_at (client w') = perf_counter_reading rt (reads w)) \/
  (exists e w', connect_open rt w = (Raise e, w')).
Proof.
  destruct w as [g i d r l]. destruct d as [origin|].
  - right. eexists. eexists. reflexivity.
  - left. eexists. split; reflexivity.
Qed.

Lemma kept_connected_at_hello (w : World rt) :
  connected_at (client (snd (connect_hello rt w))) = connected_at (client w).
Proof.
  apply (framed_connect_hello rt _ (fun w => connected_at (client w))
           (fun _ => True)); intros; first [reflexivity | exact I].
Qed.

Lemma kept_connected_at_authenticate (w : World rt) :
  connected_at (client (snd (connect_authenticate rt w))) =
  connected_at (client w).
Proof.
  apply (framed_connect_authenticate rt _ (fun w => connected_at (client w))
           (fun _ => True)); intros; first [reflexivity | exact I].
Qed.

Lemma kept_connected_at_poll (w : World rt) :
  connected_at (client (snd (poll_events rt w))) = connected_at (client w).
Proof.
  apply (framed_poll_events rt _ (fun w => connected_at (client w))
           (fun _ => True)); intros; first [reflexivity | exact I].
Qed.

Lemma kept_connected_at_turn (m : coro rt loop) (st : task_state) (w : World rt) :
  (forall w, connected_at (client (snd (m w))) = connected_at (client w)) ->
  connected_at (client (snd (turn rt m st w))) = connected_at (client w).
Proof.
  intros Hm. unfold turn. destruct st; try reflexivity.
  specialize (Hm w). destruct (m w) as [[[]|e|] w']; exact Hm.
Qed.

Lemma kept_connected_at_ping (w : World rt) :
  connected_at (client (snd (ping_keep_alive rt w))) = connected_at (client w).
Proof.
  apply (framed_ping_keep_alive rt _ (fun w => connected_at (client w))
           (fun _ => True)); intros; first [reflexivity | exact I].
Qed.

Lemma kept_connected_at_heartbeat (interval : spec_float) (w : World rt) :
  connected_at (client (snd (heartbeat_keep_alive rt interval w))) =
  connected_at (client w).
Proof.
  apply (framed_heartbeat_keep_alive rt _ (fun w => connected_at (client w))
           (fun _ => True)); intros; first [reflexivity | exact I].
Qed.

Lemma kept_by_close (w : World rt) :
  connected_at (client (snd (close rt w))) = connected_at (client w) /\
  reads (snd (close rt w)) = reads w.
Proof.
  split.
  - apply (framed_close rt _ (fun w => connected_at (client w))
             (fun _ => True)); intros; first [reflexivity | exact I].
  - apply (framed_close rt _ (fun w => reads w) (fun _ => True)); intros;
      first [reflexivity | exact I].
Qed.

Lemma gather_clock (n : nat) (c : Connection rt) :
  connection_clock n c -> connection_clock n (gather rt c).
Proof.
  intros H. unfold gather. destruct (main c) eqn:Hm; try exact H.
  destruct (ping_task c); try exact I; destruct (heartbeat_task c);
    first [exact I | exact H].
Qed.

Lemma step_clock (n : nat) (a : action) (c : Connection rt) :
  connection_clock n c -> connection_clock n (step rt a c).
Proof.
  intros H. unfold step. apply gather_clock.
  destruct c as [w m p h i]. unfold connection_clock in *.
  cbn [main world ping_task heartbeat_task hb_interval] in *.
  destruct a.
  - unfold step_main. cbn [main world ping_task heartbeat_task hb_interval].
    destruct m.
    + destruct H as (Hp & Hi & Hr).
      destruct (connect_open_cases w) as [(w' & He & Hc) | (e & w' & He)];
        rewrite He; cbn; [now rewrite Hc, Hr | exact I].
    + pose proof (kept_connected_at_hello w) as Hh.
      destruct (connect_hello rt w) as [[interval|e|] w1]; cbn [snd] in Hh.
      * pose proof (kept_connected_at_authenticate w1) as Ha.
        destruct (connect_authenticate rt w1) as [[x|e|] w2]; cbn [snd] in Ha;
          cbn; try exact I; rewrite Ha, Hh; exact H.
      * exact I.
      * cbn. rewrite Hh. exact H.
    + pose proof (kept_connected_at_poll w) as Hp.
      destruct (poll_events rt w) as [[x|e|] w1]; cbn [snd] in Hp;
        cbn; try exact I; rewrite Hp; exact H.
    + exact I.
  - pose proof (kept_connected_at_turn (ping_keep_alive rt) p w
                  kept_connected_at_ping) as Ht.
    destruct m; cbn.
    + destruct H as (Hp & Hi & Hr). subst p. cbn. auto.
    + destruct (turn rt (ping_keep_alive rt) p w); cbn [snd] in Ht; cbn;
        rewrite Ht; exact H.
    + destruct (turn rt (ping_keep_alive rt) p w); cbn [snd] in Ht; cbn;
        rewrite Ht; exact H.
    + destruct (turn rt (ping_keep_alive rt) p w); exact I.
  - destruct i as [interval|].
    + pose proof (kept_connected_at_turn (heartbeat_keep_alive rt interval) h w
                    (kept_connected_at_heartbeat interval)) as Ht.
      destruct m; cbn.
      * destruct H as (_ & Hi & _). discriminate Hi.
      * destruct (turn rt (heartbeat_keep_alive rt interval) h w);
          cbn [snd] in Ht; cbn; rewrite Ht; exact H.
      * destruct (turn rt (heartbeat_keep_alive rt interval) h w);
          cbn [snd] in Ht; cbn; rewrite Ht; exact H.
      * destruct (turn rt (heartbeat_keep_alive rt interval) h w); exact I.
    + exact H.
  - destruct (kept_by_close w) as [Hc Hr].
    destruct m; cbn [main world ping_task heartbeat_task hb_interval].
    + destruct H as (Hp & Hi & Hn). repeat split; try assumption.
      now rewrite Hr.
    + now rewrite Hc.
    + now rewrite Hc.
    + exact I.
Qed.

Lemma connect_clock (n : nat) (schedule : list action) (c : Connection rt) :
  connection_clock n c -> connection_clock n (connect rt schedule c).
Proof.
  revert c. induction schedule as [|a rest IH]; intros c Hc; cbn [connect].
  - destruct (main c); exact Hc.
  - destruct (main c) eqn:Hm; try exact Hc; apply IH; now apply step_clock.
Qed.

(** X14: under every schedule, as long as [connect] is past the opening of
    the socket and has not ended, [connected_at] is the reading the clock
    gave at the opening, whatever the tasks and [close] do; so
    [is_connected] holds throughout if that reading is a number. *)
Theorem connected_while_running (schedule : list action) (w : World rt) :
  let c := connect rt schedule (initial w) in
  main c = AwaitingHello \/ main c = Listening ->
  connected_at (client (world c)) = perf_counter_reading rt (reads w) /\
  is_connected (client (world c)) =
    negb (Py.isnan (perf_counter_reading rt (reads w))).
Proof.
  intros c Hm.
  assert (H : connection_clock (reads w) c).
  { apply connect_clock. cbn. auto. }
  unfold connection_clock in H. unfold is_connected.
  destruct Hm as [Hm | Hm]; rewrite Hm in H; rewrite H; split; reflexivity.
Qed.

(** *** Observables of a disconnected client *)

Lemma sub_nan_r (x : spec_float) : Py.sub x Py.nan = Py.nan.
Proof. destruct x; reflexivity. Qed.

Lemma sub_nan_l (x : spec_float) : Py.sub Py.nan x = Py.nan.
Proof. reflexivity. Qed.

(** X15: a client that is not connected has an uptime of 0 seconds, and
    its latency and its heartbeat latency are NaN as long as one of their
    two samples is. *)
Theorem disconnected_observables (w : World rt) :
  (is_connected (client w) = false ->
   uptime rt w = (Return (JInt 0), tick rt w)) /\
  (Py.isnan (last_ping_sent (client w)) = true \/
   Py.isnan (last_pong_received (client w)) = true ->
   Py.isnan (latency (client w)) = true) /\
  (Py.isnan (last_heartbeat_sent (client w)) = true \/
   Py.isnan (last_heartbeat_ack_received (client w)) = true ->
   Py.isnan (heartbeat_latency (client w)) = true).
Proof.
  repeat split.
  - unfold is_connected. intros H. apply negb_false_iff in H.
    unfold uptime, bind, perf_counter, self, ret. cbn.
    destruct (connected_at (client w)); try discriminate H.
    now rewrite sub_nan_r.
  - unfold latency. intros [H | H].
    + destruct (last_ping_sent (client w)); try discriminate H.
      now rewrite sub_nan_r.
    + destruct (last_pong_received (client w)); try discriminate H.
      reflexivity.
  - unfold heartbeat_latency. intros [H | H].
    + destruct (last_heartbeat_sent (client w)); try discriminate H.
      now rewrite sub_nan_r.
    + destruct (last_heartbeat_ack_received (client w)); try discriminate H.
      reflexivity.
Qed.

(** *** Requests *)

(** X16: the payload of [request_guild_members] lists the first guild
    before the others and has neither an opcode nor a [d]; with
    [user_ids] given it carries them and nothing else, whatever [query]
    and [limit] are; without, it carries [query] and [limit], "" and 0 by
    default. *)
Theorem request_guild_members_constraints
  (guild_id : json) (guild_ids : list json) (kwargs : list (string * json)) :
  let payload := request_guild_members_payload guild_id guild_ids kwargs in
  getitem payload "guild_id" = inr (JList (guild_id :: guild_ids)) /\
  getitem payload "op" = inl (KeyError "op") /\
  getitem payload "d" = inl (KeyError "d") /\
  (forall ids,
      assoc "user_ids" kwargs = Some ids ->
      payload = JDict [("guild_id", JList (guild_id :: guild_ids));
                       ("user_ids", ids)]) /\
  (assoc "user_ids" kwargs = None ->
   payload = JDict [("guild_id", JList (guild_id :: guild_ids));
                    ("query", get kwargs "query" (JStr ""));
                    ("limit", get kwargs "limit" (JInt 0))]).
Proof.
  unfold request_guild_members_payload.
  destruct (assoc "user_ids" kwargs) as [ids|] eqn:E; cbn; repeat split;
    try discriminate.
  intros ids' H. now injection H as <-.
Qed.

(** X17: [update_status] stores the presence only after its payload went
    out: with a payload that is too large nothing is sent and the client
    keeps the presence it had; otherwise the payload is sent, the presence
    is stored, and an IDENTIFY built afterwards carries it. *)
Theorem update_status_stores_presence
  (pm : PresenceModel rt) (p : Presence rt) (w : World rt) :
  let payload_str := json_serialize rt (update_status_payload rt pm p) in
  (4096 < Z.of_nat (String.length payload_str) ->
   update_status rt pm p w = (Raise (too_large payload_str), w)) /\
  (Z.of_nat (String.length payload_str) <= 4096 ->
   ws (client w) <> None ->
   fst (update_status rt pm p w) = Return tt /\
   presence (client (snd (update_status rt pm p w))) = Some p /\
   payloads (log (snd (update_status rt pm p w))) =
     payload_str :: payloads (log w) /\
   exists d,
     getitem (identify_payload rt (client (snd (update_status rt pm p w)))) "d"
     = inr d /\
     getitem d "presence" = inr (to_dict rt p)).
Proof.
  cbn zeta. split.
  - intros H. unfold update_status, bind.
    now rewrite send_too_large by exact H.
  - intros H Hws. unfold update_status, bind.
    rewrite send_small by exact H.
    destruct (ws (client w)); [| congruence].
    cbn. repeat split. eexists. split; reflexivity.
Qed.

(** *** Incomplete dispatches *)

(** X24: a dispatch (opcode 0) without ["s"] raises for the missing key and
    leaves the sequence number alone; one with ["s"] and without ["t"]
    raises too, but only after the sequence number was stored; in both
    cases nothing is dispatched. *)
Theorem incomplete_dispatch
  (w w1 : World rt) (next op d : json) :
  recv rt w = (Return next, w1) ->
  getitem next "op" = inr op ->
  py_eq_int op 0 = true ->
  getitem next "d" = inr d ->
  (forall e, getitem next "s" = inl e ->
        poll_events rt w = (Raise e, w1)) /\
  (forall s e, getitem next "s" = inr s ->
          getitem next "t" = inl e ->
          fst (poll_events rt w) = Raise e /\
          seq (client (snd (poll_events rt w))) = s /\
          log (snd (poll_events rt w)) = log w1).
Proof.
  intros Hrecv Hop H0 Hd. split.
  - intros e Hs. unfold poll_events, bind at 1. rewrite Hrecv.
    rewrite Hop, Hd, Hs. cbn [lift].
    unfold bind at 1, ret at 1. unfold bind at 1, ret at 1.
    rewrite H0. reflexivity.
  - intros s e Hs Ht.
    assert (H : poll_events rt w = (Raise e, update (set_seq s) w1)).
    { unfold poll_events, bind at 1. rewrite Hrecv.
      rewrite Hop, Hd, Hs, Ht. cbn [lift].
      unfold bind at 1, ret at 1. unfold bind at 1, ret at 1.
      rewrite H0. reflexivity. }
    rewrite H. repeat split.
Qed.

(** *** A client without a socket *)

(** X25: on a client that has no socket, a payload that fits still takes
    a permit from the rate limiter before AttributeError is raised, and
    nothing is sent; [update_status] then keeps the presence it had;
    [recv] and a pass of the ping task raise AttributeError and change
    nothing. *)
Theorem without_socket (w : World rt) :
  ws (client w) = None ->
  (forall payload,
      Z.of_nat (String.length (json_serialize rt payload)) <= 4096 ->
      send rt payload w = (Raise AttributeError, emit EvAcquire w)) /\
  (forall pm p,
      Z.of_nat (String.length
                  (json_serialize rt (update_status_payload rt pm p))) <= 4096 ->
      fst (update_status rt pm p w) = Raise AttributeError /\
      presence (client (snd (update_status rt pm p w))) = presence (client w)) /\
  recv rt w = (Raise AttributeError, w) /\
  (closed_event (client w) = false ->
   ping_keep_alive rt w = (Raise AttributeError, w)).
Proof.
  intros Hws. repeat split.
  - intros payload H. rewrite send_small by exact H. now rewrite Hws.
  - unfold update_status, bind. rewrite send_small by assumption.
    now rewrite Hws.
  - unfold update_status, bind. rewrite send_small by assumption.
    now rewrite Hws.
  - now apply recv_no_socket.
  - intros Hc. unfold ping_keep_alive, ws_ping.
    repeat (unfold bind, the_ws, self, ret, raise; cbn; rewrite ?Hws, ?Hc).
    reflexivity.
Qed.

(** *** Latency *)

Lemma ping_pass (w : World rt) (sock : WebSocket) :
  ws (client w) = Some sock ->
  closed_event (client w) = false ->
  ping_keep_alive rt w =
    (Return Again,
     emit (EvWaitClosed (ping_interval (client w)))
       (update (set_last_ping_sent rt (perf_counter_reading rt (reads w)))
          (tick rt (emit (EvPing rt) w)))).
Proof.
  intros Hws Hc. unfold ping_keep_alive, ws_ping, wait_closed.
  repeat (unfold bind, the_ws, self, ret, raise, effect, perf_counter, assign;
          cbn; rewrite ?Hws, ?Hc).
  reflexivity.
Qed.

(** X26: a pass of the ping task pings, stamps [last_ping_sent] and waits
    for three quarters of the receive timeout; when [recv] then reads the
    PONG, the latency is the difference between the next reading of the
    clock and that stamp.  The frames behind the PONG are read on. *)
Theorem ping_pong_latency
  (w : World rt) (sock : WebSocket) (d raw : pydata) (rest : list inbound) :
  ws (client w) = Some sock ->
  ws_closed sock = false ->
  closed_event (client w) = false ->
  inbox w = Frame (mkMessage PONG d) :: Frame (mkMessage TEXT raw) :: rest ->
  let pinged := snd (ping_keep_alive rt w) in
  fst (ping_keep_alive rt w) = Return Again /\
  log pinged =
    EvWaitClosed (ping_interval (client w)) :: EvPing rt :: log w /\
  latency (client (snd (recv rt pinged))) =
    Py.sub (perf_counter_reading rt (S (reads w)))
      (perf_counter_reading rt (reads w)) /\
  inbox (snd (recv rt pinged)) = rest.
Proof.
  intros Hws Hopen Hc Hin. cbn zeta.
  rewrite (ping_pass w sock Hws Hc). cbn [fst snd].
  split; [reflexivity | split; [reflexivity |]].
  set (w1 := emit _ _).
  assert (Hws1 : ws (client w1) = Some sock) by exact Hws.
  assert (Hin1 : inbox w1 =
                 Frame (mkMessage PONG d) :: Frame (mkMessage TEXT raw) :: rest)
    by exact Hin.
  assert (Hr : reads w1 = S (reads w)) by reflexivity.
  assert (Hp : last_ping_sent (client w1) = perf_counter_reading rt (reads w))
    by reflexivity.
  clearbody w1.
  assert (H : recv rt w1 =
              deserialize rt raw
                (set_inbox rt rest
                   (update (set_last_pong_received rt
                              (perf_counter_reading rt (reads w1)))
                      (tick rt
                         (set_inbox rt (Frame (mkMessage TEXT raw) :: rest)
                            w1))))).
  { unfold recv. rewrite Hin1. cbn [recv_from].
    unfold ws_receive, leave, deliver.
    repeat (unfold bind, the_ws, self, ret, raise, perf_counter, assign;
            cbn; rewrite ?Hws1, ?Hopen).
    reflexivity. }
  rewrite H. unfold deserialize.
  destruct (json_deserialize rt raw); cbn; unfold latency; cbn;
    rewrite Hp, Hr; split; reflexivity.
Qed.

(** *** Frames that end [recv] *)

(** X27: a CLOSING or CLOSED frame makes [recv] raise ClientClosed, an
    ERROR frame GatewayError with the exception of the socket as its
    cause; and a receive that times out is not caught: TimeoutError leaves
    [recv] and the poll loop.  The frames behind stay in the inbox. *)
Theorem recv_gives_up (w : World rt) (sock : WebSocket) (rest : list inbound) :
  ws (client w) = Some sock ->
  ws_closed sock = false ->
  (forall m,
      inbox w = Frame m :: rest ->
      type m = CLOSING \/ type m = CLOSED ->
      recv rt w = (Raise GatewayClientClosedError, set_inbox rt rest w)) /\
  (forall m,
      inbox w = Frame m :: rest ->
      type m = ERROR ->
      fst (recv rt w) =
        Raise (GatewayError [Lit "Unexpected exception occurred"]
                 match data m with PyStr s => Some s | _ => None end) /\
      inbox (snd (recv rt w)) = rest) /\
  (inbox w = ReceiveTimeout :: rest ->
   recv rt w = (Raise TimeoutError, set_inbox rt rest w) /\
   poll_events rt w = (Raise TimeoutError, set_inbox rt rest w)).
Proof.
  intros Hws Hopen. repeat split.
  - intros [t d] Hin Ht. cbn [type] in Ht. unfold recv. rewrite Hin.
    cbn [recv_from]. unfold ws_receive, leave, deliver.
    destruct Ht as [-> | ->];
      repeat (unfold bind, the_ws, self, ret, raise; cbn; rewrite ?Hws, ?Hopen);
      reflexivity.
  - destruct m as [t d]. cbn [type] in H0. subst t. unfold recv. rewrite H.
    cbn [recv_from]. unfold ws_receive, leave, deliver.
    repeat (unfold bind, the_ws, self, ret, raise, assign; cbn;
            rewrite ?Hws, ?Hopen).
    reflexivity.
  - destruct m as [t d]. cbn [type] in H0. subst t. unfold recv. rewrite H.
    cbn [recv_from]. unfold ws_receive, leave, deliver.
    repeat (unfold bind, the_ws, self, ret, raise, assign; cbn;
            rewrite ?Hws, ?Hopen).
    reflexivity.
  - unfold recv. rewrite H. cbn [recv_from]. unfold ws_receive, leave, deliver.
    repeat (unfold bind, the_ws, self, ret, raise; cbn; rewrite ?Hws, ?Hopen).
    reflexivity.
  - unfold poll_events, bind at 1.
    assert (Hr : recv rt w = (Raise TimeoutError, set_inbox rt rest w)).
    { unfold recv. rewrite H. cbn [recv_from].
      unfold ws_receive, leave, deliver.
      repeat (unfold bind, the_ws, self, ret, raise; cbn; rewrite ?Hws, ?Hopen).
      reflexivity. }
    now rewrite Hr.
Qed.

(** *** What the keep-alive tasks leave alone *)

(** X28: a pass of the ping task calls nothing but [ws.ping()] and the
    wait on the latch, so it takes no permit from the rate limiter; a pass
    of the heartbeat task calls nothing but the rate limiter,
    [ws.send_str] and the wait.  Neither reads a frame or touches the
    latch, the sequence number, the session, the presence, the socket or
    the samples of the receiving side. *)
Theorem keep_alive_footprint (w : World rt) (heartbeat_interval : spec_float) :
  frame keep_alive_view pinging w (snd (ping_keep_alive rt w)) /\
  frame keep_alive_view heartbeating w
    (snd (heartbeat_keep_alive rt heartbeat_interval w)).
Proof.
  split.
  - apply (framed_ping_keep_alive rt _ keep_alive_view pinging);
      intros; first [reflexivity | exact I].
  - apply (framed_heartbeat_keep_alive rt _ keep_alive_view heartbeating);
      intros; first [reflexivity | exact I].
Qed.

End MoreProperties.

(** ** Properties of [hikari.internal.conversions] *)

(** *** [put_if_specified] *)

Lemma assoc_setitem_same (key : string) (v : json) (m : list (string * json)) :
  assoc key (setitem key v m) = Some v.
Proof.
  induction m as [|[k x] m IH]; cbn.
  - now rewrite String.eqb_refl.
  - destruct (String.eqb k key) eqn:E; cbn; rewrite E; [reflexivity | exact IH].
Qed.

Lemma assoc_setitem_other (key k' : string) (v : json)
      (m : list (string * json)) :
  k' <> key -> assoc k' (setitem key v m) = assoc k' m.
Proof.
  intros Hne. induction m as [|[k x] m IH]; cbn.
  - destruct (String.eqb_spec key k'); [congruence | reflexivity].
  - destruct (String.eqb_spec k key) as [-> | Hk]; cbn.
    + destruct (String.eqb_spec key k'); [congruence | reflexivity].
    + destruct (String.eqb k k'); [reflexivity | exact IH].
Qed.

Lemma setitem_keys (key : string) (v : json) (m : list (string * json)) :
  map fst (setitem key v m) =
  if existsb (String.eqb key) (map fst m) then map fst m
  else (map fst m ++ [key])%list.
Proof.
  induction m as [|[k x] m IH]; cbn; [reflexivity |].
  rewrite (String.eqb_sym key k).
  destruct (String.eqb k key); cbn; [reflexivity |].
  rewrite IH. destruct (existsb (String.eqb key) (map fst m)); reflexivity.
Qed.

Lemma setitem_NoDup (key : string) (v : json) (m : list (string * json)) :
  NoDup (map fst m) -> NoDup (map fst (setitem key v m)).
Proof.
  intros H. rewrite setitem_keys.
  destruct (existsb (String.eqb key) (map fst m)) eqn:E; [exact H |].
  apply NoDup_app; [exact H | repeat constructor; intros [] |].
  intros k Hin [Hk | []]. subst k.
  assert (existsb (String.eqb key) (map fst m) = true).
  { apply existsb_exists. exists key. split; [exact Hin | apply String.eqb_refl]. }
  congruence.
Qed.

(** X18: [put_if_specified] leaves the mapping as it is for [...]; for
    any other value, [None] included, the mapping afterwards holds under
    the key what the value was cast to (the value itself without a cast),
    every other key holds what it held, and keys that were distinct stay
    so; when the cast raises, so does the call. *)
Theorem put_if_specified_lookup
  (mapping : list (string * json)) (key : string)
  (type_after : option (json -> conversions.exception + json)) :
  conversions.put_if_specified mapping key conversions.Ellipsis type_after
    = inr mapping /\
  (forall v mapping',
      conversions.put_if_specified mapping key (conversions.Given v) type_after
        = inr mapping' ->
      (exists stored,
          assoc key mapping' = Some stored /\
          match type_after with
          | Some cast => cast v = inr stored
          | None => stored = v
          end) /\
      (forall k, k <> key -> assoc k mapping' = assoc k mapping) /\
      (NoDup (map fst mapping) -> NoDup (map fst mapping'))) /\
  (forall v cast e,
      type_after = Some cast ->
      cast v = inl e ->
      conversions.put_if_specified mapping key (conversions.Given v) type_after
        = inl e).
Proof.
  split; [reflexivity | split].
  - intros v mapping' H. unfold conversions.put_if_specified in H.
    destruct type_after as [cast|].
    + destruct (cast v) as [e|stored] eqn:E; [discriminate H |].
      injection H as <-. repeat split.
      * exists stored. split; [apply assoc_setitem_same | reflexivity].
      * intros k Hk. now apply assoc_setitem_other.
      * apply setitem_NoDup.
    + injection H as <-. repeat split.
      * exists v. split; [apply assoc_setitem_same | reflexivity].
      * intros k Hk. now apply assoc_setitem_other.
      * apply setitem_NoDup.
  - intros v cast e -> E. cbn. now rewrite E.
Qed.

(** *** [image_bytes_to_image_data] *)

Lemma bytes_eqb_eq (a b : list byte) : conversions.bytes_eqb a b = true -> a = b.
Proof.
  unfold conversions.bytes_eqb.
  destruct (list_eq_dec Byte.byte_eq_dec a b); [auto | discriminate].
Qed.

Lemma bytes_eqb_length (a b : list byte) :
  List.length a <> List.length b -> conversions.bytes_eqb a b = false.
Proof.
  intros H. destruct (conversions.bytes_eqb a b) eqn:E; [| reflexivity].
  apply bytes_eqb_eq in E. subst. congruence.
Qed.

Lemma slice_length (i j : nat) (b : list byte) :
  List.length (conversions.slice i j b) = Nat.min (j - i) (List.length b - i).
Proof. unfold conversions.slice. now rewrite length_firstn, length_skipn. Qed.

Lemma slice_short (i j : nat) (b sig : list byte) (n : nat) :
  List.length sig = n ->
  (List.length b - i < n)%nat ->
  conversions.bytes_eqb (conversions.slice i j b) sig = false.
Proof.
  intros Hn H. apply bytes_eqb_length. rewrite slice_length. lia.
Qed.

(** X19: no image is [None]; and bytes that are fewer than six are no
    image of a supported type, whatever they are: the call raises
    ValueError. *)
Theorem image_too_short
  (b64encode : list byte -> string) (img_bytes : list byte) :
  conversions.image_bytes_to_image_data b64encode None = inr None /\
  ((List.length img_bytes < 6)%nat ->
   conversions.image_bytes_to_image_data b64encode (Some img_bytes) =
     inl (conversions.ValueError "Unsupported image type passed")).
Proof.
  split; [reflexivity |].
  intros H. unfold conversions.image_bytes_to_image_data, conversions.img_type.
  rewrite (slice_short 0 8 _ conversions.png_signature 8 eq_refl) by lia.
  rewrite (slice_short 6 10 _ (list_byte_of_string "Exif") 4 eq_refl) by lia.
  rewrite (slice_short 6 10 _ (list_byte_of_string "JFIF") 4 eq_refl) by lia.
  rewrite (slice_short 0 6 _ (list_byte_of_string "GIF87a") 6 eq_refl) by lia.
  rewrite (slice_short 0 6 _ (list_byte_of_string "GIF89a") 6 eq_refl) by lia.
  rewrite (slice_short 8 12 _ (list_byte_of_string "WEBP") 4 eq_refl) by lia.
  cbn [orb]. rewrite andb_false_r. reflexivity.
Qed.

Lemma slice_prefix (i j n : nat) (b : list byte) :
  (j <= n)%nat ->
  conversions.slice i j (firstn n b) = conversions.slice i j b.
Proof.
  intros H. unfold conversions.slice.
  rewrite skipn_firstn_comm, firstn_firstn.
  f_equal. lia.
Qed.

(** X20: the type of an image is read off its first twelve bytes: two
    images that agree there are given the same type, or are both
    rejected, and an accepted one yields [data:<type>;base64,] followed by
    the encoding of all its bytes. *)
Theorem image_type_of_prefix
  (b64encode : list byte -> string) (a b : list byte) :
  firstn 12 a = firstn 12 b ->
  conversions.img_type a = conversions.img_type b /\
  match conversions.img_type a with
  | Some t =>
      conversions.image_bytes_to_image_data b64encode (Some a) =
        inr (Some ("data:" ++ t ++ ";base64," ++ b64encode a)) /\
      conversions.image_bytes_to_image_data b64encode (Some b) =
        inr (Some ("data:" ++ t ++ ";base64," ++ b64encode b))
  | None =>
      conversions.image_bytes_to_image_data b64encode (Some a) =
        inl (conversions.ValueError "Unsupported image type passed") /\
      conversions.image_bytes_to_image_data b64encode (Some b) =
        inl (conversions.ValueError "Unsupported image type passed")
  end.
Proof.
  intros H.
  assert (Hs : forall i j, (j <= 12)%nat ->
                      conversions.slice i j a = conversions.slice i j b).
  { intros i j Hj.
    rewrite <- (slice_prefix i j 12 a Hj), <- (slice_prefix i j 12 b Hj).
    now rewrite H. }
  assert (H4 : firstn 4 a = firstn 4 b).
  { change (conversions.slice 0 4 a = conversions.slice 0 4 b).
    apply Hs. lia. }
  assert (Ht : conversions.img_type a = conversions.img_type b).
  { unfold conversions.img_type.
    rewrite (Hs 0 8)%nat, (Hs 6 10)%nat, (Hs 0 6)%nat, (Hs 8 12)%nat, H4 by lia.
    reflexivity. }
  split; [exact Ht |].
  unfold conversions.image_bytes_to_image_data. rewrite <- Ht.
  destruct (conversions.img_type a); split; reflexivity.
Qed.

(** *** [dereference_int_flag] *)

(** The names and the values their members have. *)
Lemma reduce_or_values (t : conversions.IntFlagType) (names : list string) :
  forall acc v,
    conversions.reduce_or t acc names = inr v <->
    exists vs,
      Forall2 (fun name x =>
                 conversions.member (conversions.members t)
                   (conversions.upper name) = inr x)
        names vs /\
      v = fold_left Z.lor vs acc.
Proof.
  induction names as [|name names IH]; intros acc v; cbn.
  - split.
    + intros H. injection H as <-. exists []. split; [constructor | reflexivity].
    + intros (vs & H & ->). inversion H. reflexivity.
  - destruct (conversions.member (conversions.members t)
                (conversions.upper name)) as [e|x] eqn:E.
    + split; [discriminate |].
      intros (vs & H & _). inversion H; subst. congruence.
    + rewrite IH. split.
      * intros (vs & H & ->). exists (x :: vs). split; [| reflexivity].
        constructor; assumption.
      * intros (vs & H & ->). inversion H as [|? y ? vs' Hy Hrest]; subst.
        exists vs'. split; [exact Hrest |].
        assert (y = x) by congruence. subst. reflexivity.
Qed.

Lemma reduce_names_values (t : conversions.IntFlagType) (names : list string)
      (v : Z) :
  conversions.reduce_names t names = inr v <->
  names <> [] /\
  exists vs,
    Forall2 (fun name x =>
               conversions.member (conversions.members t)
                 (conversions.upper name) = inr x)
      names vs /\
    v = fold_left Z.lor vs 0.
Proof.
  destruct names as [|name names]; cbn.
  - split; [discriminate | intros [H _]; congruence].
  - destruct (conversions.member (conversions.members t)
                (conversions.upper name)) as [e|x] eqn:E.
    + split; [discriminate |].
      intros (_ & vs & H & _). inversion H; subst. congruence.
    + rewrite reduce_or_values. split.
      * intros (vs & H & ->). split; [discriminate |].
        exists (x :: vs). split; [constructor; assumption | reflexivity].
      * intros (_ & vs & H & ->). inversion H as [|? y ? vs' Hy Hrest]; subst.
        exists vs'. split; [exact Hrest |].
        assert (y = x) by congruence. subst. reflexivity.
Qed.

Lemma fold_lor_permutation (vs vs' : list Z) :
  Permutation vs vs' ->
  forall acc, fold_left Z.lor vs acc = fold_left Z.lor vs' acc.
Proof.
  induction 1 as [| x l l' _ IH | x y l | l l' l'' _ IH1 _ IH2]; intros acc; cbn.
  - reflexivity.
  - apply IH.
  - f_equal. rewrite <- !Z.lor_assoc. f_equal. apply Z.lor_comm.
  - now rewrite IH1.
Qed.

(** X21: the flag that a collection of member names stands for does not
    depend on the order of the names. *)
Theorem dereference_names_any_order
  (t : conversions.IntFlagType) (names names' : list string) (v : Z) :
  Permutation names names' ->
  conversions.dereference_int_flag t (conversions.RawNames names) = inr v ->
  conversions.dereference_int_flag t (conversions.RawNames names') = inr v.
Proof.
  intros Hp. unfold conversions.dereference_int_flag.
  rewrite !reduce_names_values.
  intros (Hne & vs & Hvs & ->).
  split.
  - intros ->. apply Permutation_sym, Permutation_nil in Hp. contradiction.
  - destruct (Permutation_Forall2 Hp Hvs) as (vs' & Hpv & Hvs').
    exists vs'. split; [exact Hvs' |].
    now apply fold_lor_permutation.
Qed.

Lemma reduce_or_upper (t : conversions.IntFlagType) (names names' : list string) :
  map conversions.upper names = map conversions.upper names' ->
  forall acc, conversions.reduce_or t acc names = conversions.reduce_or t acc names'.
Proof.
  revert names'. induction names as [|n names IH]; intros [|n' names'] H acc;
    try discriminate H; [reflexivity |].
  cbn in H. injection H as Hn Hrest. cbn. rewrite Hn.
  destruct (conversions.member (conversions.members t) (conversions.upper n'));
    [reflexivity | now apply IH].
Qed.

(** X22: names are looked up in upper case: two collections of names that
    differ in case only give the same flag, or the same error. *)
Theorem dereference_names_any_case
  (t : conversions.IntFlagType) (names names' : list string) :
  map conversions.upper names = map conversions.upper names' ->
  conversions.dereference_int_flag t (conversions.RawNames names) =
  conversions.dereference_int_flag t (conversions.RawNames names').
Proof.
  intros H. unfold conversions.dereference_int_flag, conversions.reduce_names.
  destruct names as [|n names], names' as [|n' names']; try discriminate H;
    [reflexivity |].
  cbn in H. injection H as Hn Hrest. rewrite Hn.
  destruct (conversions.member (conversions.members t) (conversions.upper n'));
    [reflexivity | now apply reduce_or_upper].
Qed.



(** ** The properties at work *)

Lemma recv_text_returns (rt : Runtime) (w : World rt) (sock : WebSocket)
      (raw : pydata) (rest : list inbound) (payload : json) :
  ws (client w) = Some sock ->
  ws_closed sock = false ->
  inbox w = Frame (mkMessage TEXT raw) :: rest ->
  json_deserialize rt raw = Some payload ->
  recv rt w = (Return payload, set_inbox rt rest w).
Proof.
  intros Hws Hopen Hin Hd.
  rewrite (recv_text rt w sock raw rest Hws Hopen Hin).
  unfold deserialize. now rewrite Hd.
Qed.

(** A sharded client needs a count; the defaults give shard 0 of 1. *)
Lemma init_shards_witness :
  init Example.rt Scenario.unsharded = inl TypeError /\
  exists g,
    init Example.rt (default_args Example.rt "T" "wss://gateway") = inr g /\
    (shard_id g, shard_count g) = (0, 1) /\
    is_connected g = false /\
    closed_event g = false /\
    ws g = None /\
    session g = None.
Proof.
  split.
  - apply (init_shards Example.rt Scenario.unsharded). reflexivity.
  - apply (proj2 (init_shards Example.rt
                    (default_args Example.rt "T" "wss://gateway")) 1).
    reflexivity.
Defined.

(** HELLO is waiting, and the closed client does not read it. *)
Lemma close_then_recv_witness :
  let w := snd (close Example.rt (Example.connected [Example.text "HELLO"])) in
  recv Example.rt w = (Raise GatewayClientClosedError, w) /\
  poll_events Example.rt w = (Raise GatewayClientClosedError, w).
Proof.
  apply (close_then_recv Example.rt (Example.connected [Example.text "HELLO"])).
  discriminate.
Defined.

(** [{"d": null}] and [{"op": 11}]. *)
Lemma poll_missing_key_witness :
  fst (poll_events Scenario.rt (Scenario.connected [Scenario.text "NO_OP"])) =
    Raise (KeyError "op") /\
  fst (poll_events Scenario.rt (Scenario.connected [Scenario.text "BARE_ACK"])) =
    Raise (KeyError "d").
Proof.
  split.
  - rewrite (proj1 (poll_missing_key Scenario.rt _ _ [("d", JNull)]
                      (recv_text_returns Scenario.rt
                         (Scenario.connected [Scenario.text "NO_OP"])
                         (mkWebSocket false None None) (PyStr "NO_OP") []
                         _ eq_refl eq_refl eq_refl eq_refl))
               eq_refl).
    reflexivity.
  - rewrite (proj1 (proj2 (poll_missing_key Scenario.rt _ _ [("op", JInt 11)]
                             (recv_text_returns Scenario.rt
                                (Scenario.connected [Scenario.text "BARE_ACK"])
                                (mkWebSocket false None None) (PyStr "BARE_ACK")
                                [] _ eq_refl eq_refl eq_refl eq_refl))
                      (JInt 11) eq_refl eq_refl)).
    reflexivity.
Defined.

(** RECONNECT, INVALID SESSION with [d] true, and a HEARTBEAT request. *)
Lemma poll_server_requests_witness :
  fst (poll_events Scenario.rt (Scenario.connected [Scenario.text "RECONNECT"])) =
    Raise GatewayMustReconnectError /\
  fst (poll_events Scenario.rt
         (Scenario.connected [Scenario.text "INVALID_SESSION"])) =
    Raise (GatewayInvalidSessionError true) /\
  payloads (log (snd (poll_events Scenario.rt
                        (Scenario.connected [Scenario.text "HEARTBEAT"])))) =
    [json_serialize Scenario.rt (JDict [("op", JInt 11)])].
Proof.
  split; [| split].
  - rewrite (proj1 (poll_server_requests Scenario.rt _ _ _ JNull 7
                      (recv_text_returns Scenario.rt
                         (Scenario.connected [Scenario.text "RECONNECT"])
                         (mkWebSocket false None None) (PyStr "RECONNECT") []
                         Example.reconnect eq_refl eq_refl eq_refl eq_refl)
                      eq_refl eq_refl)
               eq_refl).
    reflexivity.
  - rewrite (proj1 (proj2 (poll_server_requests Scenario.rt _ _ _ (JBool true) 9
                             (recv_text_returns Scenario.rt
                                (Scenario.connected
                                   [Scenario.text "INVALID_SESSION"])
                                (mkWebSocket false None None)
                                (PyStr "INVALID_SESSION") []
                                (JDict [("op", JInt 9); ("d", JBool true)])
                                eq_refl eq_refl eq_refl eq_refl)
                             eq_refl eq_refl))
               eq_refl).
    reflexivity.
  - rewrite (proj2 (proj2 (poll_server_requests Scenario.rt _ _ _ JNull 1
                             (recv_text_returns Scenario.rt
                                (Scenario.connected [Scenario.text "HEARTBEAT"])
                                (mkWebSocket false None None)
                                (PyStr "HEARTBEAT") []
                                (JDict [("op", JInt 1); ("d", JNull)])
                                eq_refl eq_refl eq_refl eq_refl)
                             eq_refl eq_refl))
               eq_refl).
    reflexivity.
Defined.

(** Opcode 42. *)
Lemma poll_ignores_unknown_witness :
  let w := Scenario.connected [Scenario.text "UNKNOWN"] in
  poll_events Scenario.rt w = (Return tt, set_inbox Scenario.rt [] w).
Proof.
  apply (poll_ignores_unknown Scenario.rt _ _ _ (JInt 42) (JStr "?")
           (recv_text_returns Scenario.rt
              (Scenario.connected [Scenario.text "UNKNOWN"])
              (mkWebSocket false None None) (PyStr "UNKNOWN") []
              (JDict [("op", JInt 42); ("d", JStr "?")])
              eq_refl eq_refl eq_refl eq_refl));
    try reflexivity.
  repeat constructor.
Defined.

(** Two pings, a pong and a continuation in front of HELLO. *)
Lemma recv_skips_control_witness :
  let w := Example.connected
             (map Frame Scenario.controls ++
              [Example.text "HELLO"; Example.text "RECONNECT"])%list in
  fst (recv Example.rt w) = Return Example.hello /\
  inbox (snd (recv Example.rt w)) = [Example.text "RECONNECT"] /\
  log (snd (recv Example.rt w)) =
    (EvPong Example.rt :: EvPong Example.rt :: log w)%list /\
  reads (snd (recv Example.rt w)) = (reads w + 1)%nat.
Proof.
  apply (recv_skips_control Example.rt
           (Example.connected
              (map Frame Scenario.controls ++
               [Example.text "HELLO"; Example.text "RECONNECT"])%list)
           (mkWebSocket false None None) Scenario.controls (PyStr "HELLO")
           [Example.text "RECONNECT"]);
    try reflexivity.
  repeat (apply Forall_cons || apply Forall_nil); unfold is_control; cbn; auto.
Defined.

(** A CLOSE frame in the middle of a compressed payload. *)
Lemma recv_binary_interrupted_witness :
  let w := Example.connected
             [binary (list_byte_of_string "HEL");
              Frame (mkMessage CLOSE (PyInt 4004))] in
  fst (recv Example.rt w) =
    Raise (GatewayError
             [Lit "Expected a binary message but got ";
              Repr (WSMsgType_name CLOSE)]
             None) /\
  zlib (client (snd (recv Example.rt w))) = zlib (client w) /\
  log (snd (recv Example.rt w)) = log w.
Proof.
  apply (recv_binary_interrupted Example.rt
           (Example.connected
              [binary (list_byte_of_string "HEL");
               Frame (mkMessage CLOSE (PyInt 4004))])
           (mkWebSocket false None None) (list_byte_of_string "HEL") []
           (mkMessage CLOSE (PyInt 4004)) []);
    try reflexivity.
  - discriminate.
  - intros n Hn. cbn in Hn. assert (n = 1%nat) as -> by lia. reflexivity.
Defined.

(** The heartbeat of 2 is acknowledged at 2. *)
Lemma ack_clears_zombied_witness :
  let w := snd (poll_events Example.rt Scenario.awaiting_ack) in
  last_heartbeat_ack_received (client w) = Py.float_lit 2 /\
  fst (heartbeat_keep_alive Example.rt seconds_41_25 w) <>
    Raise GatewayZombiedError.
Proof.
  apply (ack_clears_zombied Example.rt Scenario.awaiting_ack _
           Example.heartbeat_ack JNull seconds_41_25
           (recv_text_returns Example.rt Scenario.awaiting_ack
              (mkWebSocket false None None) (PyStr "HEARTBEAT_ACK") []
              Example.heartbeat_ack eq_refl eq_refl eq_refl eq_refl));
    reflexivity.
Defined.

(** After MESSAGE_CREATE with sequence number 43. *)
Lemma heartbeat_carries_seq_witness :
  payloads
    (log (snd (heartbeat_keep_alive Example.rt seconds_41_25
                 (snd (poll_events Example.rt
                         (Example.connected [Example.text "MESSAGE_CREATE"]))))))
  = [json_serialize Example.rt (heartbeat_payload (JInt 43))].
Proof.
  apply (heartbeat_carries_seq Example.rt _ _ _ (JInt 0) (JInt 43)
           (JStr "MESSAGE_CREATE") (JDict [("content", JStr "hi")])
           seconds_41_25
           (recv_text_returns Example.rt
              (Example.connected [Example.text "MESSAGE_CREATE"])
              (mkWebSocket false None None) (PyStr "MESSAGE_CREATE") []
              Example.message_create eq_refl eq_refl eq_refl eq_refl));
    try reflexivity.
  - discriminate.
  - vm_compute. discriminate.
Defined.

(** An acknowledgement where HELLO is due. *)
Lemma connect_expects_hello_witness :
  let c := step Example.rt RunMain
             (initial (Example.world_of Example.fresh
                         [Example.text "HEARTBEAT_ACK"])) in
  main (step Example.rt RunMain c) =
    Terminated
      (GatewayError [Lit "Expected HELLO opcode 10 but received "; Val (JInt 11)]
         None) /\
  payloads (log (world (step Example.rt RunMain c))) = [] /\
  heartbeat_task (step Example.rt RunMain c) = NotCreated /\
  ws (client (world (step Example.rt RunMain c))) =
    Some (mkWebSocket false None None) /\
  is_connected (client (world (step Example.rt RunMain c))) = false.
Proof.
  apply (connect_expects_hello Example.rt
           (step Example.rt RunMain
              (initial (Example.world_of Example.fresh
                          [Example.text "HEARTBEAT_ACK"])))
           Example.heartbeat_ack (JInt 11) _ eq_refl
           (recv_text_returns Example.rt
              (Example.connected [Example.text "HEARTBEAT_ACK"])
              (mkWebSocket false None None) (PyStr "HEARTBEAT_ACK") []
              Example.heartbeat_ack eq_refl eq_refl eq_refl eq_refl));
    reflexivity.
Defined.

(** The gateway refuses the connection. *)
Lemma connect_dial_failure_witness :
  let c := step Example.rt RunMain (initial Scenario.refused) in
  main c = Terminated (External "aiohttp.ClientConnectorError") /\
  ws (client (world c)) = None /\
  session (client (world c)) = Some (mkSession false) /\
  is_connected (client (world c)) = false /\
  payloads (log (world c)) = [].
Proof.
  apply (connect_dial_failure Example.rt (initial Scenario.refused)
           "aiohttp.ClientConnectorError");
    reflexivity.
Defined.

(** The handshake, a dispatch, the keep-alive tasks and [close]. *)
Lemma connected_while_running_witness :
  let c := connect Example.rt
             [RunMain; RunMain; RunPing; RunMain; RunHeartbeat; CallClose]
             (initial Example.going_quiet) in
  main c = Listening /\
  connected_at (client (world c)) = Py.float_lit 1 /\
  is_connected (client (world c)) = true.
Proof.
  cbn zeta. split; [reflexivity |].
  apply (connected_while_running Example.rt
           [RunMain; RunMain; RunPing; RunMain; RunHeartbeat; CallClose]
           Example.going_quiet).
  right. reflexivity.
Defined.

(** The fresh client. *)
Lemma disconnected_observables_witness :
  let w := Example.world_of Example.fresh [] in
  fst (uptime Example.rt w) = Return (JInt 0) /\
  Py.isnan (latency (client w)) = true /\
  Py.isnan (heartbeat_latency (client w)) = true.
Proof.
  cbn zeta.
  destruct (disconnected_observables Example.rt
              (Example.world_of Example.fresh [])) as (H1 & H2 & H3).
  split; [rewrite (H1 eq_refl); reflexivity | split].
  - apply H2. left. reflexivity.
  - apply H3. right. reflexivity.
Defined.

(** Members by id, and members by name with the default limit. *)
Lemma request_guild_members_constraints_witness :
  request_guild_members_payload (JStr "1") [JStr "2"]
    [("query", JStr "na"); ("user_ids", JList [JStr "7"])] =
  JDict [("guild_id", JList [JStr "1"; JStr "2"]);
         ("user_ids", JList [JStr "7"])] /\
  request_guild_members_payload (JStr "1") [] [("query", JStr "na")] =
  JDict [("guild_id", JList [JStr "1"]);
         ("query", JStr "na");
         ("limit", JInt 0)].
Proof.
  split.
  - apply (request_guild_members_constraints (JStr "1") [JStr "2"]
             [("query", JStr "na"); ("user_ids", JList [JStr "7"])]).
    reflexivity.
  - apply (request_guild_members_constraints (JStr "1") []
             [("query", JStr "na")]).
    reflexivity.
Defined.

(** A status that fits, and one that does not. *)
Lemma update_status_stores_presence_witness :
  presence (client (snd (update_status Example.rt Scenario.presences
                           (JStr "idle") (Example.connected [])))) =
    Some (JStr "idle") /\
  presence (client (snd (update_status Example.rt Scenario.presences
                           Example.oversized (Example.connected [])))) =
    None.
Proof.
  split.
  - apply (update_status_stores_presence Example.rt Scenario.presences
             (JStr "idle") (Example.connected [])).
    + vm_compute. discriminate.
    + discriminate.
  - rewrite (proj1 (update_status_stores_presence Example.rt Scenario.presences
                      Example.oversized (Example.connected []))).
    + reflexivity.
    + vm_compute. reflexivity.
Defined.

(** A nickname of [None] is stored; a cast that raises stores nothing. *)
Lemma put_if_specified_lookup_witness :
  (exists mapping',
      conversions.put_if_specified [("name", JStr "x")] "nick"
        (conversions.Given JNull) None = inr mapping' /\
      assoc "nick" mapping' = Some JNull /\
      assoc "name" mapping' = Some (JStr "x")) /\
  conversions.put_if_specified [("name", JStr "x")] "nick"
    (conversions.Given JNull)
    (Some (fun _ => inl (conversions.ValueError "not a name"))) =
  inl (conversions.ValueError "not a name").
Proof.
  split.
  - eexists. split; [reflexivity |].
    destruct (proj1 (proj2 (put_if_specified_lookup [("name", JStr "x")] "nick"
                              None))
                JNull _ eq_refl) as ((stored & Hs & ->) & Ho & _).
    split; [exact Hs |].
    rewrite Ho by discriminate. reflexivity.
  - apply (put_if_specified_lookup [("name", JStr "x")] "nick"
             (Some (fun _ => inl (conversions.ValueError "not a name"))))
      with (cast := fun _ : json => inl (conversions.ValueError "not a name")
                    : conversions.exception + json);
      reflexivity.
Defined.

(** Four bytes of a GIF. *)
Lemma image_too_short_witness :
  conversions.image_bytes_to_image_data string_of_list_byte
    (Some (list_byte_of_string "GIF8")) =
  inl (conversions.ValueError "Unsupported image type passed").
Proof.
  apply (image_too_short string_of_list_byte (list_byte_of_string "GIF8")).
  cbn. lia.
Defined.

(** Two GIFs that differ behind the twelfth byte. *)
Lemma image_type_of_prefix_witness :
  conversions.img_type (list_byte_of_string "GIF89a......one") =
  conversions.img_type (list_byte_of_string "GIF89a......two").
Proof.
  apply (image_type_of_prefix string_of_list_byte
           (list_byte_of_string "GIF89a......one")
           (list_byte_of_string "GIF89a......two")).
  reflexivity.
Defined.

(** KICK and BAN, in either order. *)
Lemma dereference_names_any_order_witness :
  conversions.dereference_int_flag Scenario.permissions
    (conversions.RawNames ["ban"; "kick"]) = inr 6.
Proof.
  apply (dereference_names_any_order Scenario.permissions
           ["kick"; "ban"] ["ban"; "kick"] 6).
  - apply perm_swap.
  - reflexivity.
Defined.

(** [kick] and [Kick]. *)
Lemma dereference_names_any_case_witness :
  conversions.dereference_int_flag Scenario.permissions
    (conversions.RawNames ["kick"; "BAN"]) =
  conversions.dereference_int_flag Scenario.permissions
    (conversions.RawNames ["Kick"; "ban"]).
Proof.
  apply (dereference_names_any_case Scenario.permissions
           ["kick"; "BAN"] ["Kick"; "ban"]).
  reflexivity.
Defined.


(** A dispatch without a sequence number, and one without a name. *)
Lemma incomplete_dispatch_witness :
  fst (poll_events Scenario.rt
         (Scenario.connected [Scenario.text "UNNUMBERED"])) =
    Raise (KeyError "s") /\
  fst (poll_events Scenario.rt (Scenario.connected [Scenario.text "NAMELESS"])) =
    Raise (KeyError "t") /\
  seq (client (snd (poll_events Scenario.rt
                      (Scenario.connected [Scenario.text "NAMELESS"])))) =
    JInt 7.
Proof.
  split.
  - rewrite (proj1 (incomplete_dispatch Scenario.rt _ _ _ (JInt 0) JNull
                      (recv_text_returns Scenario.rt
                         (Scenario.connected [Scenario.text "UNNUMBERED"])
                         (mkWebSocket false None None) (PyStr "UNNUMBERED") []
                         (JDict [("op", JInt 0); ("d", JNull);
                                 ("t", JStr "READY")])
                         eq_refl eq_refl eq_refl eq_refl)
                      eq_refl eq_refl eq_refl)
               (KeyError "s") eq_refl).
    reflexivity.
  - destruct (proj2 (incomplete_dispatch Scenario.rt _ _ _ (JInt 0) JNull
                       (recv_text_returns Scenario.rt
                          (Scenario.connected [Scenario.text "NAMELESS"])
                          (mkWebSocket false None None) (PyStr "NAMELESS") []
                          (JDict [("op", JInt 0); ("d", JNull); ("s", JInt 7)])
                          eq_refl eq_refl eq_refl eq_refl)
                       eq_refl eq_refl eq_refl)
                (JInt 7) (KeyError "t") eq_refl eq_refl) as (H1 & H2 & _).
    split; assumption.
Defined.

(** A heartbeat on the fresh client. *)
Lemma without_socket_witness :
  let w := Example.world_of Example.fresh [] in
  send Example.rt (heartbeat_payload JNull) w =
    (Raise AttributeError, emit EvAcquire w) /\
  recv Example.rt w = (Raise AttributeError, w) /\
  ping_keep_alive Example.rt w = (Raise AttributeError, w).
Proof.
  cbn zeta.
  destruct (without_socket Example.rt (Example.world_of Example.fresh [])
              eq_refl) as (H1 & _ & H3 & H4).
  split; [| split].
  - apply H1. vm_compute. discriminate.
  - exact H3.
  - apply H4. reflexivity.
Defined.

(** Pinged at 2, answered at 3. *)
Lemma ping_pong_latency_witness :
  let w := Example.connected [Scenario.pong; Example.text "HELLO"] in
  latency (client (snd (recv Example.rt (snd (ping_keep_alive Example.rt w))))) =
    Py.float_lit 1.
Proof.
  cbn zeta.
  destruct (ping_pong_latency Example.rt
              (Example.connected [Scenario.pong; Example.text "HELLO"])
              (mkWebSocket false None None) PyNone (PyStr "HELLO") []
              eq_refl eq_refl eq_refl eq_refl) as (_ & _ & H & _).
  rewrite H. reflexivity.
Defined.

(** A CLOSED frame, and a receive that times out. *)
Lemma recv_gives_up_witness :
  fst (recv Example.rt
         (Example.connected
            [Frame (mkMessage CLOSED PyNone); Example.text "HELLO"])) =
    Raise GatewayClientClosedError /\
  fst (poll_events Example.rt
         (Example.connected [ReceiveTimeout; Example.text "HELLO"])) =
    Raise TimeoutError.
Proof.
  split.
  - rewrite (proj1 (recv_gives_up Example.rt
                      (Example.connected
                         [Frame (mkMessage CLOSED PyNone); Example.text "HELLO"])
                      (mkWebSocket false None None) [Example.text "HELLO"]
                      eq_refl eq_refl)
               (mkMessage CLOSED PyNone) eq_refl (or_intror eq_refl)).
    reflexivity.
  - rewrite (proj2 (proj2 (proj2 (recv_gives_up Example.rt
                      (Example.connected
                         [ReceiveTimeout; Example.text "HELLO"])
                      (mkWebSocket false None None) [Example.text "HELLO"]
                      eq_refl eq_refl))
               eq_refl)).
    reflexivity.
Defined.
